(** * Recurring-appointment scheduling of FavaleTrainerCRM

    A shallow embedding of the recurrence expansion, the conflict check and
    the single-class update of the server, with the properties the
    specification states about them.

    Sources embedded here:
    - [server/controllers/newScheduling.controller.ts]
      ([createRecurrentScheduling], [updateClass], [checkConflicts],
      [generateRecurrentClasses]);
    - the route file registering [/api/sessions], [/api/sessions/check-conflicts],
      [/api/new-scheduling/recurrent] ([generateClassesFromRecurrence]),
      [/api/professors/availability] and [/api/appointments/recurring];
    - [server/db.ts] (the driver behind [db.execute]).

    JavaScript [Date] values are modelled by their time value (milliseconds
    since the epoch, a [Z]) with the calendar functions of ECMAScript
    (section "Date objects"); the local time zone is taken to be UTC, so
    local-time setters and getters act on the time value directly. *)

From stdpp Require Import gmap strings list sorting.
From Stdlib Require Import ZArith Lia.

Local Open Scope Z_scope.

(** ** ECMAScript calendar arithmetic *)

Module JSDate.

Definition msPerSecond : Z := 1000.
Definition msPerMinute : Z := 60000.
Definition msPerHour : Z := 3600000.
Definition msPerDay : Z := 86400000.

Definition Day (t : Z) : Z := t / msPerDay.
Definition TimeWithinDay (t : Z) : Z := t mod msPerDay.

Definition DayFromYear (y : Z) : Z :=
  365 * (y - 1970) + (y - 1969) / 4 - (y - 1901) / 100 + (y - 1601) / 400.

Definition InLeapYear (y : Z) : bool :=
  (y mod 4 =? 0) && (negb (y mod 100 =? 0) || (y mod 400 =? 0)).

Definition DaysInYear (y : Z) : Z := if InLeapYear y then 366 else 365.

(** The largest year whose first day is not after day [d]: an estimate from
    the mean year length, corrected by at most one. *)
Definition YearFromDay (d : Z) : Z :=
  let y := 1970 + (400 * d) / 146097 in
  if d <? DayFromYear y then y - 1
  else if DayFromYear (y + 1) <=? d then y + 1
  else y.

(** Day within the year of the first day of month [m] (0 = January);
    [monthStart leap 12] is the length of the year. *)
Definition monthStart (leap : bool) (m : Z) : Z :=
  let l := if leap then 1 else 0 in
  if m <=? 0 then 0
  else if m =? 1 then 31
  else if m =? 2 then 59 + l
  else if m =? 3 then 90 + l
  else if m =? 4 then 120 + l
  else if m =? 5 then 151 + l
  else if m =? 6 then 181 + l
  else if m =? 7 then 212 + l
  else if m =? 8 then 243 + l
  else if m =? 9 then 273 + l
  else if m =? 10 then 304 + l
  else if m =? 11 then 334 + l
  else 365 + l.

Definition MonthFromDayWithinYear (leap : bool) (dwy : Z) : Z :=
  if dwy <? monthStart leap 1 then 0
  else if dwy <? monthStart leap 2 then 1
  else if dwy <? monthStart leap 3 then 2
  else if dwy <? monthStart leap 4 then 3
  else if dwy <? monthStart leap 5 then 4
  else if dwy <? monthStart leap 6 then 5
  else if dwy <? monthStart leap 7 then 6
  else if dwy <? monthStart leap 8 then 7
  else if dwy <? monthStart leap 9 then 8
  else if dwy <? monthStart leap 10 then 9
  else if dwy <? monthStart leap 11 then 10
  else 11.

Definition DaysInMonth (y m : Z) : Z :=
  monthStart (InLeapYear y) (m + 1) - monthStart (InLeapYear y) m.

Definition YearFromTime (t : Z) : Z := YearFromDay (Day t).
Definition DayWithinYear (t : Z) : Z := Day t - DayFromYear (YearFromTime t).
Definition MonthFromTime (t : Z) : Z :=
  MonthFromDayWithinYear (InLeapYear (YearFromTime t)) (DayWithinYear t).
Definition DateFromTime (t : Z) : Z :=
  DayWithinYear t - monthStart (InLeapYear (YearFromTime t)) (MonthFromTime t) + 1.
Definition WeekDay (t : Z) : Z := (Day t + 4) mod 7.
Definition HourFromTime (t : Z) : Z := (t / msPerHour) mod 24.
Definition MinFromTime (t : Z) : Z := (t / msPerMinute) mod 60.
Definition SecFromTime (t : Z) : Z := (t / msPerSecond) mod 60.
Definition msFromTime (t : Z) : Z := t mod msPerSecond.

Definition MakeTime (h m s ms : Z) : Z :=
  h * msPerHour + m * msPerMinute + s * msPerSecond + ms.

Definition MakeDay (year month date : Z) : Z :=
  let ym := year + month / 12 in
  let mn := month mod 12 in
  DayFromYear ym + monthStart (InLeapYear ym) mn + date - 1.

Definition MakeDate (day time : Z) : Z := day * msPerDay + time.

(** The getters and setters of [Date.prototype] the handlers call. *)
Definition getFullYear := YearFromTime.
Definition getMonth := MonthFromTime.
Definition getDate := DateFromTime.
Definition getDay := WeekDay.
Definition getHours := HourFromTime.
Definition getMinutes := MinFromTime.

Definition setDate (t date : Z) : Z :=
  MakeDate (MakeDay (YearFromTime t) (MonthFromTime t) date) (TimeWithinDay t).

Definition setMonth (t month : Z) : Z :=
  MakeDate (MakeDay (YearFromTime t) month (DateFromTime t)) (TimeWithinDay t).

Definition setFullYear (t year : Z) : Z :=
  MakeDate (MakeDay year (MonthFromTime t) (DateFromTime t)) (TimeWithinDay t).

(** [setHours(h)], [setHours(h, m)] and [setHours(h, m, s, ms)]: the
    arguments left out keep their current value. *)
Definition setHours1 (t h : Z) : Z :=
  MakeDate (Day t) (MakeTime h (MinFromTime t) (SecFromTime t) (msFromTime t)).

Definition setHours2 (t h m : Z) : Z :=
  MakeDate (Day t) (MakeTime h m (SecFromTime t) (msFromTime t)).

Definition setHours4 (t h m s ms : Z) : Z :=
  MakeDate (Day t) (MakeTime h m s ms).

(** A calendar date at a time of day, as [new Date(y, m, d, h, min)] builds it. *)
Definition mkDate (y m d h mi : Z) : Z :=
  MakeDate (MakeDay y m d) (MakeTime h mi 0 0).

End JSDate.

Import JSDate.

(** ** Months reached by [setMonth] *)

(** The month after [(y, m)]. *)
Definition nextMonth (y m : Z) : Z * Z := if m =? 11 then (y + 1, 0) else (y, m + 1).

(** The month [setMonth (getMonth + k)] aims at. *)
Definition targetYear (t k : Z) : Z := YearFromTime t + (MonthFromTime t + k) / 12.
Definition targetMonth (t k : Z) : Z := (MonthFromTime t + k) mod 12.

(** Each start of a series is on the day that [setMonth(getMonth() + k)]
    makes of the start before it. *)
Definition monthlySteps (k : Z) (starts : list Z) : Prop :=
  forall i a b,
    starts !! i = Some a ->
    starts !! S i = Some b ->
    Day b = MakeDay (YearFromTime a) (MonthFromTime a + k) (DateFromTime a).

(** A series of starts in which each is reached from the one before by
    [setMonth(getMonth() + k)], without clamping. The start after one on
    day [d] is on day [d] of the month aimed at when that month has that
    many days. Otherwise it is in the month after the one aimed at, on the
    day by which the length is exceeded; every later start is on that day
    too; and, when [k] is at least one, the month aimed at has no start. *)
Definition rollsOver (k : Z) (starts : list Z) : Prop :=
  forall i a b,
    starts !! i = Some a ->
    starts !! S i = Some b ->
    let y := targetYear a k in
    let m := targetMonth a k in
    let d := getDate a in
    (d <= DaysInMonth y m ->
     getFullYear b = y /\ getMonth b = m /\ getDate b = d) /\
    (DaysInMonth y m < d ->
     (getFullYear b, getMonth b) = nextMonth y m /\
     getDate b = d - DaysInMonth y m /\
     (forall j c, (i < j)%nat -> starts !! j = Some c -> getDate c = d - DaysInMonth y m) /\
     (1 <= k -> forall c, c ∈ starts -> ~ (getFullYear c = y /\ getMonth c = m))).


(** ** Data model *)

(** [regras.type], the [IRegraRecorrencia] union; [custom] (and any other
    value) takes the [default] branch of the [switch]. *)
Inductive RecurrenceType := daily | weekly | monthly | yearly | custom.

Record Regras := mkRegras {
  type : RecurrenceType;
  interval : Z;
  weekDays : option (list string);
}.

(** The status column of [aulas]. *)
Inductive AulaStatus := agendado | em_andamento | concluido | cancelado | remarcado.

#[global] Instance AulaStatus_eq_dec : EqDecision AulaStatus.
Proof. solve_decision. Defined.

(** A row of [agendamentos_recorrentes]: the validated request body
    ([Insert]) and the stored record with its id. *)
Module Agendamento.
Record Insert := mkInsert {
  professorId : Z;
  studentId : Z;
  location : string;
  value : Z;
  service : string;
  notes : option string;
  regras : Regras;
  startDate : Z;
  endDate : option Z;
  maxOccurrences : option Z;
  active : bool;
}.
Record t := mk { id : Z; dados : Insert }.
End Agendamento.

Coercion Agendamento.dados : Agendamento.t >-> Agendamento.Insert.

(** A row of [aulas]: the object the generators push ([Insert]), the stored
    record, and the partial body of an update. *)
Module Aula.
Record Insert := mkInsert {
  agendamentoRecorrenteId : option Z;
  professorId : Z;
  studentId : Z;
  startTime : Z;
  endTime : Z;
  location : string;
  value : Z;
  service : string;
  notes : option string;
  status : AulaStatus;
  isModified : bool;
  originalStartTime : option Z;
  originalEndTime : option Z;
}.
Record t := mk { id : Z; dados : Insert }.
End Aula.

Coercion Aula.dados : Aula.t >-> Aula.Insert.

(** ** [generateRecurrentClasses] (newScheduling.controller.ts) *)

Module Controller.

Definition dayNames : list string :=
  ["sunday"; "monday"; "tuesday"; "wednesday"; "thursday"; "friday"; "saturday"]%string.

(** [dayNames[currentDate.getDay()]]. *)
Definition currentDayName (currentDate : Z) : option string :=
  dayNames !! Z.to_nat (getDay currentDate).

(** [regras.weekDays.includes(currentDayName)]. *)
Definition includes (names : list string) (name : option string) : bool :=
  match name with
  | Some n => bool_decide (n ∈ names)
  | None => false
  end.

(** [maxDate]: six months after the moment of the call. *)
Definition maxDate (now : Z) : Z := setMonth now (getMonth now + 6).

(** [agendamento.maxOccurrences && occurrenceCount >= agendamento.maxOccurrences]:
    an absent or zero limit is falsy. *)
Definition reachedMaxOccurrences (maxOccurrences : option Z) (occurrenceCount : Z) : bool :=
  match maxOccurrences with
  | Some n => negb (n =? 0) && (n <=? occurrenceCount)
  | None => false
  end.

(** [endDate && currentDate > endDate]. *)
Definition pastEndDate (endDate : option Z) (currentDate : Z) : bool :=
  match endDate with
  | Some e => e <? currentDate
  | None => false
  end.

(** The weekday filter of a weekly rule: [true] when the day is skipped. *)
Definition skipsDay (regras : Regras) (currentDate : Z) : bool :=
  match type regras, weekDays regras with
  | weekly, Some names => negb (includes names (currentDayName currentDate))
  | _, _ => false
  end.

(** The class pushed for [currentDate]: the start time takes the hours and
    minutes of [startDate], the end time those of [startDate] moved one
    hour on. *)
Definition aulaAt (agendamento : Agendamento.t) (currentDate : Z) : Aula.Insert :=
  let startDate := Agendamento.startDate agendamento in
  let originalStartTime := startDate in
  let originalEndTime := setHours1 startDate (getHours originalStartTime + 1) in
  let startTime :=
    setHours2 currentDate (getHours originalStartTime) (getMinutes originalStartTime) in
  let endTime :=
    setHours2 currentDate (getHours originalEndTime) (getMinutes originalEndTime) in
  {| Aula.agendamentoRecorrenteId := Some (Agendamento.id agendamento);
     Aula.professorId := Agendamento.professorId agendamento;
     Aula.studentId := Agendamento.studentId agendamento;
     Aula.startTime := startTime;
     Aula.endTime := endTime;
     Aula.location := Agendamento.location agendamento;
     Aula.value := Agendamento.value agendamento;
     Aula.service := Agendamento.service agendamento;
     Aula.notes := Agendamento.notes agendamento;
     Aula.status := agendado;
     Aula.isModified := false;
     Aula.originalStartTime := None;
     Aula.originalEndTime := None |}.

(** The [switch] that moves the cursor to the next occurrence. *)
Definition advance (regras : Regras) (currentDate : Z) : Z :=
  match type regras with
  | daily => setDate currentDate (getDate currentDate + interval regras)
  | weekly => setDate currentDate (getDate currentDate + 7 * interval regras)
  | monthly => setMonth currentDate (getMonth currentDate + interval regras)
  | yearly => setFullYear currentDate (getFullYear currentDate + interval regras)
  | custom => setDate currentDate (getDate currentDate + 1)
  end.

(** The [while (currentDate <= maxDate)] loop; [None] when [fuel] iterations
    do not reach its exit. *)
Fixpoint generateLoop (fuel : nat) (agendamento : Agendamento.t) (maxDate : Z)
    (currentDate occurrenceCount : Z) (aulas : list Aula.Insert)
    : option (list Aula.Insert) :=
  match fuel with
  | O => None
  | S fuel' =>
    if maxDate <? currentDate then Some aulas
    else if reachedMaxOccurrences (Agendamento.maxOccurrences agendamento) occurrenceCount
    then Some aulas
    else if pastEndDate (Agendamento.endDate agendamento) currentDate then Some aulas
    else if skipsDay (Agendamento.regras agendamento) currentDate
    then generateLoop fuel' agendamento maxDate
           (setDate currentDate (getDate currentDate + 1)) occurrenceCount aulas
    else generateLoop fuel' agendamento maxDate
           (advance (Agendamento.regras agendamento) currentDate)
           (occurrenceCount + 1)
           (aulas ++ [aulaAt agendamento currentDate])
  end.

Definition generateRecurrentClasses (fuel : nat) (now : Z) (agendamento : Agendamento.t)
    : option (list Aula.Insert) :=
  generateLoop fuel agendamento (maxDate now)
    (Agendamento.startDate agendamento) 0 [].

End Controller.

(** ** The recurrence loops of the route file *)

Module Routes.

(** An element of the [sessions] array built by [POST /api/sessions]. *)
Record SessionSlot := mkSlot {
  slotStartTime : Z;
  slotEndTime : Z;
  isParent : bool;
}.

(** The fields of the request body the recurrence loop reads. *)
Record SessionBody := mkBody {
  startTime : Z;
  endTime : Z;
  recurrenceType : string;
  recurrenceInterval : Z;
  recurrenceWeekDays : option (list string);
  recurrenceEndType : string;
  recurrenceEndDate : option Z;
  recurrenceEndCount : option Z;
}.

Definition dayNames : list string :=
  ["domingo"; "segunda"; "terca"; "quarta"; "quinta"; "sexta"; "sabado"]%string.

Definition currentDayName (currentDate : Z) : option string :=
  dayNames !! Z.to_nat (getDay currentDate).

(** [recurrenceWeekDays && recurrenceWeekDays.includes(currentDayName)]. *)
Definition dayIsSelected (recurrenceWeekDays : option (list string)) (currentDate : Z) : bool :=
  match recurrenceWeekDays, currentDayName currentDate with
  | Some names, Some n => bool_decide (n ∈ names)
  | _, _ => false
  end.

(** [recurrenceEndType === 'count' ? recurrenceEndCount : 100]; [None] is an
    absent [recurrenceEndCount], with which the loop condition is false. *)
Definition maxSessions (body : SessionBody) : option Z :=
  if String.eqb (recurrenceEndType body) "count" then recurrenceEndCount body
  else Some 100.

(** [recurrenceEndType === 'date' ? new Date(recurrenceEndDate) : null]. *)
Definition endDateOf (body : SessionBody) : option Z :=
  if String.eqb (recurrenceEndType body) "date" then recurrenceEndDate body
  else None.

Definition belowMax (sessionCount : Z) (maxSessions : option Z) : bool :=
  match maxSessions with
  | Some n => sessionCount <? n
  | None => false
  end.

Definition pastEndDate (endDate : option Z) (currentDate : Z) : bool :=
  match endDate with
  | Some e => e <? currentDate
  | None => false
  end.

(** The session pushed for [currentDate]: both ends take their hours and
    minutes from the request's own start and end. *)
Definition slotAt (body : SessionBody) (currentDate : Z) (sessions : list SessionSlot)
    : SessionSlot :=
  let baseStartTime := startTime body in
  let baseEndTime := endTime body in
  {| slotStartTime :=
       setHours4 currentDate (getHours baseStartTime) (getMinutes baseStartTime) 0 0;
     slotEndTime :=
       setHours4 currentDate (getHours baseEndTime) (getMinutes baseEndTime) 0 0;
     isParent := bool_decide (sessions = []) |}.

(** One pass through the body of the loop: the sessions and the cursor after it. *)
Definition step (body : SessionBody) (currentDate : Z) (sessions : list SessionSlot)
    : list SessionSlot * Z :=
  if String.eqb (recurrenceType body) "weekly" then
    let sessions' :=
      if dayIsSelected (recurrenceWeekDays body) currentDate
      then sessions ++ [slotAt body currentDate sessions]
      else sessions in
    let nextDay := setDate currentDate (getDate currentDate + 1) in
    let currentDate' :=
      if getDay nextDay =? getDay (startTime body)
      then setDate nextDay (getDate nextDay + 7 * (recurrenceInterval body - 1))
      else nextDay in
    (sessions', currentDate')
  else if String.eqb (recurrenceType body) "daily" then
    (sessions ++ [slotAt body currentDate sessions],
     setDate currentDate (getDate currentDate + recurrenceInterval body))
  else if String.eqb (recurrenceType body) "monthly" then
    (sessions ++ [slotAt body currentDate sessions],
     setMonth currentDate (getMonth currentDate + recurrenceInterval body))
  else (sessions, currentDate).

(** The [while (sessionCount < maxSessions)] loop of [POST /api/sessions]. *)
Fixpoint sessionsLoop (fuel : nat) (body : SessionBody)
    (currentDate sessionCount : Z) (sessions : list SessionSlot)
    : option (list SessionSlot) :=
  match fuel with
  | O => None
  | S fuel' =>
    if negb (belowMax sessionCount (maxSessions body)) then Some sessions
    else if pastEndDate (endDateOf body) currentDate then Some sessions
    else
      let '(sessions', currentDate') := step body currentDate sessions in
      let sessionCount' := sessionCount + 1 in
      if 365 <? sessionCount' then Some sessions'
      else sessionsLoop fuel' body currentDate' sessionCount' sessions'
  end.

(** The recurring branch of [POST /api/sessions]: the sessions it inserts. *)
Definition recurringSessions (fuel : nat) (body : SessionBody) : option (list SessionSlot) :=
  sessionsLoop fuel body (startTime body) 0 [].

(** The walk of a weekly request with an interval of one, written out: [k]
    days from [currentDate] on, a session on each selected day. *)
Fixpoint walkDays (body : SessionBody) (currentDate : Z) (k : nat)
    (sessions : list SessionSlot) : list SessionSlot :=
  match k with
  | O => sessions
  | S k' =>
    walkDays body (currentDate + msPerDay) k'
      (if dayIsSelected (recurrenceWeekDays body) currentDate
       then sessions ++ [slotAt body currentDate sessions]
       else sessions)
  end.

(** The number of Mondays and Wednesdays among [k] days, the first of which
    is weekday [w]. *)
Fixpoint mondaysAndWednesdays (w : Z) (k : nat) : nat :=
  match k with
  | O => O
  | S k' =>
    let today := if (w =? 1) || (w =? 3) then 1%nat else 0%nat in
    (today + mondaysAndWednesdays ((w + 1) mod 7) k')%nat
  end.

(** The [switch] of [generateClassesFromRecurrence]; its [default] branch
    tests [regras.type === 'weekly'], which the [case 'weekly'] above it has
    already taken, so it leaves the cursor where it is. *)
Definition advance (regras : Regras) (currentDate : Z) : Z :=
  match type regras with
  | daily => setDate currentDate (getDate currentDate + interval regras)
  | weekly => setDate currentDate (getDate currentDate + 7 * interval regras)
  | monthly => setMonth currentDate (getMonth currentDate + interval regras)
  | yearly => setFullYear currentDate (getFullYear currentDate + interval regras)
  | custom => currentDate
  end.

(** The class pushed for [currentDate]: one hour long. *)
Definition classAt (agendamento : Agendamento.t) (currentDate : Z) : Aula.Insert :=
  let classEndTime := setHours1 currentDate (getHours currentDate + 1) in
  {| Aula.agendamentoRecorrenteId := Some (Agendamento.id agendamento);
     Aula.professorId := Agendamento.professorId agendamento;
     Aula.studentId := Agendamento.studentId agendamento;
     Aula.startTime := currentDate;
     Aula.endTime := classEndTime;
     Aula.location := Agendamento.location agendamento;
     Aula.value := Agendamento.value agendamento;
     Aula.service := Agendamento.service agendamento;
     Aula.notes := Agendamento.notes agendamento;
     Aula.status := agendado;
     Aula.isModified := false;
     Aula.originalStartTime := None;
     Aula.originalEndTime := None |}.

(** The [while (true)] loop of [generateClassesFromRecurrence]. *)
Fixpoint classesLoop (fuel : nat) (agendamento : Agendamento.t)
    (currentDate count : Z) (classes : list Aula.Insert) : option (list Aula.Insert) :=
  match fuel with
  | O => None
  | S fuel' =>
    if Controller.reachedMaxOccurrences (Agendamento.maxOccurrences agendamento) count
    then Some classes
    else if pastEndDate (Agendamento.endDate agendamento) currentDate then Some classes
    else if 100 <? count then Some classes
    else classesLoop fuel' agendamento
           (advance (Agendamento.regras agendamento) currentDate)
           (count + 1)
           (classes ++ [classAt agendamento currentDate])
  end.

Definition generateClassesFromRecurrence (fuel : nat) (agendamento : Agendamento.t)
    : option (list Aula.Insert) :=
  classesLoop fuel agendamento (Agendamento.startDate agendamento) 0 [].

End Routes.

(** ** The results of [db.execute] (server/db.ts) *)

Module Db.

(** The shape of what [db.execute] resolves to. [server/db.ts] builds [db]
    with [drizzle] of drizzle-orm/postgres-js over a [postgres] client: its
    [execute] resolves to the array of rows itself, and that array has no
    property [rows]. The handlers of the route file read [result.rows],
    which is where a node-postgres style driver puts the rows. *)
Inductive Driver := postgres_js | node_postgres.

(** The driver of [server/db.ts]. *)
Definition driver : Driver := postgres_js.

(** [result.rows]; [None] is [undefined]. *)
Definition rows {A : Type} (d : Driver) (result : list A) : option (list A) :=
  match d with
  | postgres_js => None
  | node_postgres => Some result
  end.

End Db.

(** ** [POST /api/sessions/check-conflicts] *)

Module CheckConflicts.

(** The columns of [sessions] and [leads] the two queries read. *)
Record Session := mkSession {
  id : Z;
  start_time : Z;
  end_time : Z;
  lead_id : Z;
  trainer_id : Z;
  status : string;
}.

Record Lead := mkLead {
  leadId : Z;
  name : string;
}.

Record Database := mkDatabase {
  sessions : list Session;
  leads : list Lead;
}.

(** The request body: [date] is the day the date string denotes, [startTime]
    and [endTime] the milliseconds into that day the time strings denote;
    [None] is a missing or empty field. *)
Record Body := mkBody {
  trainerId : option Z;
  date : option Z;
  startTime : option Z;
  endTime : option Z;
}.

(** [new Date(`${date}T${time}`)]. *)
Definition dateTime (date time : Z) : Z := MakeDate date time.

(** SQL [x BETWEEN lo AND hi]. *)
Definition between (x lo hi : Z) : bool := (lo <=? x) && (x <=? hi).

(** SQL [DATE(ts)]. *)
Definition DATE (ts : Z) : Z := Day ts.

Definition tolerance : Z := 15 * 60000.

(** The [WHERE] clause of the conflict query. *)
Definition conflictWhere (trainerId date startDateTime endDateTime : Z) (s : Session) : bool :=
  let toleranceStart := startDateTime - tolerance in
  let toleranceEnd := endDateTime + tolerance in
  (trainer_id s =? trainerId)
  && String.eqb (status s) "agendado"
  && (DATE (start_time s) =? date)
  && (between (start_time s) toleranceStart toleranceEnd
      || between (end_time s) toleranceStart toleranceEnd
      || ((start_time s <=? startDateTime) && (endDateTime <=? end_time s))).

(** [FROM sessions s JOIN leads l ON s.lead_id = l.id WHERE ...]. *)
Definition conflictRows (db : Database) (trainerId date startDateTime endDateTime : Z)
    : list (Session * Lead) :=
  s ← sessions db;
  l ← leads db;
  if (lead_id s =? leadId l) && conflictWhere trainerId date startDateTime endDateTime s
  then [(s, l)] else [].

(** The rule of the specification, in its words: same professor, status not
    cancelled, the candidate window padded by the tolerance overlapping the
    stored window under [a1 < b2 AND b1 < a2]. *)
Definition specConflict (trainerId startDateTime endDateTime : Z) (s : Session) : Prop :=
  trainer_id s = trainerId /\
  status s <> "cancelado"%string /\
  startDateTime - tolerance < end_time s /\
  start_time s < endDateTime + tolerance.

(** The [WHERE] clause of the query that counts the sessions in the way of
    a suggested slot. *)
Definition slotWhere (trainerId date slotStart slotEnd : Z) (s : Session) : bool :=
  (trainer_id s =? trainerId)
  && String.eqb (status s) "agendado"
  && (DATE (start_time s) =? date)
  && (between (start_time s) slotStart slotEnd
      || between (end_time s) slotStart slotEnd
      || ((start_time s <=? slotStart) && (slotEnd <=? end_time s))).

(** [SELECT COUNT( * ) FROM sessions s WHERE ...]. *)
Definition slotConflictCount (db : Database) (trainerId date slotStart slotEnd : Z) : Z :=
  Z.of_nat (length (filter (fun s => slotWhere trainerId date slotStart slotEnd s = true)
                           (sessions db))).

(** The ladder of slot starts, as hours and minutes. *)
Definition timeSlots : list (Z * Z) :=
  [(6, 0); (6, 30); (7, 0); (7, 30); (8, 0); (8, 30);
   (9, 0); (9, 30); (10, 0); (10, 30); (11, 0); (11, 30);
   (12, 0); (12, 30); (13, 0); (13, 30); (14, 0); (14, 30);
   (15, 0); (15, 30); (16, 0); (16, 30); (17, 0); (17, 30);
   (18, 0); (18, 30); (19, 0); (19, 30); (20, 0); (20, 30)].

(** An element of [suggestedTimes]: the slot and the end of the session
    that would start there. *)
Record SuggestedTime := mkSuggested {
  start : Z * Z;
  slotEnd : Z;
}.

Definition slotStartOf (date : Z) (slot : Z * Z) : Z :=
  dateTime date (MakeTime (fst slot) (snd slot) 0 0).

(** The [for (const slot of timeSlots.slice(0, 5))] loop. *)
Fixpoint suggestLoop (db : Database) (trainerId date startDateTime endDateTime : Z)
    (slots : list (Z * Z)) (suggestedTimes : list SuggestedTime) : list SuggestedTime :=
  match slots with
  | [] => suggestedTimes
  | slot :: rest =>
    let slotStart := slotStartOf date slot in
    let slotEnd := slotStart + (endDateTime - startDateTime) in
    let suggestedTimes' :=
      if slotConflictCount db trainerId date slotStart slotEnd =? 0
      then suggestedTimes ++ [mkSuggested slot slotEnd]
      else suggestedTimes in
    suggestLoop db trainerId date startDateTime endDateTime rest suggestedTimes'
  end.

Definition suggestedTimes (db : Database) (trainerId date startDateTime endDateTime : Z)
    : list SuggestedTime :=
  suggestLoop db trainerId date startDateTime endDateTime (take 5 timeSlots) [].

(** An element of the [conflicts] array of the response; the message texts
    are kept as the values they are built from. *)
Inductive ConflictEntry :=
  | trainer_busy (student_name : string) (start_time end_time : Z)
  | suggestion (times : list SuggestedTime).

Inductive Response :=
  | BadRequest
  | Json (conflicts : list ConflictEntry)
  | ServerError.

(** [!trainerId]: a missing id and the id 0 are falsy. *)
Definition truthyId (trainerId : option Z) : option Z :=
  match trainerId with
  | Some n => if n =? 0 then None else Some n
  | None => None
  end.

(** The handler, over the driver [d] behind [db]. The conflict query is
    run, and the handler reads [conflictsResult.rows.length]: where [rows]
    is [undefined] that throws, and the [catch] answers 500. Past that
    point [rows] is defined, so the suggestion loop reads its counts. *)
Definition checkConflictsWith (d : Db.Driver) (db : Database) (body : Body) : Response :=
  match truthyId (trainerId body), date body, startTime body, endTime body with
  | Some trainerId, Some date, Some startTime, Some endTime =>
    let startDateTime := dateTime date startTime in
    let endDateTime := dateTime date endTime in
    let conflictsResult := conflictRows db trainerId date startDateTime endDateTime in
    match Db.rows d conflictsResult with
    | None => ServerError
    | Some rows =>
      let conflicts :=
        map (fun r => trainer_busy (name (snd r)) (start_time (fst r)) (end_time (fst r)))
            rows in
      if bool_decide (conflicts = []) then Json conflicts
      else
        let suggestedTimes := suggestedTimes db trainerId date startDateTime endDateTime in
        if bool_decide (suggestedTimes = []) then Json conflicts
        else Json (conflicts ++ [suggestion suggestedTimes])
    end
  | _, _, _, _ => BadRequest
  end.

(** The handler as the server runs it, on the driver of [server/db.ts]. *)
Definition checkConflicts (db : Database) (body : Body) : Response :=
  checkConflictsWith Db.driver db body.

End CheckConflicts.

(** ** The store behind [storage] *)

(** The body of [PUT /classes/:id] after [aulaValidationSchema.partial()]:
    every column optional. The controller itself writes [isModified],
    [originalStartTime] and [originalEndTime] into it. *)
Module AulaUpdate.
Record t := mk {
  professorId : option Z;
  studentId : option Z;
  startTime : option Z;
  endTime : option Z;
  location : option string;
  value : option Z;
  service : option string;
  notes : option string;
  status : option AulaStatus;
  isModified : option bool;
  originalStartTime : option Z;
  originalEndTime : option Z;
}.
End AulaUpdate.

Module Storage.

(** The columns of [users] and [leads] the handlers read. *)
Record User := mkUser { role : string; userName : string }.
Record Lead := mkLead { leadName : string }.

(** Modelled from the spec: the storage module is outside the sources at
    hand; the specification asks for "a durable store of session-instance
    and recurrence-rule records". Tables are finite maps from the serial id
    to the row, with the next id of each serial column. *)
Record Store := mkStore {
  users : gmap Z User;
  leads : gmap Z Lead;
  agendamentosRecorrentes : gmap Z Agendamento.Insert;
  aulas : gmap Z Aula.Insert;
  nextAgendamentoId : Z;
  nextAulaId : Z;
}.

(** Modelled from the spec: [storage.getUserById], a lookup by id. *)
Definition getUserById (st : Store) (id : Z) : option User := users st !! id.

(** Modelled from the spec: [storage.getLeadById], a lookup by id. *)
Definition getLeadById (st : Store) (id : Z) : option Lead := leads st !! id.

(** Modelled from the spec: [storage.getAulaById], a lookup by id. *)
Definition getAulaById (st : Store) (id : Z) : option Aula.t :=
  Aula.mk id <$> aulas st !! id.

(** Modelled from the spec: [storage.createAgendamentoRecorrente] inserts the
    rule under the next serial id and returns the stored record. *)
Definition createAgendamentoRecorrente (st : Store) (dados : Agendamento.Insert)
    : Store * Agendamento.t :=
  let id := nextAgendamentoId st in
  ({| users := users st;
      leads := leads st;
      agendamentosRecorrentes := <[id := dados]> (agendamentosRecorrentes st);
      aulas := aulas st;
      nextAgendamentoId := id + 1;
      nextAulaId := nextAulaId st |},
   Agendamento.mk id dados).

(** Modelled from the spec: the insert behind [storage.createMultipleAulas]
    stores every class of the batch, in order, under consecutive serial ids,
    and returns the stored records. *)
Fixpoint insertAulas (tbl : gmap Z Aula.Insert) (next : Z) (batch : list Aula.Insert)
    : gmap Z Aula.Insert * Z * list Aula.t :=
  match batch with
  | [] => (tbl, next, [])
  | a :: rest =>
    let '(tbl', next', created) := insertAulas (<[next := a]> tbl) (next + 1) rest in
    (tbl', next', Aula.mk next a :: created)
  end.

(** Modelled from the spec: [storage.createMultipleAulas], the whole batch
    in one insert. *)
Definition createMultipleAulas (st : Store) (batch : list Aula.Insert)
    : Store * list Aula.t :=
  let '(tbl, next, created) := insertAulas (aulas st) (nextAulaId st) batch in
  ({| users := users st;
      leads := leads st;
      agendamentosRecorrentes := agendamentosRecorrentes st;
      aulas := tbl;
      nextAgendamentoId := nextAgendamentoId st;
      nextAulaId := next |},
   created).

(** The row after [SET]ting the columns present in the update. *)
Definition merge (u : AulaUpdate.t) (a : Aula.Insert) : Aula.Insert :=
  {| Aula.agendamentoRecorrenteId := Aula.agendamentoRecorrenteId a;
     Aula.professorId := default (Aula.professorId a) (AulaUpdate.professorId u);
     Aula.studentId := default (Aula.studentId a) (AulaUpdate.studentId u);
     Aula.startTime := default (Aula.startTime a) (AulaUpdate.startTime u);
     Aula.endTime := default (Aula.endTime a) (AulaUpdate.endTime u);
     Aula.location := default (Aula.location a) (AulaUpdate.location u);
     Aula.value := default (Aula.value a) (AulaUpdate.value u);
     Aula.service := default (Aula.service a) (AulaUpdate.service u);
     Aula.notes :=
       match AulaUpdate.notes u with Some n => Some n | None => Aula.notes a end;
     Aula.status := default (Aula.status a) (AulaUpdate.status u);
     Aula.isModified := default (Aula.isModified a) (AulaUpdate.isModified u);
     Aula.originalStartTime :=
       match AulaUpdate.originalStartTime u with
       | Some t => Some t
       | None => Aula.originalStartTime a
       end;
     Aula.originalEndTime :=
       match AulaUpdate.originalEndTime u with
       | Some t => Some t
       | None => Aula.originalEndTime a
       end |}.

(** Modelled from the spec: [storage.updateAula] sets the columns present in
    the update on the row with that id and returns the row, as the sibling
    [PATCH /api/new-scheduling/classes/:id] does with
    [db.update(aulas).set(...).where(eq(aulas.id, id)).returning()]. *)
Definition updateAula (st : Store) (id : Z) (u : AulaUpdate.t) : Store * option Aula.t :=
  match aulas st !! id with
  | Some a =>
    ({| users := users st;
        leads := leads st;
        agendamentosRecorrentes := agendamentosRecorrentes st;
        aulas := <[id := merge u a]> (aulas st);
        nextAgendamentoId := nextAgendamentoId st;
        nextAulaId := nextAulaId st |},
     Some (Aula.mk id (merge u a)))
  | None => (st, None)
  end.

(** Modelled from the spec: the default tolerance of section 4.2, 15 minutes. *)
Definition toleranceMs : Z := 15 * 60000.

(** Modelled from the spec: the conflict test of section 4.2: same
    professor, status not cancelled, the candidate window padded by the
    tolerance overlapping the stored window under [a1 < b2 AND b1 < a2];
    the class named by [excludeAulaId] is left out. *)
Definition inTheWay (professorId startTime endTime : Z) (excludeAulaId : option Z)
    (row : Z * Aula.Insert) : bool :=
  negb (bool_decide (excludeAulaId = Some (fst row)))
  && (Aula.professorId (snd row) =? professorId)
  && negb (bool_decide (Aula.status (snd row) = cancelado))
  && (startTime - toleranceMs <? Aula.endTime (snd row))
  && (Aula.startTime (snd row) <? endTime + toleranceMs).

(** Modelled from the spec: [storage.checkSchedulingConflicts], which is
    outside the sources at hand; it returns the first stored class in the
    way of the candidate window, if any. *)
Definition specCheckSchedulingConflicts (st : Store)
    (professorId studentId startTime endTime : Z) (excludeAulaId : option Z)
    : option Aula.t :=
  match filter (fun row => inTheWay professorId startTime endTime excludeAulaId row = true)
               (map_to_list (aulas st)) with
  | row :: _ => Some (Aula.mk (fst row) (snd row))
  | [] => None
  end.

End Storage.

(** ** [createRecurrentScheduling] and [updateClass] (newScheduling.controller.ts) *)

Module Handlers.

Import Storage.

Section WithConflictCheck.

(** [storage.checkSchedulingConflicts(professorId, studentId, startTime,
    endTime, excludeAulaId)] is outside the sources at hand: the handlers
    are stated for any such function of the store; a truthy result is
    [Some] conflict. *)
Context {Conflict : Type}.
Variable checkSchedulingConflicts :
  Store -> Z -> Z -> Z -> Z -> option Z -> option Conflict.

Inductive CreateResponse :=
  | CreateBadRequest (message : string)
  | CreateConflict (conflicts : list (Z * Conflict))
  | Created (agendamento : Agendamento.t) (aulas : list Aula.t).

(** The [for (const aula of aulas)] loop that collects the conflicts. *)
Fixpoint collectConflicts (st : Store) (aulas : list Aula.Insert)
    (conflicts : list (Z * Conflict)) : list (Z * Conflict) :=
  match aulas with
  | [] => conflicts
  | aula :: rest =>
    match checkSchedulingConflicts st (Aula.professorId aula) (Aula.studentId aula)
            (Aula.startTime aula) (Aula.endTime aula) None with
    | Some hasConflict =>
        collectConflicts st rest (conflicts ++ [(Aula.startTime aula, hasConflict)])
    | None => collectConflicts st rest conflicts
    end
  end.

(** [req.body] is [None] when [agendamentoRecorrenteValidationSchema.parse]
    throws; the result is [None] when the generation loop does not end
    within [fuel] iterations. *)
Definition createRecurrentScheduling (fuel : nat) (now : Z) (st : Store)
    (body : option Agendamento.Insert) : option (Store * CreateResponse) :=
  match body with
  | None => Some (st, CreateBadRequest "Dados invalidos")
  | Some validatedData =>
    match getUserById st (Agendamento.professorId validatedData) with
    | None => Some (st, CreateBadRequest "Professor nao encontrado")
    | Some professor =>
      if negb (String.eqb (role professor) "professor")
      then Some (st, CreateBadRequest "Professor nao encontrado")
      else
        match getLeadById st (Agendamento.studentId validatedData) with
        | None => Some (st, CreateBadRequest "Aluno nao encontrado")
        | Some student =>
          let '(st1, agendamento) := createAgendamentoRecorrente st validatedData in
          match Controller.generateRecurrentClasses fuel now agendamento with
          | None => None
          | Some aulas =>
            match collectConflicts st1 aulas [] with
            | (_ :: _) as conflicts => Some (st1, CreateConflict conflicts)
            | [] =>
              let '(st2, createdAulas) := createMultipleAulas st1 aulas in
              Some (st2, Created agendamento createdAulas)
            end
          end
        end
    end
  end.

Inductive UpdateResponse :=
  | UpdateBadRequest (message : string)
  | NotFound
  | UpdateConflict (conflict : Conflict)
  | Updated (updatedAula : option Aula.t).

(** [validatedData.startTime || validatedData.endTime]. *)
Definition touchesTime (validatedData : AulaUpdate.t) : bool :=
  bool_decide (is_Some (AulaUpdate.startTime validatedData))
  || bool_decide (is_Some (AulaUpdate.endTime validatedData)).

(** [validatedData.professorId || existingAula.professorId]: an absent or
    zero id falls back to the stored one. *)
Definition orElse (x : option Z) (fallback : Z) : Z :=
  match x with
  | Some n => if n =? 0 then fallback else n
  | None => fallback
  end.

(** The update after the block "Marcar como modificada se horario mudou". *)
Definition markModified (existingAula : Aula.t) (validatedData : AulaUpdate.t)
    : AulaUpdate.t :=
  let snapshot := negb (bool_decide (is_Some (Aula.originalStartTime existingAula))) in
  {| AulaUpdate.professorId := AulaUpdate.professorId validatedData;
     AulaUpdate.studentId := AulaUpdate.studentId validatedData;
     AulaUpdate.startTime := AulaUpdate.startTime validatedData;
     AulaUpdate.endTime := AulaUpdate.endTime validatedData;
     AulaUpdate.location := AulaUpdate.location validatedData;
     AulaUpdate.value := AulaUpdate.value validatedData;
     AulaUpdate.service := AulaUpdate.service validatedData;
     AulaUpdate.notes := AulaUpdate.notes validatedData;
     AulaUpdate.status := AulaUpdate.status validatedData;
     AulaUpdate.isModified := Some true;
     AulaUpdate.originalStartTime :=
       if snapshot then Some (Aula.startTime existingAula)
       else AulaUpdate.originalStartTime validatedData;
     AulaUpdate.originalEndTime :=
       if snapshot then Some (Aula.endTime existingAula)
       else AulaUpdate.originalEndTime validatedData |}.

(** [aulaId] is [None] when [parseInt(req.params.id)] is [NaN]; [body] is
    [None] when the partial schema rejects the request body. *)
Definition updateClass (st : Store) (aulaId : option Z) (body : option AulaUpdate.t)
    : Store * UpdateResponse :=
  match aulaId with
  | None => (st, UpdateBadRequest "ID da aula invalido")
  | Some aulaId =>
    match body with
    | None => (st, UpdateBadRequest "Dados invalidos")
    | Some validatedData =>
      match getAulaById st aulaId with
      | None => (st, NotFound)
      | Some existingAula =>
        if touchesTime validatedData then
          let startTime :=
            default (Aula.startTime existingAula) (AulaUpdate.startTime validatedData) in
          let endTime :=
            default (Aula.endTime existingAula) (AulaUpdate.endTime validatedData) in
          let professorId :=
            orElse (AulaUpdate.professorId validatedData) (Aula.professorId existingAula) in
          let studentId :=
            orElse (AulaUpdate.studentId validatedData) (Aula.studentId existingAula) in
          match checkSchedulingConflicts st professorId studentId startTime endTime
                  (Some aulaId) with
          | Some hasConflict => (st, UpdateConflict hasConflict)
          | None =>
            let '(st', updatedAula) :=
              updateAula st aulaId (markModified existingAula validatedData) in
            (st', Updated updatedAula)
          end
        else
          let '(st', updatedAula) := updateAula st aulaId validatedData in
          (st', Updated updatedAula)
      end
    end
  end.

(** The conflict test the handler applies to one generated class. *)
Definition conflictOf (st : Store) (aula : Aula.Insert) : option Conflict :=
  checkSchedulingConflicts st (Aula.professorId aula) (Aula.studentId aula)
    (Aula.startTime aula) (Aula.endTime aula) None.

(** A run of update requests against the same class, each through
    [updateClass]: the store after the last one. *)
Fixpoint updateAll (st : Store) (aulaId : Z) (bodies : list AulaUpdate.t) : Store :=
  match bodies with
  | [] => st
  | body :: rest => updateAll (fst (updateClass st (Some aulaId) (Some body))) aulaId rest
  end.

End WithConflictCheck.

(** [POST /api/new-scheduling/recurrent] (route file): the rule is inserted,
    its classes are generated and, when there are any, inserted in one
    statement; no conflict check takes place on this path. *)
Definition postRecurrent (fuel : nat) (st : Store) (body : Agendamento.Insert)
    : option (Store * Agendamento.t) :=
  let '(st1, agendamento) := createAgendamentoRecorrente st body in
  match Routes.generateClassesFromRecurrence fuel agendamento with
  | None => None
  | Some [] => Some (st1, agendamento)
  | Some classes => Some (fst (createMultipleAulas st1 classes), agendamento)
  end.

(** Classes stored without a rule id at or past the next serial id: the
    state every store built through the handlers is in. *)
Definition ruleIdsBelowNext (st : Store) : Prop :=
  forall aulaId aula k,
    aulas st !! aulaId = Some aula ->
    Aula.agendamentoRecorrenteId aula = Some k ->
    k < nextAgendamentoId st.

End Handlers.

(** ** The payload of the recurrence form (NewRecurrenceForm.tsx) *)

Module NewRecurrenceForm.

(** The form data: the date is a day number, the two times are the
    milliseconds into the day their [HH:mm] strings denote, and [value] is
    already in cents. *)
Record RecurrenceFormData := mkForm {
  professorId : Z;
  studentId : Z;
  location : string;
  value : Z;
  service : string;
  notes : option string;
  startDate : Z;
  startTime : Z;
  endTime : Z;
  recurrence : Regras;
  endType : string;
  recurrenceEndDate : option Z;
  endCount : option Z;
}.

(** [new Date(`${data.startDate}T${data.endTime}`)]: computed by the form,
    and left out of the payload. *)
Definition endDateTime (data : RecurrenceFormData) : Z :=
  MakeDate (startDate data) (endTime data).

(** The body posted to [/api/new-scheduling/recurrent]. *)
Definition payload (data : RecurrenceFormData) : Agendamento.Insert :=
  let startDateTime := MakeDate (startDate data) (startTime data) in
  {| Agendamento.professorId := professorId data;
     Agendamento.studentId := studentId data;
     Agendamento.location := location data;
     Agendamento.value := value data;
     Agendamento.service := service data;
     Agendamento.notes := notes data;
     Agendamento.regras := recurrence data;
     Agendamento.startDate := startDateTime;
     Agendamento.endDate :=
       if String.eqb (endType data) "date" then recurrenceEndDate data else None;
     Agendamento.maxOccurrences :=
       if String.eqb (endType data) "count" then endCount data else None;
     Agendamento.active := true |}.

End NewRecurrenceForm.

(** ** Sample data *)

Module Sample.

Import Storage.

Definition aulaOn (professorId : Z) (startTime endTime : Z) (status : AulaStatus)
    : Aula.Insert :=
  {| Aula.agendamentoRecorrenteId := None;
     Aula.professorId := professorId;
     Aula.studentId := 20;
     Aula.startTime := startTime;
     Aula.endTime := endTime;
     Aula.location := "studio";
     Aula.value := 9000;
     Aula.service := "personal";
     Aula.notes := None;
     Aula.status := status;
     Aula.isModified := false;
     Aula.originalStartTime := None;
     Aula.originalEndTime := None |}.

(** One professor, one student and two classes on 2024-01-02: 09:00-10:00
    and 14:00-15:00. *)
Definition store : Store :=
  {| users := {[ 10 := mkUser "professor" "Bia" ]};
     leads := {[ 20 := mkLead "Ana" ]};
     agendamentosRecorrentes := ∅;
     aulas :=
       {[ 1 := aulaOn 10 (mkDate 2024 0 2 9 0) (mkDate 2024 0 2 10 0) agendado;
          2 := aulaOn 10 (mkDate 2024 0 2 14 0) (mkDate 2024 0 2 15 0) agendado ]};
     nextAgendamentoId := 1;
     nextAulaId := 3 |}.

Definition rule (regras : Regras) (startDate : Z) (endDate maxOccurrences : option Z)
    : Agendamento.Insert :=
  {| Agendamento.professorId := 10;
     Agendamento.studentId := 20;
     Agendamento.location := "studio";
     Agendamento.value := 9000;
     Agendamento.service := "personal";
     Agendamento.notes := None;
     Agendamento.regras := regras;
     Agendamento.startDate := startDate;
     Agendamento.endDate := endDate;
     Agendamento.maxOccurrences := maxOccurrences;
     Agendamento.active := true |}.

(** The moment of the sample requests: 2024-01-01 08:00. *)
Definition now : Z := mkDate 2024 0 1 8 0.

(** A daily rule for 2024-01-02 to 2024-01-04 at 14:30, whose first class
    runs into the stored class of 14:00. *)
Definition clashingRule : Agendamento.Insert :=
  rule (mkRegras daily 1 None) (mkDate 2024 0 2 14 30) (Some (mkDate 2024 0 4 23 0)) None.

(** The same rule at 11:00, clear of both stored classes. *)
Definition freeRule : Agendamento.Insert :=
  rule (mkRegras daily 1 None) (mkDate 2024 0 2 11 0) (Some (mkDate 2024 0 4 23 0)) None.

(** The form of a weekly Tuesday session from 2024-01-02, 09:00 to 10:30,
    three times. *)
Definition tuesdayForm : NewRecurrenceForm.RecurrenceFormData :=
  {| NewRecurrenceForm.professorId := 10;
     NewRecurrenceForm.studentId := 20;
     NewRecurrenceForm.location := "studio";
     NewRecurrenceForm.value := 9000;
     NewRecurrenceForm.service := "personal";
     NewRecurrenceForm.notes := None;
     NewRecurrenceForm.startDate := Day (mkDate 2024 0 2 0 0);
     NewRecurrenceForm.startTime := MakeTime 9 0 0 0;
     NewRecurrenceForm.endTime := MakeTime 10 30 0 0;
     NewRecurrenceForm.recurrence := mkRegras weekly 1 (Some ["tuesday"%string]);
     NewRecurrenceForm.endType := "count";
     NewRecurrenceForm.recurrenceEndDate := None;
     NewRecurrenceForm.endCount := Some 3 |}.

(** A monthly rule anchored on 2024-01-31 at 09:00, without end. *)
Definition endOfMonthRule : Agendamento.Insert :=
  rule (mkRegras monthly 1 None) (mkDate 2024 0 31 9 0) None None.

(** A weekly rule for Mondays and Wednesdays from Monday 2024-01-01 at
    09:00, ending with the fourth week. *)
Definition mondayWednesdayRule : Agendamento.Insert :=
  rule (mkRegras weekly 1 (Some ["monday"; "wednesday"]%string))
       (mkDate 2024 0 1 9 0) (Some (mkDate 2024 0 28 23 59)) None.

(** A daily rule without end that started on 2023-01-01. *)
Definition longRunningRule : Agendamento.Insert :=
  rule (mkRegras daily 1 None) (mkDate 2023 0 1 9 0) None None.

(** An update that only moves the class. *)
Definition moveTo (startTime endTime : Z) : AulaUpdate.t :=
  {| AulaUpdate.professorId := None;
     AulaUpdate.studentId := None;
     AulaUpdate.startTime := Some startTime;
     AulaUpdate.endTime := Some endTime;
     AulaUpdate.location := None;
     AulaUpdate.value := None;
     AulaUpdate.service := None;
     AulaUpdate.notes := None;
     AulaUpdate.status := None;
     AulaUpdate.isModified := None;
     AulaUpdate.originalStartTime := None;
     AulaUpdate.originalEndTime := None |}.

End Sample.


(** ** Auxiliary definitions for further properties *)

(** The days by which the [switch] of [generateRecurrentClasses] moves the
    cursor, for the types that move it by days. *)
Definition stepDays (regras : Regras) : option Z :=
  match type regras with
  | daily => Some (interval regras)
  | weekly => Some (7 * interval regras)
  | custom => Some 1
  | monthly | yearly => None
  end.

(** The number of classes at which [generateClassesFromRecurrence] stops
    when no end date stops it before: [maxOccurrences] when there is one
    (zero counts as none), and 101 at most. *)
Definition classLimit (maxOccurrences : option Z) : Z :=
  match maxOccurrences with
  | Some m => if m =? 0 then 101 else Z.max 0 (Z.min m 101)
  | None => 101
  end.

(** The days a cursor that moves one day per pass visits in [k] passes. *)
Definition daysFrom (currentDate : Z) (k : nat) : list Z :=
  map (fun i => currentDate + Z.of_nat i * msPerDay) (seq 0 k).

(** ** The insertion loop of [POST /api/sessions] *)

Module SessionInsert.

Import Routes.

(** A row of [sessions] as the loop writes it: the columns that differ from
    one session of the group to the next, with the id the insert returned. *)
Record Row := mkRow {
  id : Z;
  start_time : Z;
  end_time : Z;
  is_recurrence_parent : bool;
  parent_session_id : option Z;
}.

(** How the recurring branch ends: with the answer
    [{ recurring: true, count, parentId, groupId }] after [rows] were
    written, or in the [catch], answering 500, after the [rows] written
    until then (no transaction takes them back). *)
Inductive Outcome :=
  | Inserted (rows : list Row) (parentId : option Z)
  | ServerError (rows : list Row).

(** The [for (const session of sessions)] loop, over the driver [d] behind
    [db]: [returned i] is the id the database gives the row of the insert
    number [i]. Each pass runs its [INSERT ... RETURNING id] and then reads
    [result.rows[0].id]: where [rows] is [undefined], or empty, that throws. *)
Fixpoint insertLoop (d : Db.Driver) (returned : nat -> Z) (i : nat)
    (sessions : list SessionSlot) (parentSessionId : option Z) (rows : list Row)
    : Outcome :=
  match sessions with
  | [] => Inserted rows parentSessionId
  | session :: rest =>
    let row :=
      {| id := returned i;
         start_time := slotStartTime session;
         end_time := slotEndTime session;
         is_recurrence_parent := isParent session;
         parent_session_id := parentSessionId |} in
    match Db.rows d [returned i] with
    | Some (sessionId :: _) =>
      insertLoop d returned (S i) rest
        (if isParent session then Some sessionId else parentSessionId)
        (rows ++ [row])
    | _ => ServerError (rows ++ [row])
    end
  end.

Definition insertSessionsWith (d : Db.Driver) (returned : nat -> Z)
    (sessions : list SessionSlot) : Outcome :=
  insertLoop d returned 0 sessions None [].


End SessionInsert.

(** ** What the conflict check of the route file can see *)


(** ** [checkConflicts] (newScheduling.controller.ts) *)

Module ConflictHandler.

Import Storage.

(** The request body, its ids and ids-to-exclude as JSON numbers and its
    two instants as time values; [None] is a missing field. *)
Record Body := mkBody {
  professorId : option Z;
  studentId : option Z;
  startTime : option Z;
  endTime : option Z;
  excludeAulaId : option Z;
}.

(** [!x] for a number: a missing value and zero are falsy. *)
Definition truthy (x : option Z) : option Z :=
  match x with
  | Some n => if n =? 0 then None else Some n
  | None => None
  end.

Section WithConflictCheck.

Context {Conflict : Type}.
Variable checkSchedulingConflicts :
  Store -> Z -> Z -> Z -> Z -> option Z -> option Conflict.

Inductive Response :=
  | BadRequest
  | Json (hasConflict : bool) (conflict : option Conflict).

Definition checkConflicts (st : Store) (body : Body) : Response :=
  match truthy (professorId body), truthy (studentId body), startTime body, endTime body with
  | Some professorId, Some studentId, Some startTime, Some endTime =>
    let hasConflict :=
      checkSchedulingConflicts st professorId studentId startTime endTime
        (truthy (excludeAulaId body)) in
    Json (bool_decide (is_Some hasConflict)) hasConflict
  | _, _, _, _ => BadRequest
  end.

End WithConflictCheck.

End ConflictHandler.

(** ** The four-week generation of the second [POST /api/sessions] *)

Module FourWeeks.

Definition dayNames : list string :=
  ["Domingo"; "Segunda"; "Terça"; "Quarta"; "Quinta"; "Sexta"; "Sábado"]%string.

(** [Array.prototype.indexOf]: the first position of [name], or -1. *)
Fixpoint indexOf (names : list string) (name : string) : Z :=
  match names with
  | [] => -1
  | n :: rest =>
    if String.eqb n name then 0
    else let i := indexOf rest name in if i <? 0 then -1 else i + 1
  end.

(** [t.setDate(t.getDate() + (week * 7) + (dayIndex - t.getDay()))]. *)
Definition moveToDay (t week dayIndex : Z) : Z :=
  setDate t (getDate t + week * 7 + (dayIndex - getDay t)).

(** A session as [storage.createSession] returns it: the id it was given
    and the columns the loop computes. *)
Record Session := mkSession {
  id : Z;
  startTime : Z;
  endTime : Z;
  parentSessionId : option Z;
}.

(** [sessions[0]?.id || null]: no first session and a zero id give [null]. *)
Definition firstId (sessions : list Session) : option Z :=
  match sessions with
  | first :: _ => if id first =? 0 then None else Some (id first)
  | [] => None
  end.

(** The [for (const dayName of sessionData.weekDays)] loop of one week;
    [returned i] is the id [storage.createSession] gives the session number
    [i] of the request. *)
Fixpoint daysLoop (returned : nat -> Z) (startTime endTime week : Z)
    (weekDays : list string) (sessions : list Session) : list Session :=
  match weekDays with
  | [] => sessions
  | dayName :: rest =>
    let dayIndex := indexOf dayNames dayName in
    let sessionDate := moveToDay startTime week dayIndex in
    let endDate := moveToDay endTime week dayIndex in
    let session :=
      {| id := returned (length sessions);
         startTime := sessionDate;
         endTime := endDate;
         parentSessionId := if week =? 0 then None else firstId sessions |} in
    daysLoop returned startTime endTime week rest (sessions ++ [session])
  end.

(** The [for (let week = 0; week < 4; week++)] loop. *)
Fixpoint weeksLoop (returned : nat -> Z) (startTime endTime : Z) (weeks : list Z)
    (weekDays : list string) (sessions : list Session) : list Session :=
  match weeks with
  | [] => sessions
  | week :: rest =>
    weeksLoop returned startTime endTime rest weekDays
      (daysLoop returned startTime endTime week weekDays sessions)
  end.

(** The sessions of the recurring branch. *)
Definition fourWeeks (returned : nat -> Z) (startTime endTime : Z) (weekDays : list string)
    : list Session :=
  weeksLoop returned startTime endTime [0; 1; 2; 3] weekDays [].

End FourWeeks.

(** ** The day loop of [POST /api/appointments/recurring] *)

Module RecurringAppointments.

(** A time slot after [split(':').map(Number)]: hours and minutes of its
    start and of its end. *)
Record TimeSlot := mkTimeSlot {
  startHour : Z;
  startMin : Z;
  endHour : Z;
  endMin : Z;
}.

Record ProfessorSchedule := mkProfessorSchedule {
  professorId : Z;
  timeSlots : list TimeSlot;
}.

Record DaySchedule := mkDaySchedule {
  dayOfWeek : Z;
  professorsSchedule : list ProfessorSchedule;
}.

(** The fields of the request body the loop reads. *)
Record Request := mkRequest {
  service : string;
  location : option string;
  value : option Z;
  notes : option string;
  startDate : Z;
  endDate : Z;
  weeklySchedule : list DaySchedule;
}.

(** [weeklySchedule.find(schedule => schedule.dayOfWeek === dayOfWeek)]. *)
Fixpoint find (weeklySchedule : list DaySchedule) (d : Z) : option DaySchedule :=
  match weeklySchedule with
  | [] => None
  | schedule :: rest => if dayOfWeek schedule =? d then Some schedule else find rest d
  end.

(** The appointment pushed for a time slot of a professor on [currentDate]. *)
Definition appointmentAt (recurringId studentId : Z) (req : Request) (currentDate : Z)
    (profSchedule : ProfessorSchedule) (timeSlot : TimeSlot) : Aula.Insert :=
  {| Aula.agendamentoRecorrenteId := Some recurringId;
     Aula.professorId := professorId profSchedule;
     Aula.studentId := studentId;
     Aula.startTime := setHours4 currentDate (startHour timeSlot) (startMin timeSlot) 0 0;
     Aula.endTime := setHours4 currentDate (endHour timeSlot) (endMin timeSlot) 0 0;
     Aula.location := default ""%string (location req);
     Aula.value := default 0 (value req);
     Aula.service := service req;
     Aula.notes := Some (default ""%string (notes req));
     Aula.status := agendado;
     Aula.isModified := false;
     Aula.originalStartTime := None;
     Aula.originalEndTime := None |}.

(** The appointments of one day: those of the first schedule entry for its
    weekday, professor by professor, slot by slot. *)
Definition appointmentsOn (recurringId studentId : Z) (req : Request) (currentDate : Z)
    : list Aula.Insert :=
  match find (weeklySchedule req) (getDay currentDate) with
  | Some daySchedule =>
    profSchedule ← professorsSchedule daySchedule;
    timeSlot ← timeSlots profSchedule;
    [appointmentAt recurringId studentId req currentDate profSchedule timeSlot]
  | None => []
  end.

(** The [for (let currentDate = new Date(start); currentDate <= end; ...)]
    loop; [None] when [fuel] passes do not reach its exit. *)
Fixpoint daysLoop (fuel : nat) (recurringId studentId : Z) (req : Request)
    (currentDate : Z) (appointments : list Aula.Insert) : option (list Aula.Insert) :=
  match fuel with
  | O => None
  | S fuel' =>
    if currentDate <=? endDate req then
      daysLoop fuel' recurringId studentId req
        (setDate currentDate (getDate currentDate + 1))
        (appointments ++ appointmentsOn recurringId studentId req currentDate)
    else Some appointments
  end.

Definition generateAppointments (fuel : nat) (recurringId studentId : Z) (req : Request)
    : option (list Aula.Insert) :=
  daysLoop fuel recurringId studentId req (startDate req) [].

End RecurringAppointments.

(** ** [POST /api/professors/availability] *)

Module Availability.

(** The request body: the two clock times as the hours and minutes their
    [HH:MM] strings denote, the two dates as time values; [None] is a
    missing field. *)
Record Body := mkBody {
  professorId : option Z;
  dayOfWeek : option Z;
  startTime : option (Z * Z);
  endTime : option (Z * Z);
  startDate : option Z;
  endDate : option Z;
}.

(** [EXTRACT(hour FROM ts) * 60 + EXTRACT(minute FROM ts)]. *)
Definition minuteOfDay (ts : Z) : Z := HourFromTime ts * 60 + MinFromTime ts.

(** [start.getHours() * 60 + start.getMinutes()] of a clock time. *)
Definition clockMinutes (hm : Z * Z) : Z := fst hm * 60 + snd hm.

(** The [where] clause of the query on [aulas]. *)
Definition conflictWhere (professorId dayOfWeek start finish startDate endDate : Z)
    (aula : Aula.Insert) : bool :=
  (Aula.professorId aula =? professorId)
  && (startDate <=? Aula.startTime aula)
  && (Aula.startTime aula <=? endDate)
  && (WeekDay (Aula.startTime aula) =? dayOfWeek)
  && (((minuteOfDay (Aula.startTime aula) <=? start)
       && (start <=? minuteOfDay (Aula.endTime aula)))
      || ((minuteOfDay (Aula.startTime aula) <=? finish)
          && (finish <=? minuteOfDay (Aula.endTime aula)))).

Inductive Response :=
  | BadRequest
  | Json (available : bool) (conflicts : nat).

(** [!professorId]: a missing id and the id 0 are falsy; [dayOfWeek] is
    only tested against [undefined], so Sunday (0) passes. *)
Definition checkAvailability (aulas : list Aula.Insert) (body : Body) : Response :=
  match professorId body, dayOfWeek body, startTime body, endTime body,
        startDate body, endDate body with
  | Some professorId, Some dayOfWeek, Some startTime, Some endTime,
    Some startDate, Some endDate =>
    if professorId =? 0 then BadRequest
    else
      let conflicts :=
        filter (fun aula =>
                  conflictWhere professorId dayOfWeek (clockMinutes startTime)
                    (clockMinutes endTime) startDate endDate aula = true) aulas in
      Json (bool_decide (length conflicts = 0%nat)) (length conflicts)
  | _, _, _, _, _, _ => BadRequest
  end.

End Availability.
(** * Properties *)

(** ** Calendar facts *)

Lemma month_cases m :
  0 <= m < 12 ->
  m = 0 \/ m = 1 \/ m = 2 \/ m = 3 \/ m = 4 \/ m = 5 \/
  m = 6 \/ m = 7 \/ m = 8 \/ m = 9 \/ m = 10 \/ m = 11.
Proof. lia. Qed.

(** Linear arithmetic with divisions and remainders by constants. *)
Ltac zlia := Z.div_mod_to_equations; lia.

(** Evaluate the month table at closed arguments. *)
Ltac eval_monthStart :=
  repeat match goal with
  | |- context [monthStart ?l ?m] =>
      let v := eval vm_compute in (monthStart l m) in
      change (monthStart l m) with v
  | H : context [monthStart ?l ?m] |- _ =>
      let v := eval vm_compute in (monthStart l m) in
      change (monthStart l m) with v in H
  end.

Ltac split_ltb :=
  repeat match goal with
  | |- context [if ?a <? ?b then _ else _] =>
      destruct (Z.ltb_spec a b); cbv iota
  end.

Ltac each_month m Hm :=
  destruct (month_cases m Hm) as [-> | [-> | [-> | [-> | [-> | [-> |
    [-> | [-> | [-> | [-> | [-> | ->]]]]]]]]]]].

Section CalendarFacts.

Lemma DayFromYear_succ y : DayFromYear (y + 1) = DayFromYear y + DaysInYear y.
Proof.
  unfold DayFromYear, DaysInYear, InLeapYear.
  destruct (Z.eqb_spec (y mod 4) 0); destruct (Z.eqb_spec (y mod 100) 0);
    destruct (Z.eqb_spec (y mod 400) 0); simpl; zlia.
Qed.

Lemma YearFromDay_spec d :
  DayFromYear (YearFromDay d) <= d < DayFromYear (YearFromDay d + 1).
Proof.
  unfold YearFromDay.
  set (y := 1970 + 400 * d / 146097).
  assert (Hlo : DayFromYear (y - 1) <= d) by (unfold DayFromYear; subst y; zlia).
  assert (Hhi : d < DayFromYear (y + 2)) by (unfold DayFromYear; subst y; zlia).
  destruct (d <? DayFromYear y) eqn:E1.
  - replace (y - 1 + 1) with y by lia. lia.
  - destruct (DayFromYear (y + 1) <=? d) eqn:E2.
    + replace (y + 1 + 1) with (y + 2) by lia. lia.
    + lia.
Qed.

Lemma DayFromYear_lt y1 y2 : y1 < y2 -> DayFromYear y1 < DayFromYear y2.
Proof. unfold DayFromYear. intros H. zlia. Qed.

Lemma DayFromYear_le y1 y2 : y1 <= y2 -> DayFromYear y1 <= DayFromYear y2.
Proof. unfold DayFromYear. intros H. zlia. Qed.

Lemma YearFromDay_unique y d :
  DayFromYear y <= d < DayFromYear (y + 1) -> YearFromDay d = y.
Proof.
  intros Hy. pose proof (YearFromDay_spec d) as Hs.
  destruct (Z.lt_trichotomy (YearFromDay d) y) as [Hlt | [Heq | Hgt]]; [| exact Heq |].
  - pose proof (DayFromYear_le (YearFromDay d + 1) y). lia.
  - pose proof (DayFromYear_le (y + 1) (YearFromDay d)). lia.
Qed.

Lemma Day_MakeDate d tod : 0 <= tod < msPerDay -> Day (MakeDate d tod) = d.
Proof. unfold Day, MakeDate, msPerDay. intros H. zlia. Qed.

Lemma TimeWithinDay_MakeDate d tod :
  0 <= tod < msPerDay -> TimeWithinDay (MakeDate d tod) = tod.
Proof. unfold TimeWithinDay, MakeDate, msPerDay. intros H. zlia. Qed.

Lemma TimeWithinDay_range t : 0 <= TimeWithinDay t < msPerDay.
Proof. unfold TimeWithinDay, msPerDay. zlia. Qed.

Lemma MakeDate_Day t : MakeDate (Day t) (TimeWithinDay t) = t.
Proof. unfold MakeDate, Day, TimeWithinDay, msPerDay. zlia. Qed.

Lemma MonthFromDayWithinYear_spec leap dwy :
  0 <= dwy < monthStart leap 12 ->
  0 <= MonthFromDayWithinYear leap dwy < 12 /\
  monthStart leap (MonthFromDayWithinYear leap dwy) <= dwy
    < monthStart leap (MonthFromDayWithinYear leap dwy + 1).
Proof.
  unfold MonthFromDayWithinYear.
  intros H. destruct leap; split_ltb; eval_monthStart; lia.
Qed.

Lemma MonthFromDayWithinYear_unique leap m dwy :
  0 <= m < 12 ->
  monthStart leap m <= dwy < monthStart leap (m + 1) ->
  MonthFromDayWithinYear leap dwy = m.
Proof.
  intros Hm. unfold MonthFromDayWithinYear.
  each_month m Hm; destruct leap; eval_monthStart; intros H; split_ltb; lia.
Qed.

Lemma DaysInMonth_range y m : 0 <= m < 12 -> 28 <= DaysInMonth y m <= 31.
Proof.
  intros Hm. unfold DaysInMonth.
  each_month m Hm; destruct (InLeapYear y); eval_monthStart; lia.
Qed.

Lemma monthStart_range leap m :
  0 <= m < 12 -> 0 <= monthStart leap m /\ monthStart leap (m + 1) <= monthStart leap 12.
Proof.
  intros Hm.
  each_month m Hm; destruct leap; eval_monthStart; lia.
Qed.

Lemma monthStart_12 y : monthStart (InLeapYear y) 12 = DaysInYear y.
Proof. unfold DaysInYear. destruct (InLeapYear y); reflexivity. Qed.

Lemma DayWithinYear_range t :
  0 <= DayWithinYear t < monthStart (InLeapYear (YearFromTime t)) 12.
Proof.
  unfold DayWithinYear, YearFromTime. rewrite monthStart_12.
  pose proof (YearFromDay_spec (Day t)) as Hs.
  rewrite DayFromYear_succ in Hs. lia.
Qed.

Lemma MonthFromTime_range t : 0 <= MonthFromTime t < 12.
Proof. apply MonthFromDayWithinYear_spec, DayWithinYear_range. Qed.

Lemma DateFromTime_range t :
  1 <= DateFromTime t <= DaysInMonth (YearFromTime t) (MonthFromTime t).
Proof.
  unfold DateFromTime, DaysInMonth, MonthFromTime.
  pose proof (MonthFromDayWithinYear_spec _ _ (DayWithinYear_range t)). lia.
Qed.

(** The fields a [Date] reports rebuild its day number. *)
Lemma MakeDay_fields t :
  MakeDay (YearFromTime t) (MonthFromTime t) (DateFromTime t) = Day t.
Proof.
  unfold MakeDay. pose proof (MonthFromTime_range t) as Hm.
  replace (MonthFromTime t / 12) with 0 by zlia.
  replace (MonthFromTime t mod 12) with (MonthFromTime t) by zlia.
  rewrite Z.add_0_r. unfold DateFromTime, DayWithinYear. lia.
Qed.

(** The fields of a day built from an in-range month and day of the month. *)
Lemma fields_MakeDay y m d tod :
  0 <= m < 12 -> 1 <= d <= DaysInMonth y m -> 0 <= tod < msPerDay ->
  YearFromTime (MakeDate (MakeDay y m d) tod) = y /\
  MonthFromTime (MakeDate (MakeDay y m d) tod) = m /\
  DateFromTime (MakeDate (MakeDay y m d) tod) = d.
Proof.
  intros Hm Hd Htod.
  assert (HD : MakeDay y m d = DayFromYear y + monthStart (InLeapYear y) m + d - 1).
  { unfold MakeDay. replace (m / 12) with 0 by zlia.
    replace (m mod 12) with m by zlia. rewrite Z.add_0_r. reflexivity. }
  pose proof (monthStart_range (InLeapYear y) m Hm) as Hr.
  unfold DaysInMonth in Hd.
  assert (HY : YearFromTime (MakeDate (MakeDay y m d) tod) = y).
  { unfold YearFromTime. rewrite Day_MakeDate by exact Htod.
    apply YearFromDay_unique. rewrite DayFromYear_succ, <- monthStart_12. lia. }
  assert (HM : MonthFromTime (MakeDate (MakeDay y m d) tod) = m).
  { unfold MonthFromTime, DayWithinYear. rewrite HY, Day_MakeDate by exact Htod.
    apply MonthFromDayWithinYear_unique; [exact Hm | lia]. }
  split; [exact HY | split; [exact HM |]].
  unfold DateFromTime, DayWithinYear. rewrite HM, HY, Day_MakeDate by exact Htod. lia.
Qed.

End CalendarFacts.

(** ** Moving a date by whole days, months and hours *)

Section DateArithmetic.

Lemma Day_add_days t n : Day (t + n * msPerDay) = Day t + n.
Proof. unfold Day, msPerDay. zlia. Qed.

Lemma TimeWithinDay_add_days t n :
  TimeWithinDay (t + n * msPerDay) = TimeWithinDay t.
Proof. unfold TimeWithinDay, msPerDay. zlia. Qed.

Lemma WeekDay_add_days t n : WeekDay (t + n * msPerDay) = (WeekDay t + n) mod 7.
Proof. unfold WeekDay. rewrite Day_add_days. zlia. Qed.

Lemma WeekDay_range t : 0 <= WeekDay t < 7.
Proof. unfold WeekDay. zlia. Qed.

(** [d.setDate(d.getDate() + n)] moves the time value by [n] days. *)
Lemma setDate_getDate_add t n : setDate t (getDate t + n) = t + n * msPerDay.
Proof.
  unfold setDate, getDate.
  assert (H : MakeDay (YearFromTime t) (MonthFromTime t) (DateFromTime t + n)
              = Day t + n).
  { rewrite <- (MakeDay_fields t). unfold MakeDay. lia. }
  rewrite H. unfold MakeDate.
  pose proof (MakeDate_Day t) as Ht. unfold MakeDate in Ht. lia.
Qed.

(** A day of the month past the end of month [(y, m)] denotes a day of the
    following month: nothing clamps it. *)
Lemma MakeDay_overflow y m d :
  0 <= m < 12 ->
  MakeDay y m (DaysInMonth y m + d)
  = MakeDay (fst (nextMonth y m)) (snd (nextMonth y m)) d.
Proof.
  intros Hm. unfold nextMonth, MakeDay, DaysInMonth.
  replace (m / 12) with 0 by zlia. replace (m mod 12) with m by zlia.
  rewrite Z.add_0_r.
  destruct (Z.eqb_spec m 11) as [-> | Hne]; cbn [fst snd].
  - replace (y + 1 + 0 / 12) with (y + 1) by (change (0 / 12) with 0; lia).
    change (0 mod 12) with 0. change (11 + 1) with 12.
    rewrite (DayFromYear_succ y), <- (monthStart_12 y).
    change (monthStart (InLeapYear (y + 1)) 0) with 0. lia.
  - replace ((m + 1) / 12) with 0 by zlia.
    replace ((m + 1) mod 12) with (m + 1) by zlia.
    rewrite Z.add_0_r. lia.
Qed.

Lemma nextMonth_range y m : 0 <= m < 12 -> 0 <= snd (nextMonth y m) < 12.
Proof. unfold nextMonth. destruct (Z.eqb_spec m 11); cbn; lia. Qed.

Lemma targetMonth_range t k : 0 <= targetMonth t k < 12.
Proof. unfold targetMonth. zlia. Qed.

Lemma setMonth_target t k :
  setMonth t (getMonth t + k)
  = MakeDate (MakeDay (targetYear t k) (targetMonth t k) (DateFromTime t))
             (TimeWithinDay t).
Proof.
  unfold setMonth, getMonth, targetYear, targetMonth. f_equal.
  unfold MakeDay. cbn zeta.
  pose proof (targetMonth_range t k) as Hr. unfold targetMonth in Hr.
  replace ((MonthFromTime t + k) mod 12 / 12) with 0 by zlia.
  rewrite Z.mod_mod by lia. rewrite Z.add_0_r. reflexivity.
Qed.

(** When the day of the month fits the target month, [setMonth] keeps it. *)
Lemma setMonth_fits t k :
  DateFromTime t <= DaysInMonth (targetYear t k) (targetMonth t k) ->
  YearFromTime (setMonth t (getMonth t + k)) = targetYear t k /\
  MonthFromTime (setMonth t (getMonth t + k)) = targetMonth t k /\
  DateFromTime (setMonth t (getMonth t + k)) = DateFromTime t.
Proof.
  intros Hfit. rewrite setMonth_target.
  apply fields_MakeDay.
  - apply targetMonth_range.
  - pose proof (DateFromTime_range t). lia.
  - apply TimeWithinDay_range.
Qed.

(** When it does not fit, [setMonth] lands in the month after the target,
    on the day by which the date exceeds the target month's length. *)
Lemma setMonth_rolls_over t k :
  DaysInMonth (targetYear t k) (targetMonth t k) < DateFromTime t ->
  YearFromTime (setMonth t (getMonth t + k))
    = fst (nextMonth (targetYear t k) (targetMonth t k)) /\
  MonthFromTime (setMonth t (getMonth t + k))
    = snd (nextMonth (targetYear t k) (targetMonth t k)) /\
  DateFromTime (setMonth t (getMonth t + k))
    = DateFromTime t - DaysInMonth (targetYear t k) (targetMonth t k).
Proof.
  intros Hover. rewrite setMonth_target.
  pose proof (targetMonth_range t k) as Hm.
  pose proof (DateFromTime_range t) as Hd.
  pose proof (DaysInMonth_range (YearFromTime t) (MonthFromTime t)
                (MonthFromTime_range t)) as Hlen.
  pose proof (DaysInMonth_range (targetYear t k) (targetMonth t k) Hm) as Htl.
  replace (DateFromTime t)
    with (DaysInMonth (targetYear t k) (targetMonth t k)
          + (DateFromTime t - DaysInMonth (targetYear t k) (targetMonth t k)))
    at 1 2 3 by lia.
  rewrite MakeDay_overflow by exact Hm.
  apply fields_MakeDay.
  - apply nextMonth_range, Hm.
  - pose proof (DaysInMonth_range (fst (nextMonth (targetYear t k) (targetMonth t k)))
                  (snd (nextMonth (targetYear t k) (targetMonth t k)))
                  (nextMonth_range _ _ Hm)). lia.
  - apply TimeWithinDay_range.
Qed.

(** The setters keep the time of day and act on the day number alone. *)
Lemma TimeWithinDay_setDate t d : TimeWithinDay (setDate t d) = TimeWithinDay t.
Proof. apply TimeWithinDay_MakeDate, TimeWithinDay_range. Qed.

Lemma TimeWithinDay_setMonth t m : TimeWithinDay (setMonth t m) = TimeWithinDay t.
Proof. apply TimeWithinDay_MakeDate, TimeWithinDay_range. Qed.

Lemma TimeWithinDay_setFullYear t y : TimeWithinDay (setFullYear t y) = TimeWithinDay t.
Proof. apply TimeWithinDay_MakeDate, TimeWithinDay_range. Qed.

Lemma Day_setMonth t m :
  Day (setMonth t m) = MakeDay (YearFromTime t) m (DateFromTime t).
Proof. apply Day_MakeDate, TimeWithinDay_range. Qed.

Lemma Day_setFullYear t y :
  Day (setFullYear t y) = MakeDay y (MonthFromTime t) (DateFromTime t).
Proof. apply Day_MakeDate, TimeWithinDay_range. Qed.

(** One month further is the length of the month further. *)
Lemma MakeDay_succ_month y m d :
  MakeDay y (m + 1) d = MakeDay y m d + DaysInMonth (y + m / 12) (m mod 12).
Proof.
  unfold MakeDay, DaysInMonth. cbn zeta.
  destruct (Z.eq_dec (m mod 12) 11) as [E | E].
  - replace ((m + 1) / 12) with (m / 12 + 1) by zlia.
    replace ((m + 1) mod 12) with 0 by zlia.
    rewrite E. change (11 + 1) with 12.
    replace (y + (m / 12 + 1)) with (y + m / 12 + 1) by lia.
    rewrite (DayFromYear_succ (y + m / 12)), <- (monthStart_12 (y + m / 12)).
    change (monthStart (InLeapYear (y + m / 12 + 1)) 0) with 0. lia.
  - replace ((m + 1) / 12) with (m / 12) by zlia.
    replace ((m + 1) mod 12) with (m mod 12 + 1) by zlia. lia.
Qed.

Lemma MakeDay_month_le y m k d :
  0 <= k -> MakeDay y m d + 28 * k <= MakeDay y (m + k) d.
Proof.
  intros Hk. pattern k. apply natlike_ind; [| | exact Hk].
  - cbv beta. replace (m + 0) with m by lia. lia.
  - cbv beta. intros j Hj IH. replace (m + Z.succ j) with (m + j + 1) by lia.
    rewrite MakeDay_succ_month.
    assert (Hr : 0 <= (m + j) mod 12 < 12) by zlia.
    pose proof (DaysInMonth_range (y + (m + j) / 12) ((m + j) mod 12) Hr). lia.
Qed.

Lemma MakeDay_year_le y k m d :
  1 <= k -> 0 <= m < 12 -> MakeDay y m d + 364 <= MakeDay (y + k) m d.
Proof.
  intros Hk Hm. unfold MakeDay. cbn zeta.
  replace (m / 12) with 0 by zlia. replace (m mod 12) with m by zlia.
  rewrite !Z.add_0_r.
  pose proof (DayFromYear_le (y + 1) (y + k)) as Hle.
  rewrite DayFromYear_succ in Hle.
  assert (H1 : 365 <= DaysInYear y) by (unfold DaysInYear; destruct (InLeapYear y); lia).
  assert (H2 : monthStart (InLeapYear y) m <= monthStart (InLeapYear (y + k)) m + 1).
  { each_month m Hm; destruct (InLeapYear y); destruct (InLeapYear (y + k));
      eval_monthStart; lia. }
  lia.
Qed.

(** The time of day splits into the fields the getters report. *)
Lemma TimeWithinDay_fields t :
  TimeWithinDay t
  = MakeTime (HourFromTime t) (MinFromTime t) (SecFromTime t) (msFromTime t).
Proof.
  unfold TimeWithinDay, MakeTime, HourFromTime, MinFromTime, SecFromTime, msFromTime,
    msPerDay, msPerHour, msPerMinute, msPerSecond. zlia.
Qed.

Lemma fields_of_TimeWithinDay t1 t2 :
  TimeWithinDay t1 = TimeWithinDay t2 ->
  HourFromTime t1 = HourFromTime t2 /\ MinFromTime t1 = MinFromTime t2 /\
  SecFromTime t1 = SecFromTime t2 /\ msFromTime t1 = msFromTime t2.
Proof.
  unfold TimeWithinDay, HourFromTime, MinFromTime, SecFromTime, msFromTime,
    msPerDay, msPerHour, msPerMinute, msPerSecond. intros H. repeat split; zlia.
Qed.

(** Setting the hours and minutes a date already has changes nothing. *)
Lemma setHours2_same c s :
  TimeWithinDay c = TimeWithinDay s ->
  setHours2 c (getHours s) (getMinutes s) = c.
Proof.
  intros H. unfold setHours2, getHours, getMinutes.
  destruct (fields_of_TimeWithinDay c s H) as (Hh & Hm & _ & _).
  rewrite <- Hh, <- Hm, <- TimeWithinDay_fields. apply MakeDate_Day.
Qed.

(** [d.setHours(d.getHours() + 1)] moves the time value one hour on. *)
Lemma setHours1_next_hour t : setHours1 t (getHours t + 1) = t + msPerHour.
Proof.
  unfold setHours1, getHours.
  pose proof (MakeDate_Day t) as Ht. rewrite (TimeWithinDay_fields t) in Ht.
  unfold MakeDate, MakeTime in *. lia.
Qed.

Lemma HourFromTime_range t : 0 <= HourFromTime t < 24.
Proof. unfold HourFromTime. zlia. Qed.

(** A day of the month up to the 28th fits every month. *)
Lemma setMonth_keeps_day c k :
  DateFromTime c <= 28 ->
  YearFromTime (setMonth c (getMonth c + k)) = targetYear c k /\
  MonthFromTime (setMonth c (getMonth c + k)) = targetMonth c k /\
  DateFromTime (setMonth c (getMonth c + k)) = DateFromTime c.
Proof.
  intros Hd. apply setMonth_fits.
  pose proof (DaysInMonth_range (targetYear c k) (targetMonth c k) (targetMonth_range c k)).
  lia.
Qed.

(** The date fields depend on the day number alone. *)
Lemma fields_of_Day t1 t2 :
  Day t1 = Day t2 ->
  YearFromTime t1 = YearFromTime t2 /\ MonthFromTime t1 = MonthFromTime t2 /\
  DateFromTime t1 = DateFromTime t2.
Proof.
  intros H. unfold DateFromTime, MonthFromTime, DayWithinYear, YearFromTime.
  rewrite H. auto.
Qed.

(** [MakeDay] counts the days of the month from its first. *)
Lemma MakeDay_date y m d : MakeDay y m d = MakeDay y m 1 + d - 1.
Proof. unfold MakeDay. lia. Qed.

(** [MakeDay] brings a month number past December into the years after. *)
Lemma MakeDay_target t k d :
  MakeDay (YearFromTime t) (MonthFromTime t + k) d
  = MakeDay (targetYear t k) (targetMonth t k) d.
Proof.
  unfold MakeDay, targetYear, targetMonth. cbn zeta.
  assert (Hr : 0 <= (MonthFromTime t + k) mod 12 < 12) by zlia.
  replace ((MonthFromTime t + k) mod 12 / 12) with 0 by zlia.
  rewrite Z.mod_mod by lia. rewrite Z.add_0_r. reflexivity.
Qed.

End DateArithmetic.

(** ** The conflict check of [POST /api/sessions/check-conflicts] *)

Section ConflictCheck.

Import CheckConflicts.

Lemma between_spec x lo hi : between x lo hi = true <-> lo <= x <= hi.
Proof. unfold between. rewrite andb_true_iff, !Z.leb_le. tauto. Qed.

(** The rows of the join are the pairs of a session and its lead that pass
    the [WHERE] clause. *)
Lemma conflictRows_elem db trainerId date startDateTime endDateTime s l :
  (s, l) ∈ conflictRows db trainerId date startDateTime endDateTime <->
  s ∈ sessions db /\ l ∈ leads db /\ lead_id s = leadId l /\
  conflictWhere trainerId date startDateTime endDateTime s = true.
Proof.
  unfold conflictRows. rewrite list_elem_of_bind. split.
  - intros (s' & Hin & Hs'). apply list_elem_of_bind in Hin as (l' & Hin & Hl').
    destruct (lead_id s' =? leadId l') eqn:Hid; cbn in Hin;
      [destruct (conflictWhere _ _ _ _ s') eqn:Hw; cbn in Hin |];
      try (apply elem_of_nil in Hin; contradiction).
    apply list_elem_of_singleton in Hin. injection Hin as -> ->.
    apply Z.eqb_eq in Hid. auto.
  - intros (Hs & Hl & Hid & Hw). exists s. split; [| exact Hs].
    apply list_elem_of_bind. exists l. split; [| exact Hl].
    apply Z.eqb_eq in Hid. rewrite Hid, Hw. cbn. apply list_elem_of_singleton.
    reflexivity.
Qed.

(** What the [WHERE] clause tests, when both windows are well formed: the
    two closed windows meet. *)
Lemma conflictWhere_spec trainerId date startDateTime endDateTime s :
  start_time s <= end_time s -> startDateTime <= endDateTime ->
  conflictWhere trainerId date startDateTime endDateTime s = true <->
  trainer_id s = trainerId /\ status s = "agendado"%string /\
  DATE (start_time s) = date /\
  startDateTime - tolerance <= end_time s /\
  start_time s <= endDateTime + tolerance.
Proof.
  intros Hs Hc. unfold conflictWhere. cbn zeta.
  rewrite !andb_true_iff, !orb_true_iff, !andb_true_iff, !between_spec,
    !Z.eqb_eq, !Z.leb_le, String.eqb_eq.
  unfold tolerance. intuition lia.
Qed.

(** On the driver of [server/db.ts] every request that passes the check
    of its fields ends in the [catch]: the rows of the result are never
    read. *)
Lemma checkConflicts_500 db trainerId date startTime endTime :
  trainerId <> 0 ->
  checkConflicts db (mkBody (Some trainerId) (Some date) (Some startTime) (Some endTime))
  = ServerError.
Proof.
  intros Hid. unfold checkConflicts, checkConflictsWith, truthyId.
  cbn [CheckConflicts.trainerId CheckConflicts.date CheckConflicts.startTime
       CheckConflicts.endTime].
  destruct (Z.eqb_spec trainerId 0) as [? | _]; [contradiction | reflexivity].
Qed.

(** Where the rows are read, the response lists one [trainer_busy] entry
    per row of the query, in order, then the suggestions, if any, as one
    last entry. *)
Lemma checkConflictsWith_Json d db trainerId date startTime endTime conflicts :
  checkConflictsWith d db
    (mkBody (Some trainerId) (Some date) (Some startTime) (Some endTime))
  = Json conflicts ->
  exists tail,
    conflicts
    = map (fun r => trainer_busy (name (snd r)) (start_time (fst r)) (end_time (fst r)))
          (conflictRows db trainerId date (dateTime date startTime)
             (dateTime date endTime))
      ++ tail /\
    (tail = [] \/
     (tail = [suggestion (suggestedTimes db trainerId date (dateTime date startTime)
                            (dateTime date endTime))] /\
      conflictRows db trainerId date (dateTime date startTime) (dateTime date endTime)
      <> [])).
Proof.
  unfold checkConflictsWith, truthyId.
  cbn [CheckConflicts.trainerId CheckConflicts.date CheckConflicts.startTime
       CheckConflicts.endTime].
  destruct (trainerId =? 0); [discriminate |].
  destruct d; cbn [Db.rows]; [discriminate |]. cbv zeta.
  repeat case_bool_decide; intros [= <-].
  - exists []. rewrite app_nil_r. auto.
  - exists []. rewrite app_nil_r. auto.
  - eexists. split; [reflexivity |]. right. split; [reflexivity |].
    intros Hnil. rewrite Hnil in *. contradiction.
Qed.

(** C1, as the code has it by design: the conflict query selects a stored
    session, with its lead, exactly when the session belongs to the same
    trainer, its status is ["agendado"] (so neither a cancelled nor a
    completed session counts), its lead exists, it starts on the requested
    date, and the candidate window padded by 15 minutes meets the session's
    window, end points included. Whenever the handler answers with a list
    of conflicts, the list is one [trainer_busy] entry per selected
    session, in order, followed by suggestion entries only. *)
Theorem check_conflicts_reports_iff db trainerId date startTime endTime :
  startTime <= endTime ->
  (forall s l,
     start_time s <= end_time s ->
     ((s, l) ∈ conflictRows db trainerId date (dateTime date startTime)
                 (dateTime date endTime) <->
      s ∈ sessions db /\ l ∈ leads db /\ lead_id s = leadId l /\
      trainer_id s = trainerId /\
      status s = "agendado"%string /\
      DATE (start_time s) = date /\
      dateTime date startTime - 15 * 60000 <= end_time s /\
      start_time s <= dateTime date endTime + 15 * 60000)) /\
  (forall d conflicts,
     checkConflictsWith d db
       (mkBody (Some trainerId) (Some date) (Some startTime) (Some endTime))
     = Json conflicts ->
     exists tail,
       conflicts
       = map (fun r => trainer_busy (name (snd r)) (start_time (fst r))
                         (end_time (fst r)))
             (conflictRows db trainerId date (dateTime date startTime)
                (dateTime date endTime))
         ++ tail /\
       Forall (fun entry => exists times, entry = suggestion times) tail).
Proof.
  intros Hc. split.
  - intros s l Hs.
    rewrite conflictRows_elem, conflictWhere_spec;
      [reflexivity | exact Hs | unfold dateTime, MakeDate; lia].
  - intros d conflicts Hresp.
    apply checkConflictsWith_Json in Hresp as (tail & -> & Htail).
    exists tail. split; [reflexivity |].
    destruct Htail as [-> | [-> _]]; [constructor |].
    constructor; [eauto | constructor].
Qed.

Lemma check_conflicts_reports_iff_witness :
  (forall s l,
     start_time s <= end_time s ->
     ((s, l) ∈ conflictRows
                 (mkDatabase
                    [mkSession 1 (mkDate 2024 0 2 8 30) (mkDate 2024 0 2 9 10) 5 3
                       "agendado"]
                    [mkLead 5 "Ana"])
                 3 (Day (mkDate 2024 0 2 0 0))
                 (dateTime (Day (mkDate 2024 0 2 0 0)) (MakeTime 9 5 0 0))
                 (dateTime (Day (mkDate 2024 0 2 0 0)) (MakeTime 10 0 0 0)) <->
      s ∈ [mkSession 1 (mkDate 2024 0 2 8 30) (mkDate 2024 0 2 9 10) 5 3 "agendado"] /\
      l ∈ [mkLead 5 "Ana"] /\ lead_id s = leadId l /\
      trainer_id s = 3 /\
      status s = "agendado"%string /\
      DATE (start_time s) = Day (mkDate 2024 0 2 0 0) /\
      dateTime (Day (mkDate 2024 0 2 0 0)) (MakeTime 9 5 0 0) - 15 * 60000 <= end_time s /\
      start_time s
      <= dateTime (Day (mkDate 2024 0 2 0 0)) (MakeTime 10 0 0 0) + 15 * 60000)) /\
  (forall d conflicts,
     checkConflictsWith d
       (mkDatabase
          [mkSession 1 (mkDate 2024 0 2 8 30) (mkDate 2024 0 2 9 10) 5 3 "agendado"]
          [mkLead 5 "Ana"])
       (mkBody (Some 3) (Some (Day (mkDate 2024 0 2 0 0))) (Some (MakeTime 9 5 0 0))
          (Some (MakeTime 10 0 0 0)))
     = Json conflicts ->
     exists tail,
       conflicts
       = map (fun r => trainer_busy (name (snd r)) (start_time (fst r))
                         (end_time (fst r)))
             (conflictRows
                (mkDatabase
                   [mkSession 1 (mkDate 2024 0 2 8 30) (mkDate 2024 0 2 9 10) 5 3
                      "agendado"]
                   [mkLead 5 "Ana"])
                3 (Day (mkDate 2024 0 2 0 0))
                (dateTime (Day (mkDate 2024 0 2 0 0)) (MakeTime 9 5 0 0))
                (dateTime (Day (mkDate 2024 0 2 0 0)) (MakeTime 10 0 0 0)))
         ++ tail /\
       Forall (fun entry => exists times, entry = suggestion times) tail).
Proof.
  apply (check_conflicts_reports_iff
           (mkDatabase
              [mkSession 1 (mkDate 2024 0 2 8 30) (mkDate 2024 0 2 9 10) 5 3 "agendado"]
              [mkLead 5 "Ana"])
           3 (Day (mkDate 2024 0 2 0 0)) (MakeTime 9 5 0 0) (MakeTime 10 0 0 0)).
  vm_compute. discriminate.
Defined.

(** The scenario of the specification: for 09:05-10:00 against a stored
    session of 08:30-09:10 the query selects the session; on the driver of
    [server/db.ts] the handler then fails to read the result and answers
    500. *)
Lemma check_conflicts_scenario :
  let s := mkSession 1 (mkDate 2024 0 2 8 30) (mkDate 2024 0 2 9 10) 5 3 "agendado" in
  let db := mkDatabase [s] [mkLead 5 "Ana"] in
  let date := Day (mkDate 2024 0 2 0 0) in
  conflictRows db 3 date (dateTime date (MakeTime 9 5 0 0))
    (dateTime date (MakeTime 10 0 0 0))
  = [(s, mkLead 5 "Ana")] /\
  checkConflicts db (mkBody (Some 3) (Some date) (Some (MakeTime 9 5 0 0))
                       (Some (MakeTime 10 0 0 0)))
  = ServerError.
Proof. cbv zeta. split; vm_compute; reflexivity. Qed.

(** C1 as the specification words it fails: a completed session of the same
    trainer that overlaps the padded candidate window is not selected by
    the query, so no answer of the handler reports it. *)
Lemma check_conflicts_ignores_completed :
  let s := mkSession 1 (mkDate 2024 0 2 8 30) (mkDate 2024 0 2 9 10) 5 3 "concluido" in
  let db := mkDatabase [s] [mkLead 5 "Ana"] in
  let date := Day (mkDate 2024 0 2 0 0) in
  specConflict 3 (dateTime date (MakeTime 9 5 0 0)) (dateTime date (MakeTime 10 0 0 0)) s /\
  conflictRows db 3 date (dateTime date (MakeTime 9 5 0 0))
    (dateTime date (MakeTime 10 0 0 0))
  = [] /\
  (forall d conflicts,
     checkConflictsWith d db (mkBody (Some 3) (Some date) (Some (MakeTime 9 5 0 0))
                                (Some (MakeTime 10 0 0 0)))
     = Json conflicts ->
     conflicts = []).
Proof.
  cbv zeta. split; [| split].
  - unfold specConflict. repeat split; vm_compute; (reflexivity || discriminate).
  - vm_compute. reflexivity.
  - intros d conflicts H. destruct d; [discriminate H |].
    vm_compute in H. injection H as <-. reflexivity.
Qed.

(** The end points count for the code: a session ending at the very start
    of the padded window is selected, though [a1 < b2 AND b1 < a2] fails. *)
Lemma check_conflicts_touching_end_point :
  let s := mkSession 1 (mkDate 2024 0 2 8 0) (mkDate 2024 0 2 8 50) 5 3 "agendado" in
  let db := mkDatabase [s] [mkLead 5 "Ana"] in
  let date := Day (mkDate 2024 0 2 0 0) in
  ~ specConflict 3 (dateTime date (MakeTime 9 5 0 0)) (dateTime date (MakeTime 10 0 0 0)) s /\
  conflictRows db 3 date (dateTime date (MakeTime 9 5 0 0))
    (dateTime date (MakeTime 10 0 0 0))
  = [(s, mkLead 5 "Ana")].
Proof.
  cbv zeta. split.
  - unfold specConflict. intros (_ & _ & H & _). vm_compute in H. discriminate.
  - vm_compute. reflexivity.
Qed.

(** The date counts too: a session that began the evening before and runs
    into the candidate window is not selected. *)
Lemma check_conflicts_session_from_the_day_before :
  let s := mkSession 1 (mkDate 2024 0 1 23 30) (mkDate 2024 0 2 0 30) 5 3 "agendado" in
  let db := mkDatabase [s] [mkLead 5 "Ana"] in
  let date := Day (mkDate 2024 0 2 0 0) in
  specConflict 3 (dateTime date (MakeTime 0 5 0 0)) (dateTime date (MakeTime 1 0 0 0)) s /\
  conflictRows db 3 date (dateTime date (MakeTime 0 5 0 0))
    (dateTime date (MakeTime 1 0 0 0))
  = [].
Proof.
  cbv zeta. split.
  - unfold specConflict. repeat split; vm_compute; (reflexivity || discriminate).
  - vm_compute. reflexivity.
Qed.

(** *** Suggested times *)

Lemma suggestLoop_filter db trainerId date startDateTime endDateTime slots acc :
  suggestLoop db trainerId date startDateTime endDateTime slots acc
  = acc ++
    map (fun slot => mkSuggested slot (slotStartOf date slot + (endDateTime - startDateTime)))
      (filter (fun slot =>
                 slotConflictCount db trainerId date (slotStartOf date slot)
                   (slotStartOf date slot + (endDateTime - startDateTime)) = 0)
              slots).
Proof.
  revert acc. induction slots as [| slot rest IH]; intros acc; cbn [suggestLoop].
  - rewrite app_nil_r. reflexivity.
  - rewrite IH, filter_cons.
    destruct (Z.eqb_spec (slotConflictCount db trainerId date (slotStartOf date slot)
                (slotStartOf date slot + (endDateTime - startDateTime))) 0) as [E | E];
      destruct (decide _) as [D | D]; try contradiction.
    + rewrite <- app_assoc. reflexivity.
    + reflexivity.
Qed.

Lemma StronglySorted_fmap_filter {A B} (R : B -> B -> Prop) (f : A -> B)
    (P : A -> Prop) `{!forall x, Decision (P x)} (l : list A) :
  StronglySorted (fun a b => R (f a) (f b)) l ->
  StronglySorted R (f <$> filter P l).
Proof.
  induction 1 as [| x l Hl IH Hx]; [constructor |].
  rewrite filter_cons. destruct (decide (P x)); [| exact IH].
  cbn. constructor; [exact IH |].
  apply Forall_fmap, Forall_forall. intros y Hy%list_elem_of_filter.
  rewrite Forall_forall in Hx. apply Hx, Hy.
Qed.

(** The suggestion loop as written: at most five suggestions, drawn from
    the first five steps of the ladder only (06:00 to 08:00), each for the
    requested date and duration and with no row counted by the slot query,
    which applies no tolerance, listed earliest first. *)
Lemma suggestions_from_first_five db trainerId date startDateTime endDateTime :
  (length (suggestedTimes db trainerId date startDateTime endDateTime) <= 5)%nat /\
  (forall t, t ∈ suggestedTimes db trainerId date startDateTime endDateTime ->
     start t ∈ [(6, 0); (6, 30); (7, 0); (7, 30); (8, 0)] /\
     slotEnd t - slotStartOf date (start t) = endDateTime - startDateTime /\
     slotConflictCount db trainerId date (slotStartOf date (start t)) (slotEnd t) = 0) /\
  StronglySorted (fun a b => slotStartOf date (start a) < slotStartOf date (start b))
    (suggestedTimes db trainerId date startDateTime endDateTime).
Proof.
  unfold suggestedTimes. rewrite suggestLoop_filter, app_nil_l.
  change (take 5 timeSlots) with [(6, 0); (6, 30); (7, 0); (7, 30); (8, 0)].
  split; [| split].
  - rewrite length_map. etransitivity; [apply length_filter |]. cbn. lia.
  - intros t Ht. apply list_elem_of_fmap in Ht as (slot & -> & Hslot).
    apply list_elem_of_filter in Hslot as [Hfree Hin]. cbn [start slotEnd].
    split; [exact Hin | split; [lia | exact Hfree]].
  - apply (StronglySorted_fmap_filter
             (fun a b => slotStartOf date (start a) < slotStartOf date (start b))).
    cbn [start]. unfold slotStartOf, dateTime, MakeDate, MakeTime, msPerDay,
      msPerHour, msPerMinute, msPerSecond.
    repeat (constructor; [| repeat constructor; cbn; lia]). constructor.
Qed.

(** The suggestions of a response are those of [suggestedTimes], and come
    only with a conflict. *)
Lemma checkConflicts_suggestion d db trainerId date startTime endTime conflicts times :
  checkConflictsWith d db
    (mkBody (Some trainerId) (Some date) (Some startTime) (Some endTime))
  = Json conflicts ->
  suggestion times ∈ conflicts ->
  times = suggestedTimes db trainerId date (dateTime date startTime) (dateTime date endTime) /\
  conflictRows db trainerId date (dateTime date startTime) (dateTime date endTime) <> [].
Proof.
  intros Hresp Hin. apply checkConflictsWith_Json in Hresp as (tail & -> & Htail).
  apply elem_of_app in Hin as [Hin | Hin].
  { apply list_elem_of_fmap in Hin as (r & Hr & _). discriminate Hr. }
  destruct Htail as [-> | [-> Hne]]; [apply elem_of_nil in Hin; contradiction |].
  apply list_elem_of_singleton in Hin. injection Hin as ->. auto.
Qed.

(** C9 fails on the code. With sessions of the trainer at 09:00-10:00 and
    07:05-07:50, a request for 09:00-10:00 has a conflict. On the driver of
    [server/db.ts] the handler cannot read the result of its query and
    answers 500, with no suggestion. Where the rows are read, it suggests
    06:00 for the same hour, the only step of the first five without a row
    under the slot query; yet under the conflict query, the test the
    request itself goes through, 06:00-07:00 has a conflict: the session of
    07:05 lies within the tolerance. *)
Theorem suggestion_conflicts_under_same_test :
  let busy := mkSession 1 (mkDate 2024 0 2 9 0) (mkDate 2024 0 2 10 0) 5 3 "agendado" in
  let near := mkSession 2 (mkDate 2024 0 2 7 5) (mkDate 2024 0 2 7 50) 5 3 "agendado" in
  let db := mkDatabase [busy; near] [mkLead 5 "Ana"] in
  let date := Day (mkDate 2024 0 2 0 0) in
  let request :=
    mkBody (Some 3) (Some date) (Some (MakeTime 9 0 0 0)) (Some (MakeTime 10 0 0 0)) in
  checkConflicts db request = ServerError /\
  checkConflictsWith Db.node_postgres db request
  = Json [trainer_busy "Ana" (mkDate 2024 0 2 9 0) (mkDate 2024 0 2 10 0);
          suggestion [mkSuggested (6, 0) (mkDate 2024 0 2 7 0)]] /\
  suggestedTimes db 3 date (dateTime date (MakeTime 9 0 0 0))
    (dateTime date (MakeTime 10 0 0 0))
  = [mkSuggested (6, 0) (mkDate 2024 0 2 7 0)] /\
  conflictRows db 3 date (dateTime date (MakeTime 6 0 0 0))
    (dateTime date (MakeTime 7 0 0 0))
  = [(near, mkLead 5 "Ana")].
Proof. cbv zeta. repeat split; vm_compute; reflexivity. Qed.

End ConflictCheck.

(** ** [updateClass] *)

Section UpdateClass.

Import Storage Handlers.

Context {Conflict : Type}.
Variable check : Store -> Z -> Z -> Z -> Z -> option Z -> option Conflict.

(** C7: an update that touches the start or the end time is checked for
    conflicts over the new window with the class itself excluded; when the
    check finds a conflict the answer carries it and the store, hence the
    stored class, is unchanged. *)
Theorem update_rejected_on_conflict st aulaId validatedData existingAula hasConflict :
  getAulaById st aulaId = Some existingAula ->
  touchesTime validatedData = true ->
  check st
    (orElse (AulaUpdate.professorId validatedData) (Aula.professorId existingAula))
    (orElse (AulaUpdate.studentId validatedData) (Aula.studentId existingAula))
    (default (Aula.startTime existingAula) (AulaUpdate.startTime validatedData))
    (default (Aula.endTime existingAula) (AulaUpdate.endTime validatedData))
    (Some aulaId)
  = Some hasConflict ->
  updateClass check st (Some aulaId) (Some validatedData)
  = (st, UpdateConflict hasConflict) /\
  getAulaById (fst (updateClass check st (Some aulaId) (Some validatedData))) aulaId
  = Some existingAula.
Proof.
  intros Hget Htouch Hcheck. unfold updateClass.
  rewrite Hget, Htouch, Hcheck. split; [reflexivity | exact Hget].
Qed.

(** Without a conflict the update goes through, marked as modified. *)
Lemma update_accepted_without_conflict st aulaId validatedData existingAula :
  getAulaById st aulaId = Some existingAula ->
  touchesTime validatedData = true ->
  check st
    (orElse (AulaUpdate.professorId validatedData) (Aula.professorId existingAula))
    (orElse (AulaUpdate.studentId validatedData) (Aula.studentId existingAula))
    (default (Aula.startTime existingAula) (AulaUpdate.startTime validatedData))
    (default (Aula.endTime existingAula) (AulaUpdate.endTime validatedData))
    (Some aulaId)
  = None ->
  updateClass check st (Some aulaId) (Some validatedData)
  = (fst (updateAula st aulaId (markModified existingAula validatedData)),
     Updated (snd (updateAula st aulaId (markModified existingAula validatedData)))).
Proof.
  intros Hget Htouch Hcheck. unfold updateClass.
  rewrite Hget, Htouch, Hcheck. destruct (updateAula _ _ _). reflexivity.
Qed.

Lemma getAulaById_updateAula st aulaId u a :
  getAulaById st aulaId = Some a ->
  getAulaById (fst (updateAula st aulaId u)) aulaId
  = Some (Aula.mk aulaId (merge u a)).
Proof.
  unfold getAulaById, updateAula. intros Hget.
  destruct (aulas st !! aulaId) as [row |] eqn:Hrow; [| discriminate].
  cbn in Hget. injection Hget as <-. cbn. rewrite lookup_insert_eq. reflexivity.
Qed.

(** A later time change that does not itself carry the snapshot columns
    keeps the flag and the snapshot, whether it is accepted or rejected. *)
Lemma later_change_keeps_snapshot st aulaId u a x y :
  getAulaById st aulaId = Some a ->
  Aula.isModified a = true ->
  Aula.originalStartTime a = Some x ->
  Aula.originalEndTime a = Some y ->
  touchesTime u = true ->
  AulaUpdate.originalStartTime u = None ->
  AulaUpdate.originalEndTime u = None ->
  exists a',
    getAulaById (fst (updateClass check st (Some aulaId) (Some u))) aulaId = Some a' /\
    Aula.isModified a' = true /\
    Aula.originalStartTime a' = Some x /\
    Aula.originalEndTime a' = Some y.
Proof.
  intros Hget Hmod Hx Hy Htouch Hus Hue. unfold updateClass.
  rewrite Hget, Htouch.
  destruct (check st _ _ _ _ _) as [c |].
  - exists a. cbn. auto.
  - pose proof (getAulaById_updateAula st aulaId (markModified a u) a Hget) as Hupd.
    destruct (updateAula st aulaId (markModified a u)) as [st' r]. cbn in *.
    eexists. split; [exact Hupd |]. cbn.
    unfold markModified. cbn. rewrite Hx, Hy, Hus, Hue. cbn. auto.
Qed.

(** The first accepted time change of a class without a snapshot sets
    [isModified] and records the start and end it had before the change;
    after any run of later time changes whose bodies do not themselves carry
    the two snapshot columns, the flag is still set and both original
    columns still hold those first values. *)
Lemma snapshot_taken_once st aulaId existingAula first st1 r later :
  getAulaById st aulaId = Some existingAula ->
  Aula.originalStartTime existingAula = None ->
  touchesTime first = true ->
  updateClass check st (Some aulaId) (Some first) = (st1, Updated r) ->
  Forall (fun u => touchesTime u = true /\
                   AulaUpdate.originalStartTime u = None /\
                   AulaUpdate.originalEndTime u = None) later ->
  exists a,
    getAulaById (updateAll check st1 aulaId later) aulaId = Some a /\
    Aula.isModified a = true /\
    Aula.originalStartTime a = Some (Aula.startTime existingAula) /\
    Aula.originalEndTime a = Some (Aula.endTime existingAula).
Proof.
  intros Hget Hnone Htouch Hfirst Hlater.
  assert (Hst1 : exists a1,
    getAulaById st1 aulaId = Some a1 /\
    Aula.isModified a1 = true /\
    Aula.originalStartTime a1 = Some (Aula.startTime existingAula) /\
    Aula.originalEndTime a1 = Some (Aula.endTime existingAula)).
  { unfold updateClass in Hfirst. rewrite Hget, Htouch in Hfirst.
    destruct (check st _ _ _ _ _) as [c |]; [discriminate |].
    pose proof (getAulaById_updateAula st aulaId (markModified existingAula first)
                  existingAula Hget) as Hupd.
    destruct (updateAula st aulaId (markModified existingAula first)) as [st' r'].
    injection Hfirst as <- _. cbn in Hupd.
    eexists. split; [exact Hupd |]. cbn. unfold markModified. cbn.
    rewrite Hnone. cbn. auto. }
  clear Hfirst Hget. revert st1 Hst1.
  induction Hlater as [| u later (Hu & Hus & Hue) _ IH]; intros st1 Hst1.
  - exact Hst1.
  - cbn [updateAll]. apply IH.
    destruct Hst1 as (a1 & Hget1 & Hmod & Hx & Hy).
    exact (later_change_keeps_snapshot st1 aulaId u a1 _ _ Hget1 Hmod Hx Hy Hu Hus Hue).
Qed.

End UpdateClass.

Lemma snapshot_taken_once_witness :
  exists a,
    Storage.getAulaById
      (Handlers.updateAll Storage.specCheckSchedulingConflicts
         (fst (Handlers.updateClass Storage.specCheckSchedulingConflicts Sample.store
                 (Some 1)
                 (Some (Sample.moveTo (mkDate 2024 0 2 9 15) (mkDate 2024 0 2 10 15)))))
         1
         [Sample.moveTo (mkDate 2024 0 2 11 0) (mkDate 2024 0 2 12 0);
          Sample.moveTo (mkDate 2024 0 2 14 30) (mkDate 2024 0 2 15 30)])
      1 = Some a /\
    Aula.isModified a = true /\
    Aula.originalStartTime a = Some (mkDate 2024 0 2 9 0) /\
    Aula.originalEndTime a = Some (mkDate 2024 0 2 10 0).
Proof.
  refine (snapshot_taken_once Storage.specCheckSchedulingConflicts Sample.store 1
            (Aula.mk 1 (Sample.aulaOn 10 (mkDate 2024 0 2 9 0) (mkDate 2024 0 2 10 0)
                          agendado))
            (Sample.moveTo (mkDate 2024 0 2 9 15) (mkDate 2024 0 2 10 15))
            _ _
            [Sample.moveTo (mkDate 2024 0 2 11 0) (mkDate 2024 0 2 12 0);
             Sample.moveTo (mkDate 2024 0 2 14 30) (mkDate 2024 0 2 15 30)]
            _ _ _ _ _).
  - vm_compute. reflexivity.
  - reflexivity.
  - vm_compute. reflexivity.
  - vm_compute. reflexivity.
  - repeat constructor.
Defined.

Lemma update_rejected_on_conflict_witness :
  Handlers.updateClass Storage.specCheckSchedulingConflicts Sample.store (Some 1)
    (Some (Sample.moveTo (mkDate 2024 0 2 14 30) (mkDate 2024 0 2 15 30)))
  = (Sample.store,
     Handlers.UpdateConflict
       (Aula.mk 2 (Sample.aulaOn 10 (mkDate 2024 0 2 14 0) (mkDate 2024 0 2 15 0) agendado)))
  /\
  Storage.getAulaById
    (fst (Handlers.updateClass Storage.specCheckSchedulingConflicts Sample.store (Some 1)
            (Some (Sample.moveTo (mkDate 2024 0 2 14 30) (mkDate 2024 0 2 15 30))))) 1
  = Some (Aula.mk 1 (Sample.aulaOn 10 (mkDate 2024 0 2 9 0) (mkDate 2024 0 2 10 0) agendado)).
Proof.
  apply (update_rejected_on_conflict Storage.specCheckSchedulingConflicts Sample.store 1
           (Sample.moveTo (mkDate 2024 0 2 14 30) (mkDate 2024 0 2 15 30))
           (Aula.mk 1 (Sample.aulaOn 10 (mkDate 2024 0 2 9 0) (mkDate 2024 0 2 10 0)
                         agendado))).
  - vm_compute. reflexivity.
  - vm_compute. reflexivity.
  - vm_compute. reflexivity.
Defined.


(** The class being moved does not stand in its own way: shifting the 09:00
    class by a quarter of an hour is accepted by the modelled check. *)
Lemma update_excludes_own_slot :
  snd (Handlers.updateClass Storage.specCheckSchedulingConflicts Sample.store (Some 1)
         (Some (Sample.moveTo (mkDate 2024 0 2 9 15) (mkDate 2024 0 2 10 15))))
  = Handlers.Updated
      (Some (Aula.mk 1
         {| Aula.agendamentoRecorrenteId := None;
            Aula.professorId := 10;
            Aula.studentId := 20;
            Aula.startTime := mkDate 2024 0 2 9 15;
            Aula.endTime := mkDate 2024 0 2 10 15;
            Aula.location := "studio";
            Aula.value := 9000;
            Aula.service := "personal";
            Aula.notes := None;
            Aula.status := agendado;
            Aula.isModified := true;
            Aula.originalStartTime := Some (mkDate 2024 0 2 9 0);
            Aula.originalEndTime := Some (mkDate 2024 0 2 10 0) |})).
Proof. vm_compute. reflexivity. Qed.

(** ** [createRecurrentScheduling] *)

Section CreateRecurrentScheduling.

Import Storage Handlers.

Context {Conflict : Type}.
Variable check : Store -> Z -> Z -> Z -> Z -> option Z -> option Conflict.

Lemma collectConflicts_app st aulas acc :
  collectConflicts check st aulas acc = acc ++ collectConflicts check st aulas [].
Proof.
  revert acc. induction aulas as [| aula rest IH]; intros acc; cbn [collectConflicts].
  - rewrite app_nil_r. reflexivity.
  - destruct (check st _ _ _ _ None) as [c |].
    + rewrite (IH (acc ++ _)), (IH ([] ++ _)), app_assoc. reflexivity.
    + apply IH.
Qed.

(** No conflict is collected exactly when no class of the batch has one. *)
Lemma collectConflicts_nil st aulas :
  collectConflicts check st aulas [] = [] <->
  forall aula, aula ∈ aulas -> conflictOf check st aula = None.
Proof.
  unfold conflictOf. induction aulas as [| aula rest IH]; cbn [collectConflicts].
  - split; [intros _ a Ha; apply elem_of_nil in Ha; contradiction | reflexivity].
  - destruct (check st _ _ _ _ None) as [c |] eqn:Hc.
    + rewrite collectConflicts_app. split.
      * intros H. apply app_eq_nil in H as [H _]. discriminate.
      * intros H. specialize (H aula (list_elem_of_here _ _)). congruence.
    + rewrite IH. split.
      * intros H a Ha. apply elem_of_cons in Ha as [-> | Ha]; [exact Hc | exact (H a Ha)].
      * intros H a Ha. apply H, list_elem_of_further, Ha.
Qed.

(** What [createMultipleAulas] stores: the batch, in order, under the ids
    from [next] on, leaving the rows below [next] as they were. *)
Lemma insertAulas_spec tbl next batch :
  (Aula.dados <$> (insertAulas tbl next batch).2) = batch /\
  (forall k, k < next -> (insertAulas tbl next batch).1.1 !! k = tbl !! k) /\
  Forall (fun a => next <= Aula.id a /\
                   (insertAulas tbl next batch).1.1 !! Aula.id a = Some (Aula.dados a))
         (insertAulas tbl next batch).2.
Proof.
  revert tbl next. induction batch as [| a rest IH]; intros tbl next; cbn [insertAulas].
  - cbn. repeat split; constructor.
  - specialize (IH (<[next := a]> tbl) (next + 1)).
    destruct (insertAulas (<[next := a]> tbl) (next + 1) rest) as [[tbl' next'] created].
    cbn in *. destruct IH as (Hd & Hlow & Hall). split; [| split].
    + rewrite Hd. reflexivity.
    + intros k Hk. rewrite Hlow by lia. apply lookup_insert_ne. lia.
    + constructor.
      * cbn. split; [lia |]. rewrite Hlow by lia. apply lookup_insert_eq.
      * eapply Forall_impl; [exact Hall |]. cbn. intros x [Hx1 Hx2].
        split; [lia | exact Hx2].
Qed.

(** C8: the batch of one expansion is stored as a whole or not at all. If
    any generated class has a conflict the handler answers with the
    conflicts and the table of classes is as it was before the request;
    otherwise every class of the batch is stored, in order. *)
Theorem batch_all_or_nothing fuel now st validatedData professor student batch
    st' response :
  getUserById st (Agendamento.professorId validatedData) = Some professor ->
  role professor = "professor"%string ->
  getLeadById st (Agendamento.studentId validatedData) = Some student ->
  Controller.generateRecurrentClasses fuel now
    (snd (createAgendamentoRecorrente st validatedData)) = Some batch ->
  createRecurrentScheduling check fuel now st (Some validatedData)
  = Some (st', response) ->
  ((exists aula, aula ∈ batch /\
      is_Some (conflictOf check (fst (createAgendamentoRecorrente st validatedData)) aula)) ->
   aulas st' = aulas st /\
   exists conflicts, conflicts <> [] /\ response = CreateConflict conflicts) /\
  ((forall aula, aula ∈ batch ->
      conflictOf check (fst (createAgendamentoRecorrente st validatedData)) aula = None) ->
   exists createdAulas,
     response = Created (snd (createAgendamentoRecorrente st validatedData)) createdAulas /\
     Aula.dados <$> createdAulas = batch /\
     Forall (fun a => aulas st' !! Aula.id a = Some (Aula.dados a)) createdAulas).
Proof.
  intros Hprof Hrole Hlead Hgen Hrun. unfold createRecurrentScheduling in Hrun.
  rewrite Hprof, Hrole, Hlead in Hrun. cbn [String.eqb negb] in Hrun.
  change (String.eqb "professor" "professor") with true in Hrun. cbn [negb] in Hrun.
  destruct (createAgendamentoRecorrente st validatedData) as [st1 agendamento] eqn:Hcreate.
  cbn [fst snd] in *. rewrite Hgen in Hrun.
  assert (Haulas1 : aulas st1 = aulas st).
  { unfold createAgendamentoRecorrente in Hcreate. injection Hcreate as <- _. reflexivity. }
  destruct (collectConflicts check st1 batch []) as [| c cs] eqn:Hcollect.
  - pose proof (proj1 (collectConflicts_nil st1 batch) Hcollect) as Hnone.
    split.
    + intros (aula & Hin & [c Hc]). rewrite (Hnone aula Hin) in Hc. discriminate.
    + intros _. unfold createMultipleAulas in Hrun.
      pose proof (insertAulas_spec (aulas st1) (nextAulaId st1) batch) as (Hd & _ & Hall).
      destruct (insertAulas (aulas st1) (nextAulaId st1) batch) as [[tbl next] created].
      injection Hrun as <- <-. cbn in *.
      exists created. split; [reflexivity | split; [exact Hd |]].
      eapply Forall_impl; [exact Hall |]. cbn. intros a [_ Ha]. exact Ha.
  - injection Hrun as <- <-. split.
    + intros _. split; [exact Haulas1 |]. exists (c :: cs). split; [done | reflexivity].
    + intros Hnone. apply collectConflicts_nil in Hnone. congruence.
Qed.

(** C10: when the batch is rejected for a conflict, the rule written before
    the check stays in the store, under the id the request was given, and no
    stored class refers to it. *)
Theorem rejected_rule_stays_stored fuel now st validatedData st' conflicts :
  ruleIdsBelowNext st ->
  createRecurrentScheduling check fuel now st (Some validatedData)
  = Some (st', CreateConflict conflicts) ->
  conflicts <> [] /\
  agendamentosRecorrentes st' !! nextAgendamentoId st = Some validatedData /\
  aulas st' = aulas st /\
  (forall aulaId aula,
     aulas st' !! aulaId = Some aula ->
     Aula.agendamentoRecorrenteId aula <> Some (nextAgendamentoId st)).
Proof.
  intros Hwf Hrun. unfold createRecurrentScheduling in Hrun.
  destruct (getUserById st _) as [professor |]; [| discriminate].
  destruct (negb _); [discriminate |].
  destruct (getLeadById st _) as [student |]; [| discriminate].
  unfold createAgendamentoRecorrente in Hrun. cbn zeta in Hrun.
  destruct (Controller.generateRecurrentClasses _ _ _) as [batch |]; [| discriminate].
  destruct (collectConflicts _ _ _ _) as [| c cs].
  - destruct (createMultipleAulas _ _). discriminate.
  - injection Hrun as <- <-. cbn. split; [done |].
    split; [apply lookup_insert_eq |]. split; [reflexivity |].
    intros aulaId aula Hrow Hid. specialize (Hwf aulaId aula _ Hrow Hid). lia.
Qed.

End CreateRecurrentScheduling.

Lemma batch_all_or_nothing_witness :
  Storage.aulas (fst (Storage.createAgendamentoRecorrente Sample.store Sample.clashingRule))
  = Storage.aulas Sample.store /\
  exists conflicts,
    conflicts <> [] /\
    Handlers.CreateConflict
      [(mkDate 2024 0 2 14 30,
        Aula.mk 2 (Sample.aulaOn 10 (mkDate 2024 0 2 14 0) (mkDate 2024 0 2 15 0) agendado))]
    = Handlers.CreateConflict conflicts.
Proof.
  refine (proj1 (batch_all_or_nothing Storage.specCheckSchedulingConflicts 50 Sample.now
            Sample.store Sample.clashingRule (Storage.mkUser "professor" "Bia")
            (Storage.mkLead "Ana")
            (map (Controller.aulaAt (Agendamento.mk 1 Sample.clashingRule))
               [mkDate 2024 0 2 14 30; mkDate 2024 0 3 14 30; mkDate 2024 0 4 14 30])
            _ _ _ _ _ _ _) _).
  - vm_compute. reflexivity.
  - reflexivity.
  - vm_compute. reflexivity.
  - vm_compute. reflexivity.
  - vm_compute. reflexivity.
  - exists (Controller.aulaAt (Agendamento.mk 1 Sample.clashingRule) (mkDate 2024 0 2 14 30)).
    split; [apply list_elem_of_here | vm_compute; eauto].
Defined.

Lemma sample_store_rule_ids : Handlers.ruleIdsBelowNext Sample.store.
Proof.
  intros aulaId aula k Hrow Hk. apply elem_of_map_to_list in Hrow.
  let l := eval vm_compute in (map_to_list (Storage.aulas Sample.store)) in
  change (map_to_list (Storage.aulas Sample.store)) with l in Hrow.
  repeat (apply elem_of_cons in Hrow as [Hrow | Hrow];
          [injection Hrow as -> ->; discriminate Hk |]).
  apply elem_of_nil in Hrow. contradiction.
Qed.

Lemma rejected_rule_stays_stored_witness :
  [(mkDate 2024 0 2 14 30,
    Aula.mk 2 (Sample.aulaOn 10 (mkDate 2024 0 2 14 0) (mkDate 2024 0 2 15 0) agendado))]
  <> [] /\
  Storage.agendamentosRecorrentes
    (fst (Storage.createAgendamentoRecorrente Sample.store Sample.clashingRule))
    !! Storage.nextAgendamentoId Sample.store = Some Sample.clashingRule /\
  Storage.aulas (fst (Storage.createAgendamentoRecorrente Sample.store Sample.clashingRule))
  = Storage.aulas Sample.store /\
  (forall aulaId aula,
     Storage.aulas (fst (Storage.createAgendamentoRecorrente Sample.store Sample.clashingRule))
       !! aulaId = Some aula ->
     Aula.agendamentoRecorrenteId aula <> Some (Storage.nextAgendamentoId Sample.store)).
Proof.
  apply (rejected_rule_stays_stored Storage.specCheckSchedulingConflicts 50 Sample.now
           Sample.store Sample.clashingRule).
  - exact sample_store_rule_ids.
  - vm_compute. reflexivity.
Defined.

(** A rule clear of the stored classes is stored with all its classes. *)
Lemma free_rule_is_created :
  exists st' agendamento createdAulas,
    Handlers.createRecurrentScheduling Storage.specCheckSchedulingConflicts 50 Sample.now
      Sample.store (Some Sample.freeRule)
    = Some (st', Handlers.Created agendamento createdAulas) /\
    Aula.id <$> createdAulas = [3; 4; 5] /\
    Aula.startTime <$> (Aula.dados <$> createdAulas)
    = [mkDate 2024 0 2 11 0; mkDate 2024 0 3 11 0; mkDate 2024 0 4 11 0].
Proof. do 3 eexists. split; [vm_compute; reflexivity | split; vm_compute; reflexivity]. Qed.

(** ** [generateRecurrentClasses] *)

Section GenerateRecurrentClasses.

Import Controller.

Lemma TimeWithinDay_advance regras c :
  TimeWithinDay (advance regras c) = TimeWithinDay c.
Proof.
  unfold advance. destruct (type regras);
    auto using TimeWithinDay_setDate, TimeWithinDay_setMonth, TimeWithinDay_setFullYear.
Qed.

(** With an interval of at least one, each advance is at least a day. *)
Lemma Day_advance regras c :
  1 <= interval regras -> Day c + 1 <= Day (advance regras c).
Proof.
  intros Hi. unfold advance. destruct (type regras).
  - rewrite setDate_getDate_add, Day_add_days. lia.
  - rewrite setDate_getDate_add, Day_add_days. lia.
  - unfold getMonth. rewrite Day_setMonth.
    pose proof (MakeDay_month_le (YearFromTime c) (MonthFromTime c) (interval regras)
                  (DateFromTime c)) as H.
    rewrite MakeDay_fields in H. lia.
  - unfold getFullYear. rewrite Day_setFullYear.
    pose proof (MakeDay_year_le (YearFromTime c) (interval regras) (MonthFromTime c)
                  (DateFromTime c) Hi (MonthFromTime_range c)) as H.
    rewrite MakeDay_fields in H. lia.
  - rewrite setDate_getDate_add, Day_add_days. lia.
Qed.

(** The classes the loop adds are the classes of a list of cursors, each at
    the time of day of [startDate] and none after [maxDate]. *)
Lemma generateLoop_cursors fuel (agendamento : Agendamento.t) maxDate c n acc out :
  TimeWithinDay c = TimeWithinDay (Agendamento.startDate agendamento) ->
  generateLoop fuel agendamento maxDate c n acc = Some out ->
  exists cursors,
    out = acc ++ map (aulaAt agendamento) cursors /\
    Forall (fun c' =>
              TimeWithinDay c' = TimeWithinDay (Agendamento.startDate agendamento) /\
              c' <= maxDate) cursors.
Proof.
  revert c n acc. induction fuel as [| fuel IH]; intros c n acc Htod Hrun;
    cbn [generateLoop] in Hrun; [discriminate |].
  destruct (Z.ltb_spec maxDate c) as [Hpast | Hin].
  { injection Hrun as <-. exists []. rewrite app_nil_r. split; [reflexivity | constructor]. }
  destruct (reachedMaxOccurrences _ n).
  { injection Hrun as <-. exists []. rewrite app_nil_r. split; [reflexivity | constructor]. }
  destruct (pastEndDate _ c).
  { injection Hrun as <-. exists []. rewrite app_nil_r. split; [reflexivity | constructor]. }
  destruct (skipsDay _ c).
  - apply IH in Hrun; [exact Hrun |]. rewrite TimeWithinDay_setDate. exact Htod.
  - apply IH in Hrun; [| rewrite TimeWithinDay_advance; exact Htod].
    destruct Hrun as (cursors & -> & Hall). exists (c :: cursors).
    rewrite <- app_assoc. split; [reflexivity |]. constructor; [split; [exact Htod | lia] | exact Hall].
Qed.

(** The start of a generated class is its cursor; its end is on the same
    day, one hour past the time of day of [startDate], wrapping at midnight. *)
Lemma aulaAt_times (agendamento : Agendamento.t) c :
  TimeWithinDay c = TimeWithinDay (Agendamento.startDate agendamento) ->
  Aula.startTime (aulaAt agendamento c) = c /\
  Day (Aula.endTime (aulaAt agendamento c)) = Day c /\
  TimeWithinDay (Aula.endTime (aulaAt agendamento c))
  = (TimeWithinDay (Agendamento.startDate agendamento) + msPerHour) mod msPerDay.
Proof.
  intros Htod. unfold aulaAt. cbn [Aula.startTime Aula.endTime].
  split; [apply setHours2_same, Htod |].
  rewrite setHours1_next_hour.
  set (s := Agendamento.startDate agendamento) in *.
  assert (Hrange : 0 <= MakeTime (getHours (s + msPerHour)) (getMinutes (s + msPerHour))
                          (SecFromTime c) (msFromTime c) < msPerDay).
  { unfold MakeTime, getHours, getMinutes, HourFromTime, MinFromTime, SecFromTime,
      msFromTime, msPerDay, msPerHour, msPerMinute, msPerSecond. zlia. }
  unfold setHours2. rewrite Day_MakeDate, TimeWithinDay_MakeDate by exact Hrange.
  split; [reflexivity |].
  destruct (fields_of_TimeWithinDay c s Htod) as (_ & _ & Hs & Hms).
  rewrite Hs, Hms.
  replace ((TimeWithinDay s + msPerHour) mod msPerDay) with (TimeWithinDay (s + msPerHour))
    by (unfold TimeWithinDay, msPerDay, msPerHour; zlia).
  rewrite (TimeWithinDay_fields (s + msPerHour)). unfold getHours, getMinutes.
  f_equal; unfold SecFromTime, msFromTime, msPerHour, msPerSecond; zlia.
Qed.

(** Unless the rule starts in the last hour of the day, that is one hour. *)
Lemma aulaAt_duration (agendamento : Agendamento.t) c :
  TimeWithinDay c = TimeWithinDay (Agendamento.startDate agendamento) ->
  getHours (Agendamento.startDate agendamento) < 23 ->
  Aula.endTime (aulaAt agendamento c) - Aula.startTime (aulaAt agendamento c) = msPerHour.
Proof.
  intros Htod Hh. destruct (aulaAt_times agendamento c Htod) as (Hs & Hd & He).
  rewrite Hs. pose proof (MakeDate_Day (Aula.endTime (aulaAt agendamento c))) as H1.
  pose proof (MakeDate_Day c) as H2. rewrite Hd, He, <- Htod in H1.
  unfold MakeDate in H1, H2.
  assert (Hlt : TimeWithinDay c + msPerHour < msPerDay).
  { rewrite Htod. unfold getHours, HourFromTime, TimeWithinDay, msPerHour, msPerDay in *.
    zlia. }
  pose proof (TimeWithinDay_range c).
  rewrite Z.mod_small in H1 by (unfold msPerHour in *; lia). lia.
Qed.

End GenerateRecurrentClasses.

(** ** [generateClassesFromRecurrence] *)

Section GenerateClassesFromRecurrence.

Import Routes.

Lemma TimeWithinDay_route_advance regras c :
  TimeWithinDay (advance regras c) = TimeWithinDay c.
Proof.
  unfold advance. destruct (type regras);
    auto using TimeWithinDay_setDate, TimeWithinDay_setMonth, TimeWithinDay_setFullYear.
Qed.

Lemma classesLoop_cursors fuel (agendamento : Agendamento.t) c n acc out :
  TimeWithinDay c = TimeWithinDay (Agendamento.startDate agendamento) ->
  classesLoop fuel agendamento c n acc = Some out ->
  exists cursors,
    out = acc ++ map (classAt agendamento) cursors /\
    Forall (fun c' =>
              TimeWithinDay c' = TimeWithinDay (Agendamento.startDate agendamento))
           cursors.
Proof.
  revert c n acc. induction fuel as [| fuel IH]; intros c n acc Htod Hrun;
    cbn [classesLoop] in Hrun; [discriminate |].
  destruct (Controller.reachedMaxOccurrences _ n).
  { injection Hrun as <-. exists []. rewrite app_nil_r. split; [reflexivity | constructor]. }
  destruct (pastEndDate _ c).
  { injection Hrun as <-. exists []. rewrite app_nil_r. split; [reflexivity | constructor]. }
  destruct (100 <? n).
  { injection Hrun as <-. exists []. rewrite app_nil_r. split; [reflexivity | constructor]. }
  apply IH in Hrun; [| rewrite TimeWithinDay_route_advance; exact Htod].
  destruct Hrun as (cursors & -> & Hall). exists (c :: cursors).
  rewrite <- app_assoc. split; [reflexivity |]. constructor; [exact Htod | exact Hall].
Qed.

(** The safety limit ends the loop: 102 iterations are always enough. *)
Lemma classesLoop_terminates fuel (agendamento : Agendamento.t) c n acc :
  Z.max 1 (102 - n) <= Z.of_nat fuel ->
  exists out, classesLoop fuel agendamento c n acc = Some out.
Proof.
  revert c n acc. induction fuel as [| fuel IH]; intros c n acc Hfuel; [lia |].
  cbn [classesLoop].
  destruct (Controller.reachedMaxOccurrences _ n); [eauto |].
  destruct (pastEndDate _ c); [eauto |].
  destruct (Z.ltb_spec 100 n); [eauto |].
  apply IH; lia.
Qed.

End GenerateClassesFromRecurrence.

(** The route [POST /api/new-scheduling/recurrent] runs no conflict check:
    it always ends, and stores the whole batch it generates. *)
Lemma postRecurrent_stores_whole_batch st body :
  exists st' agendamento classes createdAulas,
    Handlers.postRecurrent 102 st body = Some (st', agendamento) /\
    Routes.generateClassesFromRecurrence 102 agendamento = Some classes /\
    Aula.dados <$> createdAulas = classes /\
    Forall (fun a => Storage.aulas st' !! Aula.id a = Some (Aula.dados a)) createdAulas.
Proof.
  unfold Handlers.postRecurrent.
  destruct (Storage.createAgendamentoRecorrente st body) as [st1 agendamento].
  destruct (classesLoop_terminates 102 agendamento (Agendamento.startDate agendamento) 0 [])
    as (classes & Hclasses); [cbn; lia |].
  unfold Routes.generateClassesFromRecurrence. rewrite Hclasses.
  destruct classes as [| c classes].
  - exists st1, agendamento, [], [].
    split; [reflexivity |]. split; [exact Hclasses |]. split; constructor.
  - unfold Storage.createMultipleAulas.
    pose proof (insertAulas_spec (Storage.aulas st1) (Storage.nextAulaId st1) (c :: classes))
      as (Hd & _ & Hall).
    destruct (Storage.insertAulas (Storage.aulas st1) (Storage.nextAulaId st1) (c :: classes))
      as [[tbl next] created].
    cbn [fst snd] in *. eexists _, agendamento, (c :: classes), created.
    split; [reflexivity |]. split; [exact Hclasses |]. split; [exact Hd |].
    eapply Forall_impl; [exact Hall |]. cbn. intros a [_ Ha]. exact Ha.
Qed.

(** ** Start and end of the generated classes *)

(** C4, as the code has it by design: every generated class starts on its
    date at the time of day of the rule's [startDate], and ends one hour
    after its start by a fixed default, the rule carrying no end time. For
    [generateRecurrentClasses] this is stated for rules that start before
    23:00; [generateClassesFromRecurrence] adds the hour to the start. *)
Theorem classes_last_one_hour (agendamento : Agendamento.t) :
  (forall fuel now aulas a,
     getHours (Agendamento.startDate agendamento) < 23 ->
     Controller.generateRecurrentClasses fuel now agendamento = Some aulas ->
     a ∈ aulas ->
     TimeWithinDay (Aula.startTime a) = TimeWithinDay (Agendamento.startDate agendamento) /\
     Aula.endTime a - Aula.startTime a = msPerHour) /\
  (forall fuel classes b,
     Routes.generateClassesFromRecurrence fuel agendamento = Some classes ->
     b ∈ classes ->
     TimeWithinDay (Aula.startTime b) = TimeWithinDay (Agendamento.startDate agendamento) /\
     Aula.endTime b - Aula.startTime b = msPerHour).
Proof.
  split.
  - intros fuel now aulas a Hh Hrun Ha.
    apply generateLoop_cursors in Hrun as (cursors & -> & Hall); [| reflexivity].
    rewrite app_nil_l in Ha. apply list_elem_of_fmap in Ha as (c & -> & Hc).
    rewrite Forall_forall in Hall. destruct (Hall c Hc) as [Htod _].
    destruct (aulaAt_times agendamento c Htod) as (Hs & _).
    rewrite Hs. split; [exact Htod |].
    rewrite <- Hs at 2. apply aulaAt_duration; assumption.
  - intros fuel classes b Hrun Hb.
    apply classesLoop_cursors in Hrun as (cursors & -> & Hall); [| reflexivity].
    rewrite app_nil_l in Hb. apply list_elem_of_fmap in Hb as (c & -> & Hc).
    rewrite Forall_forall in Hall. specialize (Hall c Hc).
    unfold Routes.classAt. cbn [Aula.startTime Aula.endTime].
    rewrite setHours1_next_hour. split; [exact Hall | lia].
Qed.

Lemma classes_last_one_hour_witness :
  TimeWithinDay
    (Aula.startTime
       (Controller.aulaAt (Agendamento.mk 1 (NewRecurrenceForm.payload Sample.tuesdayForm))
          (mkDate 2024 0 9 9 0)))
  = TimeWithinDay
      (Agendamento.startDate
         (Agendamento.mk 1 (NewRecurrenceForm.payload Sample.tuesdayForm))) /\
  Aula.endTime
    (Controller.aulaAt (Agendamento.mk 1 (NewRecurrenceForm.payload Sample.tuesdayForm))
       (mkDate 2024 0 9 9 0))
  - Aula.startTime
      (Controller.aulaAt (Agendamento.mk 1 (NewRecurrenceForm.payload Sample.tuesdayForm))
         (mkDate 2024 0 9 9 0))
  = msPerHour.
Proof.
  refine (proj1 (classes_last_one_hour
            (Agendamento.mk 1 (NewRecurrenceForm.payload Sample.tuesdayForm)))
            50%nat Sample.now
            (map (Controller.aulaAt
                    (Agendamento.mk 1 (NewRecurrenceForm.payload Sample.tuesdayForm)))
               [mkDate 2024 0 2 9 0; mkDate 2024 0 9 9 0; mkDate 2024 0 16 9 0])
            _ _ _ _).
  - vm_compute. reflexivity.
  - vm_compute. reflexivity.
  - apply list_elem_of_further, list_elem_of_here.
Defined.

(** C4 as the specification words it fails: the form's window is 09:00 to
    10:30, its end never reaches the server, and each generated class ends
    at 10:00, sixty minutes after its start and not the ninety of the
    window. *)
Lemma class_end_ignores_form_end :
  let agendamento := Agendamento.mk 1 (NewRecurrenceForm.payload Sample.tuesdayForm) in
  exists aulas,
    Controller.generateRecurrentClasses 50 Sample.now agendamento = Some aulas /\
    NewRecurrenceForm.endDateTime Sample.tuesdayForm = mkDate 2024 0 2 10 30 /\
    Aula.startTime <$> aulas
    = [mkDate 2024 0 2 9 0; mkDate 2024 0 9 9 0; mkDate 2024 0 16 9 0] /\
    Aula.endTime <$> aulas
    = [mkDate 2024 0 2 10 0; mkDate 2024 0 9 10 0; mkDate 2024 0 16 10 0] /\
    Forall (fun a =>
              TimeWithinDay (Aula.endTime a)
              <> TimeWithinDay (NewRecurrenceForm.endDateTime Sample.tuesdayForm) /\
              Aula.endTime a - Aula.startTime a
              <> NewRecurrenceForm.endTime Sample.tuesdayForm
                 - NewRecurrenceForm.startTime Sample.tuesdayForm) aulas.
Proof.
  cbv zeta. eexists. split; [vm_compute; reflexivity |].
  split; [vm_compute; reflexivity |]. split; [vm_compute; reflexivity |].
  split; [vm_compute; reflexivity |].
  repeat (constructor; [split; vm_compute; discriminate |]). constructor.
Qed.

(** ** Monthly rules *)

(** One step of a monthly cursor: [setMonth] does not clamp. When the
    cursor's day of the month exceeds the length of the month it aims at,
    the cursor lands in the month after that one, on the day by which the
    length was exceeded. The three loops move their monthly cursor alike. *)
Lemma monthly_advance_rolls_over regras c :
  type regras = monthly ->
  DaysInMonth (targetYear c (interval regras)) (targetMonth c (interval regras))
    < getDate c ->
  (getFullYear (Controller.advance regras c), getMonth (Controller.advance regras c))
  = nextMonth (targetYear c (interval regras)) (targetMonth c (interval regras)) /\
  getDate (Controller.advance regras c)
  = getDate c
    - DaysInMonth (targetYear c (interval regras)) (targetMonth c (interval regras)) /\
  Routes.advance regras c = Controller.advance regras c /\
  (forall body sessions,
     Routes.recurrenceType body = "monthly"%string ->
     Routes.recurrenceInterval body = interval regras ->
     snd (Routes.step body c sessions) = Controller.advance regras c).
Proof.
  intros Htype Hover. unfold Controller.advance, Routes.advance. rewrite Htype.
  destruct (setMonth_rolls_over c (interval regras) Hover) as (Hy & Hm & Hd).
  unfold getFullYear, getMonth, getDate in *. rewrite Hy, Hm, Hd.
  split; [symmetry; apply surjective_pairing |].
  split; [reflexivity |]. split; [reflexivity |].
  intros body sessions Hbt Hbi. unfold Routes.step. rewrite Hbt, Hbi. reflexivity.
Qed.

Lemma monthly_advance_rolls_over_witness :
  (getFullYear (Controller.advance (mkRegras monthly 1 None) (mkDate 2024 0 31 9 0)),
   getMonth (Controller.advance (mkRegras monthly 1 None) (mkDate 2024 0 31 9 0)))
  = (2024, 2) /\
  getDate (Controller.advance (mkRegras monthly 1 None) (mkDate 2024 0 31 9 0)) = 2.
Proof.
  destruct (monthly_advance_rolls_over (mkRegras monthly 1 None) (mkDate 2024 0 31 9 0))
    as (H1 & H2 & _).
  - reflexivity.
  - vm_compute. reflexivity.
  - split; [exact H1 | exact H2].
Defined.

(** C3 as the specification words it fails: a monthly rule anchored on
    January 31st has no class in February; its second class is on March
    2nd, and from then on the series stays on the 2nd. *)
Lemma monthly_rule_skips_february :
  exists aulas,
    Controller.generateRecurrentClasses 50 Sample.now
      (Agendamento.mk 1 Sample.endOfMonthRule) = Some aulas /\
    Aula.startTime <$> aulas
    = [mkDate 2024 0 31 9 0; mkDate 2024 2 2 9 0; mkDate 2024 3 2 9 0;
       mkDate 2024 4 2 9 0; mkDate 2024 5 2 9 0] /\
    DaysInMonth 2024 1 = 29 /\
    Forall (fun a => getMonth (Aula.startTime a) <> 1) aulas.
Proof.
  eexists. split; [vm_compute; reflexivity |].
  split; [vm_compute; reflexivity |]. split; [reflexivity |].
  repeat (constructor; [vm_compute; discriminate |]). constructor.
Qed.

(** The route's session loop does the same with the same anchor. *)
Lemma monthly_sessions_skip_february :
  exists sessions,
    Routes.recurringSessions 400
      (Routes.mkBody (mkDate 2024 0 31 9 0) (mkDate 2024 0 31 10 0) "monthly" 1 None
         "count" None (Some 4)) = Some sessions /\
    Routes.slotStartTime <$> sessions
    = [mkDate 2024 0 31 9 0; mkDate 2024 2 2 9 0; mkDate 2024 3 2 9 0; mkDate 2024 4 2 9 0].
Proof. eexists. split; vm_compute; reflexivity. Qed.

(** ** Termination and the size of an expansion *)

Section ExpansionBounds.

(** [generateRecurrentClasses] with an interval of at least one ends, and
    adds at most one class per day from the cursor to [maxDate]. *)
Lemma generateLoop_total fuel (agendamento : Agendamento.t) maxDate c n acc :
  1 <= interval (Agendamento.regras agendamento) ->
  Z.max 0 (Day maxDate - Day c + 1) < Z.of_nat fuel ->
  exists out,
    Controller.generateLoop fuel agendamento maxDate c n acc = Some out /\
    Z.of_nat (length out) <= Z.of_nat (length acc) + Z.max 0 (Day maxDate - Day c + 1).
Proof.
  intros Hi. revert c n acc. induction fuel as [| fuel IH]; intros c n acc Hfuel; [lia |].
  cbn [Controller.generateLoop].
  destruct (Z.ltb_spec maxDate c) as [Hpast | Hin]; [exists acc; split; [reflexivity | lia] |].
  destruct (Controller.reachedMaxOccurrences _ n); [exists acc; split; [reflexivity | lia] |].
  destruct (Controller.pastEndDate _ c); [exists acc; split; [reflexivity | lia] |].
  assert (Hday : Day c <= Day maxDate) by (unfold Day, msPerDay; zlia).
  destruct (Controller.skipsDay _ c).
  - destruct (IH (setDate c (getDate c + 1)) n acc) as (out & Hout & Hlen).
    { rewrite setDate_getDate_add, Day_add_days. lia. }
    exists out. split; [exact Hout |].
    rewrite setDate_getDate_add, Day_add_days in Hlen. lia.
  - pose proof (Day_advance (Agendamento.regras agendamento) c Hi) as Hadv.
    destruct (IH (Controller.advance (Agendamento.regras agendamento) c) (n + 1)
                (acc ++ [Controller.aulaAt agendamento c])) as (out & Hout & Hlen); [lia |].
    exists out. split; [exact Hout |]. rewrite length_app in Hlen. cbn in Hlen. lia.
Qed.

(** Each pass of the session loop adds at most one session. *)
Lemma step_length body c sessions :
  (length sessions <= length (fst (Routes.step body c sessions))
   <= S (length sessions))%nat.
Proof.
  unfold Routes.step.
  destruct (String.eqb _ "weekly");
    [destruct (Routes.dayIsSelected _ c); cbn; rewrite ?length_app; cbn; lia |].
  destruct (String.eqb _ "daily"); [cbn; rewrite length_app; cbn; lia |].
  destruct (String.eqb _ "monthly"); cbn; rewrite ?length_app; cbn; lia.
Qed.

(** The session loop of [POST /api/sessions] always ends, within 366
    passes and within [maxSessions] passes. *)
Lemma sessionsLoop_total fuel body c n acc :
  0 <= n <= 365 ->
  366 - n <= Z.of_nat fuel ->
  exists out,
    Routes.sessionsLoop fuel body c n acc = Some out /\
    Z.of_nat (length out) <= Z.of_nat (length acc) + (366 - n) /\
    (forall m, Routes.maxSessions body = Some m ->
       Z.of_nat (length out) <= Z.of_nat (length acc) + Z.max 0 (m - n)).
Proof.
  revert c n acc. induction fuel as [| fuel IH]; intros c n acc Hn Hfuel; [lia |].
  cbn [Routes.sessionsLoop].
  destruct (Routes.belowMax n (Routes.maxSessions body)) eqn:Hbelow; cbn [negb];
    [| exists acc; split; [reflexivity | split; [lia | intros; lia]]].
  destruct (Routes.pastEndDate _ c);
    [exists acc; split; [reflexivity | split; [lia | intros; lia]] |].
  pose proof (step_length body c acc) as Hstep.
  destruct (Routes.step body c acc) as [sessions' c']. cbn [fst] in Hstep.
  assert (Hm : forall m, Routes.maxSessions body = Some m -> n < m).
  { intros m Hmax. rewrite Hmax in Hbelow. cbn in Hbelow. lia. }
  destruct (Z.ltb_spec 365 (n + 1)).
  - exists sessions'. split; [reflexivity |]. split; [lia |].
    intros m Hmax. specialize (Hm m Hmax). lia.
  - destruct (IH c' (n + 1) sessions') as (out & Hout & Hlen & Hmax); [lia | lia |].
    exists out. split; [exact Hout |]. split; [lia |].
    intros m Hmx. specialize (Hmax m Hmx). specialize (Hm m Hmx). lia.
Qed.

(** C5, as the code has it. [generateRecurrentClasses] has a date horizon
    and no ceiling on the number of classes: with an interval of at least
    one it ends, every class it emits starts no later than six months after
    the moment of the call, and there is at most one class per day from the
    rule's start to that horizon. The loop of [POST /api/sessions] has a
    ceiling on its passes and no date horizon: it always ends, with at most
    366 sessions, and at most 100 when the end type is not a count. *)
Theorem expansion_bounds :
  (forall (agendamento : Agendamento.t) now,
     1 <= interval (Agendamento.regras agendamento) ->
     exists fuel aulas,
       Controller.generateRecurrentClasses fuel now agendamento = Some aulas /\
       Forall (fun a => Aula.startTime a <= Controller.maxDate now) aulas /\
       Z.of_nat (length aulas)
       <= Z.max 0 (Day (Controller.maxDate now)
                   - Day (Agendamento.startDate agendamento) + 1)) /\
  (forall body,
     exists sessions,
       Routes.recurringSessions 366 body = Some sessions /\
       (length sessions <= 366)%nat /\
       (Routes.recurrenceEndType body <> "count"%string ->
        (length sessions <= 100)%nat)).
Proof.
  split.
  - intros agendamento now Hi.
    set (bound := Z.max 0 (Day (Controller.maxDate now)
                           - Day (Agendamento.startDate agendamento) + 1)).
    destruct (generateLoop_total (S (Z.to_nat bound)) agendamento (Controller.maxDate now)
                (Agendamento.startDate agendamento) 0 [] Hi) as (out & Hout & Hlen).
    { subst bound. lia. }
    exists (S (Z.to_nat bound)), out. split; [exact Hout |].
    split; [| change (Z.of_nat (length [])) with 0 in Hlen; subst bound; lia].
    apply generateLoop_cursors in Hout as (cursors & -> & Hall); [| reflexivity].
    rewrite app_nil_l. apply Forall_fmap. eapply Forall_impl; [exact Hall |].
    intros c' [Htod Hle]. unfold compose.
    destruct (aulaAt_times agendamento c' Htod) as (Hs & _). rewrite Hs. exact Hle.
  - intros body.
    destruct (sessionsLoop_total 366 body (Routes.startTime body) 0 []) as
      (out & Hout & Hlen & Hmax); [lia | lia |].
    exists out. split; [exact Hout |]. cbn in Hlen. split; [lia |].
    intros Hnot. unfold Routes.maxSessions in Hmax.
    destruct (String.eqb_spec (Routes.recurrenceEndType body) "count") as [E | _];
      [contradiction |].
    specialize (Hmax 100 eq_refl). cbn in Hmax. lia.
Qed.

Lemma expansion_bounds_witness :
  exists fuel aulas,
    Controller.generateRecurrentClasses fuel Sample.now
      (Agendamento.mk 1 Sample.longRunningRule) = Some aulas /\
    Forall (fun a => Aula.startTime a <= Controller.maxDate Sample.now) aulas /\
    Z.of_nat (length aulas)
    <= Z.max 0 (Day (Controller.maxDate Sample.now)
                - Day (Agendamento.startDate (Agendamento.mk 1 Sample.longRunningRule)) + 1).
Proof.
  apply (proj1 expansion_bounds (Agendamento.mk 1 Sample.longRunningRule) Sample.now).
  vm_compute. discriminate.
Defined.

(** C5 as the specification words it fails: a daily rule without end that
    started a year before the call yields 547 classes, more than 365. *)
Lemma long_running_rule_exceeds_365 :
  exists aulas,
    Controller.generateRecurrentClasses 600 Sample.now
      (Agendamento.mk 1 Sample.longRunningRule) = Some aulas /\
    length aulas = 547%nat /\
    (365 < length aulas)%nat.
Proof.
  eexists. split; [vm_compute; reflexivity |].
  split; [vm_compute; reflexivity | vm_compute; lia].
Qed.

(** The session loop has no date horizon: a monthly rule without end runs
    for a hundred months. *)
Lemma monthly_sessions_run_for_years :
  exists sessions,
    Routes.recurringSessions 366
      (Routes.mkBody (mkDate 2024 0 1 9 0) (mkDate 2024 0 1 10 0) "monthly" 1 None
         "never" None None) = Some sessions /\
    length sessions = 100%nat /\
    last (Routes.slotStartTime <$> sessions) = Some (mkDate 2032 3 1 9 0).
Proof. eexists. split; [vm_compute; reflexivity | split; vm_compute; reflexivity]. Qed.

(** X10: With an interval of zero the cursor of a daily rule without end does
    not move, and [generateRecurrentClasses] never leaves its loop. *)
Lemma zero_interval_never_ends fuel (agendamento : Agendamento.t) maxDate c n acc :
  type (Agendamento.regras agendamento) = daily ->
  interval (Agendamento.regras agendamento) = 0 ->
  Agendamento.endDate agendamento = None ->
  Agendamento.maxOccurrences agendamento = None ->
  c <= maxDate ->
  Controller.generateLoop fuel agendamento maxDate c n acc = None.
Proof.
  intros Htype Hzero Hend Hmax Hle. revert n acc.
  induction fuel as [| fuel IH]; intros n acc; [reflexivity |].
  cbn [Controller.generateLoop]. rewrite Hend, Hmax.
  cbn [Controller.reachedMaxOccurrences Controller.pastEndDate].
  destruct (Z.ltb_spec maxDate c); [lia |].
  unfold Controller.skipsDay, Controller.advance. rewrite Htype, Hzero.
  rewrite setDate_getDate_add. replace (c + 0 * msPerDay) with c by lia. apply IH.
Qed.

End ExpansionBounds.

(** ** Weekly rules with several weekdays *)

Section WeeklyRules.

(** The weekday filter looks at the weekday of the cursor only. *)
Lemma skipsDay_WeekDay regras c1 c2 :
  WeekDay c1 = WeekDay c2 -> Controller.skipsDay regras c1 = Controller.skipsDay regras c2.
Proof.
  intros H. unfold Controller.skipsDay, Controller.currentDayName, getDay.
  rewrite H. reflexivity.
Qed.

Lemma Day_aulaAt (agendamento : Agendamento.t) c :
  Day (Aula.startTime (Controller.aulaAt agendamento c)) = Day c.
Proof.
  unfold Controller.aulaAt. cbn [Aula.startTime]. unfold setHours2.
  apply Day_MakeDate.
  unfold MakeTime, getHours, getMinutes, HourFromTime, MinFromTime, SecFromTime,
    msFromTime, msPerDay, msPerHour, msPerMinute, msPerSecond. zlia.
Qed.

(** Once a weekly rule has emitted a class, every later class of
    [generateRecurrentClasses] is on the same weekday. *)
Lemma weekly_cursors_after_first fuel (agendamento : Agendamento.t) maxDate c n acc out :
  type (Agendamento.regras agendamento) = weekly ->
  Controller.skipsDay (Agendamento.regras agendamento) c = false ->
  Controller.generateLoop fuel agendamento maxDate c n acc = Some out ->
  exists cursors,
    out = acc ++ map (Controller.aulaAt agendamento) cursors /\
    Forall (fun c' => WeekDay c' = WeekDay c) cursors.
Proof.
  intros Htype. revert c n acc.
  induction fuel as [| fuel IH]; intros c n acc Hskip Hrun;
    cbn [Controller.generateLoop] in Hrun; [discriminate |].
  destruct (maxDate <? c).
  { injection Hrun as <-. exists []. rewrite app_nil_r. split; [reflexivity | constructor]. }
  destruct (Controller.reachedMaxOccurrences _ n).
  { injection Hrun as <-. exists []. rewrite app_nil_r. split; [reflexivity | constructor]. }
  destruct (Controller.pastEndDate _ c).
  { injection Hrun as <-. exists []. rewrite app_nil_r. split; [reflexivity | constructor]. }
  rewrite Hskip in Hrun.
  assert (Hw : WeekDay (Controller.advance (Agendamento.regras agendamento) c) = WeekDay c).
  { unfold Controller.advance. rewrite Htype, setDate_getDate_add, WeekDay_add_days.
    pose proof (WeekDay_range c). zlia. }
  apply IH in Hrun; [| rewrite (skipsDay_WeekDay _ _ c Hw); exact Hskip].
  destruct Hrun as (cursors & -> & Hall). exists (c :: cursors).
  rewrite <- app_assoc. split; [reflexivity |].
  constructor; [reflexivity |]. eapply Forall_impl; [exact Hall |].
  cbn. intros c' Hc'. congruence.
Qed.

(** X9: a weekly rule of [generateRecurrentClasses] only ever emits classes
    on one weekday, whatever its list of weekdays. *)
Lemma weekly_rule_one_weekday fuel now (agendamento : Agendamento.t) aulas :
  type (Agendamento.regras agendamento) = weekly ->
  Controller.generateRecurrentClasses fuel now agendamento = Some aulas ->
  exists w, Forall (fun a => getDay (Aula.startTime a) = w) aulas.
Proof.
  intros Htype. unfold Controller.generateRecurrentClasses.
  generalize (Agendamento.startDate agendamento) at 1 as c. generalize 0 as n.
  assert (Hgen : forall fuel c n acc out,
    Controller.generateLoop fuel agendamento (Controller.maxDate now) c n acc = Some out ->
    exists w cursors,
      out = acc ++ map (Controller.aulaAt agendamento) cursors /\
      Forall (fun c' => WeekDay c' = w) cursors).
  { clear fuel aulas. induction fuel as [| fuel IH]; intros c n acc out Hrun;
      [discriminate |].
    destruct (Controller.skipsDay (Agendamento.regras agendamento) c) eqn:Hskip.
    - cbn [Controller.generateLoop] in Hrun. rewrite Hskip in Hrun.
      destruct (_ <? c);
        [injection Hrun as <-; exists 0, []; rewrite app_nil_r; split;
           [reflexivity | constructor] |].
      destruct (Controller.reachedMaxOccurrences _ n);
        [injection Hrun as <-; exists 0, []; rewrite app_nil_r; split;
           [reflexivity | constructor] |].
      destruct (Controller.pastEndDate _ c);
        [injection Hrun as <-; exists 0, []; rewrite app_nil_r; split;
           [reflexivity | constructor] |].
      exact (IH _ _ _ _ Hrun).
    - exists (WeekDay c).
      exact (weekly_cursors_after_first (S fuel) agendamento _ c n acc out Htype Hskip Hrun). }
  intros n c Hrun. destruct (Hgen fuel c n [] aulas Hrun) as (w & cursors & -> & Hall).
  exists w. rewrite app_nil_l. apply Forall_fmap. eapply Forall_impl; [exact Hall |].
  intros c' Hc'. unfold compose, getDay, WeekDay. rewrite Day_aulaAt. exact Hc'.
Qed.

(** C2 at a rule for Mondays and Wednesdays, weekly, over four weeks from
    Monday 2024-01-01: [generateRecurrentClasses] emits the four Mondays and
    no Wednesday, four classes where eight are due. After a class the
    cursor jumps a whole week, past the other selected days. *)
Theorem monday_wednesday_rule_emits_mondays_only :
  exists aulas,
    Controller.generateRecurrentClasses 50 Sample.now
      (Agendamento.mk 1 Sample.mondayWednesdayRule) = Some aulas /\
    Aula.startTime <$> aulas
    = [mkDate 2024 0 1 9 0; mkDate 2024 0 8 9 0; mkDate 2024 0 15 9 0;
       mkDate 2024 0 22 9 0] /\
    length aulas = 4%nat /\
    Forall (fun a => getDay (Aula.startTime a) = 1) aulas.
Proof.
  eexists. split; [vm_compute; reflexivity |].
  split; [vm_compute; reflexivity |]. split; [vm_compute; reflexivity |].
  repeat (constructor; [vm_compute; reflexivity |]). constructor.
Qed.

(** *** The day-by-day walk of [POST /api/sessions] *)

Lemma dayIsSelected_monday_wednesday names c :
  (forall n, n ∈ names <-> n = "segunda"%string \/ n = "quarta"%string) ->
  Routes.dayIsSelected (Some names) c = (WeekDay c =? 1) || (WeekDay c =? 3).
Proof.
  intros Hnames. unfold Routes.dayIsSelected, Routes.currentDayName, getDay.
  pose proof (WeekDay_range c) as Hr.
  assert (Hw : WeekDay c = 0 \/ WeekDay c = 1 \/ WeekDay c = 2 \/ WeekDay c = 3 \/
               WeekDay c = 4 \/ WeekDay c = 5 \/ WeekDay c = 6) by lia.
  destruct Hw as [-> | [-> | [-> | [-> | [-> | [-> | ->]]]]]]; cbn;
    first [ apply bool_decide_eq_true, Hnames; auto
          | apply bool_decide_eq_false; intros H; apply Hnames in H;
            destruct H; discriminate ].
Qed.

Lemma Day_slotAt body c sessions :
  Day (Routes.slotStartTime (Routes.slotAt body c sessions)) = Day c.
Proof.
  unfold Routes.slotAt. cbn [Routes.slotStartTime]. unfold setHours4.
  apply Day_MakeDate.
  unfold MakeTime, getHours, getMinutes, HourFromTime, MinFromTime, msPerDay,
    msPerHour, msPerMinute, msPerSecond. zlia.
Qed.

(** With an interval of one, a pass of a weekly request looks at one day
    and moves to the next. *)
Lemma step_weekly_every_week body c sessions :
  Routes.recurrenceType body = "weekly"%string ->
  Routes.recurrenceInterval body = 1 ->
  Routes.step body c sessions
  = (if Routes.dayIsSelected (Routes.recurrenceWeekDays body) c
     then sessions ++ [Routes.slotAt body c sessions] else sessions,
     c + msPerDay).
Proof.
  intros Htype Hone. unfold Routes.step. rewrite Htype, Hone.
  change (String.eqb "weekly" "weekly") with true. cbv iota zeta.
  apply pair_equal_spec. split; [reflexivity |].
  rewrite (setDate_getDate_add c 1).
  destruct (_ =? _);
    [rewrite (setDate_getDate_add (c + 1 * msPerDay) (7 * (1 - 1))) |]; lia.
Qed.

(** The loop of a weekly request that ends on a date walks the days up to
    that date. *)
Lemma sessionsLoop_walk body e k fuel c n acc :
  Routes.recurrenceType body = "weekly"%string ->
  Routes.recurrenceInterval body = 1 ->
  Routes.maxSessions body = Some 100 ->
  Routes.endDateOf body = Some e ->
  e = c + (Z.of_nat k - 1) * msPerDay ->
  0 <= n -> n + Z.of_nat k <= 100 ->
  (k < fuel)%nat ->
  Routes.sessionsLoop fuel body c n acc = Some (Routes.walkDays body c k acc).
Proof.
  intros Htype Hone Hmax Hend. revert fuel c n acc.
  induction k as [| k IH]; intros fuel c n acc He Hn Hk Hfuel;
    (destruct fuel as [| fuel]; [lia |]); cbn [Routes.sessionsLoop Routes.walkDays];
    rewrite Hmax, Hend; cbn [Routes.belowMax Routes.pastEndDate].
  - destruct (n <? 100); cbn [negb]; [| reflexivity].
    destruct (Z.ltb_spec e c) as [_ | Hle]; [reflexivity |].
    unfold msPerDay in He. lia.
  - destruct (Z.ltb_spec n 100) as [_ | Hge]; [| lia]. cbn [negb].
    destruct (Z.ltb_spec e c) as [Hlt | _]; [unfold msPerDay in He; lia |].
    rewrite step_weekly_every_week by assumption.
    destruct (Z.ltb_spec 365 (n + 1)) as [Hbig | _]; [lia |].
    apply IH; [unfold msPerDay in *; lia | lia | lia | lia].
Qed.

Lemma walkDays_length body names c k acc :
  Routes.recurrenceWeekDays body = Some names ->
  (forall n, n ∈ names <-> n = "segunda"%string \/ n = "quarta"%string) ->
  length (Routes.walkDays body c k acc)
  = (length acc + Routes.mondaysAndWednesdays (WeekDay c) k)%nat.
Proof.
  intros Hwd Hnames. revert c acc.
  induction k as [| k IH]; intros c acc;
    cbn [Routes.walkDays Routes.mondaysAndWednesdays]; [lia |].
  rewrite IH, Hwd, (dayIsSelected_monday_wednesday names c Hnames).
  replace (c + msPerDay) with (c + 1 * msPerDay) by lia. rewrite WeekDay_add_days.
  destruct ((WeekDay c =? 1) || (WeekDay c =? 3)); rewrite ?length_app; cbn; lia.
Qed.

Lemma walkDays_weekdays body names c k acc :
  Routes.recurrenceWeekDays body = Some names ->
  (forall n, n ∈ names <-> n = "segunda"%string \/ n = "quarta"%string) ->
  Forall (fun s => getDay (Routes.slotStartTime s) = 1 \/
                   getDay (Routes.slotStartTime s) = 3) acc ->
  Forall (fun s => getDay (Routes.slotStartTime s) = 1 \/
                   getDay (Routes.slotStartTime s) = 3) (Routes.walkDays body c k acc).
Proof.
  intros Hwd Hnames. revert c acc.
  induction k as [| k IH]; intros c acc Hacc; cbn [Routes.walkDays]; [exact Hacc |].
  apply IH. rewrite Hwd, (dayIsSelected_monday_wednesday names c Hnames).
  destruct ((WeekDay c =? 1) || (WeekDay c =? 3)) eqn:Hsel; [| exact Hacc].
  apply Forall_app. split; [exact Hacc |]. constructor; [| constructor].
  unfold getDay, WeekDay at 1 2. rewrite Day_slotAt. fold (WeekDay c). lia.
Qed.

Lemma walkDays_sorted body c k acc :
  StronglySorted (fun a b => Day (Routes.slotStartTime a) < Day (Routes.slotStartTime b)) acc ->
  Forall (fun s => Day (Routes.slotStartTime s) < Day c) acc ->
  StronglySorted (fun a b => Day (Routes.slotStartTime a) < Day (Routes.slotStartTime b))
    (Routes.walkDays body c k acc).
Proof.
  revert c acc. induction k as [| k IH]; intros c acc Hsorted Hbefore;
    cbn [Routes.walkDays]; [exact Hsorted |].
  assert (Hnext : Day (c + msPerDay) = Day c + 1).
  { replace (c + msPerDay) with (c + 1 * msPerDay) by lia. apply Day_add_days. }
  apply IH.
  - destruct (Routes.dayIsSelected _ c); [| exact Hsorted].
    apply StronglySorted_app. split; [| split; [exact Hsorted | repeat constructor]].
    intros x1 x2 Hx1 Hx2. apply list_elem_of_singleton in Hx2 as ->.
    rewrite Day_slotAt. rewrite Forall_forall in Hbefore. exact (Hbefore x1 Hx1).
  - rewrite Hnext. destruct (Routes.dayIsSelected _ c).
    + apply Forall_app. split.
      * eapply Forall_impl; [exact Hbefore |]. cbn. intros; lia.
      * constructor; [rewrite Day_slotAt; lia | constructor].
    + eapply Forall_impl; [exact Hbefore |]. cbn. intros; lia.
Qed.

(** The sibling loop does what C2 asks: a weekly request for Mondays and
    Wednesdays with an interval of one, over any window of four weeks,
    yields exactly eight sessions, each on a Monday or a Wednesday, in
    increasing date order. *)
Lemma sessions_monday_wednesday_four_weeks baseStartTime baseEndTime names :
  (forall n, n ∈ names <-> n = "segunda"%string \/ n = "quarta"%string) ->
  exists sessions,
    Routes.recurringSessions 366
      (Routes.mkBody baseStartTime baseEndTime "weekly" 1 (Some names) "date"
         (Some (baseStartTime + 27 * msPerDay)) None) = Some sessions /\
    length sessions = 8%nat /\
    Forall (fun s => getDay (Routes.slotStartTime s) = 1 \/
                     getDay (Routes.slotStartTime s) = 3) sessions /\
    StronglySorted
      (fun a b => Day (Routes.slotStartTime a) < Day (Routes.slotStartTime b)) sessions.
Proof.
  intros Hnames.
  set (body := Routes.mkBody baseStartTime baseEndTime "weekly" 1 (Some names) "date"
                 (Some (baseStartTime + 27 * msPerDay)) None).
  exists (Routes.walkDays body baseStartTime 28 []).
  split; [| split; [| split]].
  - unfold Routes.recurringSessions.
    apply (sessionsLoop_walk body (baseStartTime + 27 * msPerDay) 28);
      try reflexivity; cbn; lia.
  - rewrite (walkDays_length body names) by (reflexivity || exact Hnames).
    pose proof (WeekDay_range baseStartTime) as Hr.
    assert (Hw : WeekDay baseStartTime = 0 \/ WeekDay baseStartTime = 1 \/
                 WeekDay baseStartTime = 2 \/ WeekDay baseStartTime = 3 \/
                 WeekDay baseStartTime = 4 \/ WeekDay baseStartTime = 5 \/
                 WeekDay baseStartTime = 6) by lia.
    destruct Hw as [-> | [-> | [-> | [-> | [-> | [-> | ->]]]]]]; vm_compute; reflexivity.
  - apply (walkDays_weekdays body names); [reflexivity | exact Hnames | constructor].
  - apply walkDays_sorted; constructor.
Qed.

End WeeklyRules.

(** ** Monthly series: what [setMonth] makes of an expansion *)

Section SessionLoopInvariant.

Import Routes.

(** What every pass keeps of the cursor and the sessions holds when the loop
    ends. *)
Lemma sessionsLoop_invariant (P : Z -> list SessionSlot -> Prop) body :
  (forall c s, P c s -> pastEndDate (endDateOf body) c = false ->
     P (snd (step body c s)) (fst (step body c s))) ->
  forall fuel c n acc out,
    P c acc -> sessionsLoop fuel body c n acc = Some out -> exists c', P c' out.
Proof.
  intros Hstep. induction fuel as [| fuel IH]; intros c n acc out HP Hrun; [discriminate |].
  cbn [sessionsLoop] in Hrun.
  destruct (negb _); [injection Hrun as <-; eauto |].
  destruct (pastEndDate _ c) eqn:Hend; [injection Hrun as <-; eauto |].
  specialize (Hstep c acc HP Hend).
  destruct (step body c acc) as [s' c']. cbn [fst snd] in Hstep.
  destruct (365 <? n + 1); [injection Hrun as <-; eauto |].
  exact (IH _ _ _ _ Hstep Hrun).
Qed.

End SessionLoopInvariant.

Section MonthlyExpansion.

Lemma monthlySteps_fields k a b :
  Day b = MakeDay (YearFromTime a) (MonthFromTime a + k) (DateFromTime a) ->
  YearFromTime b = YearFromTime (setMonth a (getMonth a + k)) /\
  MonthFromTime b = MonthFromTime (setMonth a (getMonth a + k)) /\
  DateFromTime b = DateFromTime (setMonth a (getMonth a + k)).
Proof.
  intros H. apply fields_of_Day. rewrite H. unfold getMonth. symmetry. apply Day_setMonth.
Qed.

(** Once a start is on a day up to the 28th, the later ones are on it too. *)
Lemma monthlySteps_keep_day k starts i a :
  monthlySteps k starts ->
  starts !! i = Some a ->
  DateFromTime a <= 28 ->
  forall n c, starts !! (i + n)%nat = Some c -> DateFromTime c = DateFromTime a.
Proof.
  intros Hchain Ha Hd. induction n as [| n IH]; intros c Hc.
  - rewrite Nat.add_0_r, Ha in Hc. injection Hc as <-. reflexivity.
  - destruct (lookup_lt_is_Some_2 starts (i + n)%nat) as [c0 Hc0].
    { apply lookup_lt_Some in Hc. lia. }
    specialize (IH c0 Hc0). replace (i + S n)%nat with (S (i + n)) in Hc by lia.
    destruct (monthlySteps_fields k c0 c (Hchain _ _ _ Hc0 Hc)) as (_ & _ & Hdate).
    destruct (setMonth_keeps_day c0 k ltac:(lia)) as (_ & _ & Hkeep).
    rewrite Hdate, Hkeep. exact IH.
Qed.

(** With an interval of at least one the days of the series increase. *)
Lemma monthlySteps_increase k starts i a :
  1 <= k ->
  monthlySteps k starts ->
  starts !! i = Some a ->
  forall n c, starts !! (i + n)%nat = Some c -> Day a <= Day c.
Proof.
  intros Hk Hchain Ha. induction n as [| n IH]; intros c Hc.
  - rewrite Nat.add_0_r, Ha in Hc. injection Hc as <-. lia.
  - destruct (lookup_lt_is_Some_2 starts (i + n)%nat) as [c0 Hc0].
    { apply lookup_lt_Some in Hc. lia. }
    specialize (IH c0 Hc0). replace (i + S n)%nat with (S (i + n)) in Hc by lia.
    rewrite (Hchain _ _ _ Hc0 Hc).
    pose proof (MakeDay_month_le (YearFromTime c0) (MonthFromTime c0) k (DateFromTime c0)
                  ltac:(lia)) as Hle.
    rewrite MakeDay_fields in Hle. lia.
Qed.

(** A series that moves by [setMonth] rolls over the months too short for
    its day. *)
Lemma monthlySteps_rollsOver k starts : monthlySteps k starts -> rollsOver k starts.
Proof.
  intros Hchain i a b Ha Hb. cbv zeta.
  destruct (monthlySteps_fields k a b (Hchain _ _ _ Ha Hb)) as (Hy & Hm & Hd).
  unfold getFullYear, getMonth, getDate in *. split.
  - intros Hfit. destruct (setMonth_fits a k Hfit) as (Hy' & Hm' & Hd').
    unfold getMonth in *. rewrite Hy, Hm, Hd. auto.
  - intros Hover. destruct (setMonth_rolls_over a k Hover) as (Hy' & Hm' & Hd').
    unfold getMonth in *. rewrite Hy, Hm, Hd, Hy', Hm', Hd'.
    pose proof (targetMonth_range a k) as Hrange.
    pose proof (DaysInMonth_range (targetYear a k) (targetMonth a k) Hrange) as Hlen.
    pose proof (DateFromTime_range a) as Hda.
    pose proof (DaysInMonth_range (YearFromTime a) (MonthFromTime a)
                  (MonthFromTime_range a)) as Hlena.
    split; [symmetry; apply surjective_pairing |]. split; [reflexivity |]. split.
    + intros j c Hij Hc.
      replace j with (S i + (j - S i))%nat in Hc by lia.
      rewrite (monthlySteps_keep_day k starts (S i) b Hchain Hb ltac:(lia) _ c Hc).
      rewrite Hd. exact Hd'.
    + intros Hk c Hin [Hcy Hcm].
      apply list_elem_of_lookup in Hin as [j Hj].
      pose proof (MakeDay_fields c) as Hday. rewrite Hcy, Hcm in Hday.
      pose proof (DateFromTime_range c) as Hdc. rewrite Hcy, Hcm in Hdc.
      rewrite MakeDay_date in Hday.
      pose proof (Hchain _ _ _ Ha Hb) as Hbday.
      rewrite (MakeDay_target a k), MakeDay_date in Hbday.
      destruct (Nat.le_gt_cases j i) as [Hle | Hgt].
      * replace i with (j + (i - j))%nat in Ha by lia.
        pose proof (monthlySteps_increase k starts j c Hk Hchain Hj _ a Ha) as Hmono.
        pose proof (MakeDay_fields a) as Haday. rewrite MakeDay_date in Haday.
        pose proof (MakeDay_month_le (YearFromTime a) (MonthFromTime a + 1) (k - 1) 1
                      ltac:(lia)) as Hmonths.
        replace (MonthFromTime a + 1 + (k - 1)) with (MonthFromTime a + k) in Hmonths by lia.
        rewrite (MakeDay_target a k), MakeDay_succ_month in Hmonths.
        pose proof (MonthFromTime_range a) as Hma.
        replace (MonthFromTime a / 12) with 0 in Hmonths by zlia.
        replace (MonthFromTime a mod 12) with (MonthFromTime a) in Hmonths by zlia.
        rewrite Z.add_0_r in Hmonths. lia.
      * replace j with (S i + (j - S i))%nat in Hj by lia.
        pose proof (monthlySteps_increase k starts (S i) b Hk Hchain Hb _ c Hj) as Hmono.
        lia.
Qed.

(** The classes of a monthly rule are the classes of cursors that move by
    [setMonth]. *)
Lemma generateLoop_monthly fuel (agendamento : Agendamento.t) maxDate c n acc out :
  type (Agendamento.regras agendamento) = monthly ->
  Controller.generateLoop fuel agendamento maxDate c n acc = Some out ->
  exists cursors,
    out = acc ++ map (Controller.aulaAt agendamento) cursors /\
    (forall c0, cursors !! 0%nat = Some c0 -> c0 = c) /\
    (forall i x y,
       cursors !! i = Some x -> cursors !! S i = Some y ->
       y = setMonth x (getMonth x + interval (Agendamento.regras agendamento))).
Proof.
  intros Htype. revert c n acc.
  induction fuel as [| fuel IH]; intros c n acc Hrun;
    cbn [Controller.generateLoop] in Hrun; [discriminate |].
  assert (Hnone : exists cursors : list Z,
            acc = acc ++ map (Controller.aulaAt agendamento) cursors /\
            (forall c0, cursors !! 0%nat = Some c0 -> c0 = c) /\
            (forall i x y,
               cursors !! i = Some x -> cursors !! S i = Some y ->
               y = setMonth x (getMonth x + interval (Agendamento.regras agendamento)))).
  { exists []. rewrite app_nil_r. split; [reflexivity |].
    split; [intros c0 H; discriminate H | intros i x y H; discriminate H]. }
  destruct (maxDate <? c); [injection Hrun as <-; exact Hnone |].
  destruct (Controller.reachedMaxOccurrences _ n); [injection Hrun as <-; exact Hnone |].
  destruct (Controller.pastEndDate _ c); [injection Hrun as <-; exact Hnone |].
  unfold Controller.skipsDay, Controller.advance in Hrun. rewrite Htype in Hrun.
  apply IH in Hrun as (cursors & -> & Hhead & Hchain).
  exists (c :: cursors). rewrite <- app_assoc. split; [reflexivity |].
  split; [intros c0 [= <-]; reflexivity |].
  intros [| i] x y Hx Hy; cbn in Hx, Hy.
  - injection Hx as <-. apply Hhead. exact Hy.
  - exact (Hchain i x y Hx Hy).
Qed.

Lemma generated_classes_monthlySteps fuel now (agendamento : Agendamento.t) aulas :
  type (Agendamento.regras agendamento) = monthly ->
  Controller.generateRecurrentClasses fuel now agendamento = Some aulas ->
  monthlySteps (interval (Agendamento.regras agendamento)) (Aula.startTime <$> aulas).
Proof.
  intros Htype Hrun.
  apply generateLoop_monthly in Hrun as (cursors & -> & _ & Hchain); [| exact Htype].
  rewrite app_nil_l. intros i a b Ha Hb.
  change (map ?f ?l) with (f <$> l) in Ha, Hb. rewrite !list_lookup_fmap in Ha, Hb.
  destruct (cursors !! i) as [x |] eqn:Hx; [| discriminate].
  destruct (cursors !! S i) as [y |] eqn:Hy; [| discriminate].
  cbn [fmap option_fmap option_map] in Ha, Hb.
  assert (Ea : a = Aula.startTime (Controller.aulaAt agendamento x)) by congruence.
  assert (Eb : b = Aula.startTime (Controller.aulaAt agendamento y)) by congruence.
  rewrite Ea, Eb, (Hchain i x y Hx Hy). rewrite !Day_aulaAt.
  destruct (fields_of_Day _ _ (Day_aulaAt agendamento x)) as (-> & -> & ->).
  unfold getMonth. apply Day_setMonth.
Qed.

Lemma step_monthly body c s :
  Routes.recurrenceType body = "monthly"%string ->
  Routes.step body c s
  = (s ++ [Routes.slotAt body c s],
     setMonth c (getMonth c + Routes.recurrenceInterval body)).
Proof.
  intros H. unfold Routes.step. rewrite H.
  change (String.eqb "monthly" "weekly") with false.
  change (String.eqb "monthly" "daily") with false.
  change (String.eqb "monthly" "monthly") with true. reflexivity.
Qed.

Lemma monthly_sessions_monthlySteps fuel body sessions :
  Routes.recurrenceType body = "monthly"%string ->
  Routes.recurringSessions fuel body = Some sessions ->
  monthlySteps (Routes.recurrenceInterval body) (Routes.slotStartTime <$> sessions).
Proof.
  intros Htype Hrun. set (k := Routes.recurrenceInterval body).
  destruct (sessionsLoop_invariant
              (fun c s =>
                 monthlySteps k (Routes.slotStartTime <$> s) /\
                 (forall i a,
                    (Routes.slotStartTime <$> s) !! i = Some a ->
                    S i = length s ->
                    Day c = MakeDay (YearFromTime a) (MonthFromTime a + k) (DateFromTime a)))
              body) with fuel (Routes.startTime body) 0 (@nil Routes.SessionSlot) sessions
    as [_ [H _]]; [| | exact Hrun | exact H].
  - intros c s [Hchain Hlast] _. rewrite (step_monthly body c s Htype). cbn [fst snd].
    fold k. rewrite fmap_app. cbn [fmap list_fmap].
    assert (Hlen : length (Routes.slotStartTime <$> s) = length s) by apply length_fmap.
    split.
    + intros i a b Ha Hb.
      apply lookup_app_Some in Hb as [Hb | [Hge Hb]].
      * apply lookup_app_Some in Ha as [Ha | [Hge _]];
          [exact (Hchain i a b Ha Hb) | apply lookup_lt_Some in Hb; lia].
      * apply list_lookup_singleton_Some in Hb as [Hidx <-].
        apply lookup_app_Some in Ha as [Ha | [Hge' _]]; [| lia].
        rewrite Day_slotAt. apply (Hlast i a Ha). lia.
    + intros i a Ha Hi. rewrite length_app in Hi. cbn in Hi.
      apply lookup_app_Some in Ha as [Ha | [_ Ha]];
        [apply lookup_lt_Some in Ha; lia |].
      apply list_lookup_singleton_Some in Ha as [_ <-].
      destruct (fields_of_Day _ _ (Day_slotAt body c s)) as (-> & -> & ->).
      unfold getMonth. apply Day_setMonth.
  - split; [intros i a b H; discriminate H | intros i a H; discriminate H].
Qed.

(** C3, as the code has it: a monthly series moves with [setMonth], which
    does not clamp. In an expansion by [generateRecurrentClasses] or by the
    loop of [POST /api/sessions], the occurrence after one on day [d] is on
    day [d] of the month [interval] months on when that month has [d] days;
    otherwise it falls in the month after that one, on the day by which the
    length was exceeded, every later occurrence is on that shifted day,
    and, with an interval of at least one, the month aimed at gets no
    occurrence. *)
Theorem monthly_expansion_rolls_over :
  (forall fuel now (agendamento : Agendamento.t) aulas,
     type (Agendamento.regras agendamento) = monthly ->
     Controller.generateRecurrentClasses fuel now agendamento = Some aulas ->
     rollsOver (interval (Agendamento.regras agendamento)) (Aula.startTime <$> aulas)) /\
  (forall body,
     Routes.recurrenceType body = "monthly"%string ->
     exists sessions,
       Routes.recurringSessions 366 body = Some sessions /\
       rollsOver (Routes.recurrenceInterval body) (Routes.slotStartTime <$> sessions)).
Proof.
  split.
  - intros fuel now agendamento aulas Htype Hrun.
    apply monthlySteps_rollsOver. exact (generated_classes_monthlySteps _ _ _ _ Htype Hrun).
  - intros body Htype.
    destruct (sessionsLoop_total 366 body (Routes.startTime body) 0 []) as (out & Hout & _);
      [lia | lia |].
    exists out. split; [exact Hout |].
    apply monthlySteps_rollsOver. exact (monthly_sessions_monthlySteps _ _ _ Htype Hout).
Qed.

Lemma monthly_expansion_rolls_over_witness :
  (getFullYear (mkDate 2024 2 2 9 0), getMonth (mkDate 2024 2 2 9 0))
  = nextMonth (targetYear (mkDate 2024 0 31 9 0) 1) (targetMonth (mkDate 2024 0 31 9 0) 1) /\
  getDate (mkDate 2024 2 2 9 0)
  = getDate (mkDate 2024 0 31 9 0)
    - DaysInMonth (targetYear (mkDate 2024 0 31 9 0) 1)
        (targetMonth (mkDate 2024 0 31 9 0) 1).
Proof.
  pose proof (proj1 monthly_expansion_rolls_over 50%nat Sample.now
                (Agendamento.mk 1 Sample.endOfMonthRule)
                (map (Controller.aulaAt (Agendamento.mk 1 Sample.endOfMonthRule))
                   [mkDate 2024 0 31 9 0; mkDate 2024 2 2 9 0; mkDate 2024 3 2 9 0;
                    mkDate 2024 4 2 9 0; mkDate 2024 5 2 9 0])
                eq_refl) as H.
  assert (Hrun : Controller.generateRecurrentClasses 50 Sample.now
                   (Agendamento.mk 1 Sample.endOfMonthRule)
                 = Some (map (Controller.aulaAt (Agendamento.mk 1 Sample.endOfMonthRule))
                           [mkDate 2024 0 31 9 0; mkDate 2024 2 2 9 0; mkDate 2024 3 2 9 0;
                            mkDate 2024 4 2 9 0; mkDate 2024 5 2 9 0]))
    by (vm_compute; reflexivity).
  specialize (H Hrun 0%nat (mkDate 2024 0 31 9 0) (mkDate 2024 2 2 9 0)).
  destruct H as [_ H]; [vm_compute; reflexivity | vm_compute; reflexivity |].
  destruct H as (H1 & H2 & _); [vm_compute; reflexivity |].
  split; [exact H1 | exact H2].
Defined.

End MonthlyExpansion.

(** * Further properties of the scheduling code *)

(** ** More on [generateRecurrentClasses] *)

Section GeneratedClasses.

Import Controller.

(** What holds of every cursor at which the loop emits a class. *)
Lemma generateLoop_emitted fuel (agendamento : Agendamento.t) maxDate c n acc out :
  TimeWithinDay c = TimeWithinDay (Agendamento.startDate agendamento) ->
  generateLoop fuel agendamento maxDate c n acc = Some out ->
  exists cursors,
    out = acc ++ map (aulaAt agendamento) cursors /\
    Forall (fun c' =>
              TimeWithinDay c' = TimeWithinDay (Agendamento.startDate agendamento) /\
              c' <= maxDate /\
              pastEndDate (Agendamento.endDate agendamento) c' = false /\
              skipsDay (Agendamento.regras agendamento) c' = false) cursors.
Proof.
  revert c n acc. induction fuel as [| fuel IH]; intros c n acc Htod Hrun;
    cbn [generateLoop] in Hrun; [discriminate |].
  destruct (Z.ltb_spec maxDate c) as [Hpast | Hin].
  { injection Hrun as <-. exists []. rewrite app_nil_r. split; [reflexivity | constructor]. }
  destruct (reachedMaxOccurrences _ n).
  { injection Hrun as <-. exists []. rewrite app_nil_r. split; [reflexivity | constructor]. }
  destruct (pastEndDate _ c) eqn:Hend.
  { injection Hrun as <-. exists []. rewrite app_nil_r. split; [reflexivity | constructor]. }
  destruct (skipsDay _ c) eqn:Hskip.
  - apply IH in Hrun; [exact Hrun |]. rewrite TimeWithinDay_setDate. exact Htod.
  - apply IH in Hrun as (cursors & -> & Hall);
      [| rewrite TimeWithinDay_advance; exact Htod].
    exists (c :: cursors).
    rewrite <- app_assoc. split; [reflexivity |]. constructor; [auto | exact Hall].
Qed.

(** The loop stops at the limit: it adds no more classes than the limit
    leaves room for. *)
Lemma generateLoop_limit fuel (agendamento : Agendamento.t) maxDate c n acc out limit :
  Agendamento.maxOccurrences agendamento = Some limit ->
  limit <> 0 ->
  generateLoop fuel agendamento maxDate c n acc = Some out ->
  Z.of_nat (length out) <= Z.of_nat (length acc) + Z.max 0 (limit - n).
Proof.
  intros Hlimit Hnz. revert c n acc. induction fuel as [| fuel IH]; intros c n acc Hrun;
    cbn [generateLoop] in Hrun; [discriminate |].
  destruct (maxDate <? c); [injection Hrun as <-; lia |].
  rewrite Hlimit in Hrun. cbn [reachedMaxOccurrences] in Hrun.
  destruct (Z.eqb_spec limit 0) as [? | _]; [contradiction |]. cbn [negb andb] in Hrun.
  destruct (Z.leb_spec limit n); [injection Hrun as <-; lia |].
  destruct (pastEndDate _ c); [injection Hrun as <-; lia |].
  destruct (skipsDay _ c).
  - apply IH in Hrun. lia.
  - apply IH in Hrun. rewrite length_app in Hrun. cbn in Hrun. lia.
Qed.

(** X1: A rule with a limit of occurrences never yields more classes than the
    limit. *)
Theorem classes_within_max_occurrences fuel now (agendamento : Agendamento.t) limit aulas :
  Agendamento.maxOccurrences agendamento = Some limit ->
  0 < limit ->
  generateRecurrentClasses fuel now agendamento = Some aulas ->
  Z.of_nat (length aulas) <= limit.
Proof.
  intros Hlimit Hpos Hrun.
  pose proof (generateLoop_limit _ _ _ _ _ _ _ limit Hlimit ltac:(lia) Hrun) as H.
  cbn in H. lia.
Qed.

Lemma classes_within_max_occurrences_witness :
  Z.of_nat (length (map (aulaAt (Agendamento.mk 1 (NewRecurrenceForm.payload Sample.tuesdayForm)))
                      [mkDate 2024 0 2 9 0; mkDate 2024 0 9 9 0; mkDate 2024 0 16 9 0]))
  <= 3.
Proof.
  apply (classes_within_max_occurrences 50 Sample.now
           (Agendamento.mk 1 (NewRecurrenceForm.payload Sample.tuesdayForm)) 3).
  - reflexivity.
  - lia.
  - vm_compute. reflexivity.
Defined.

(** X2: No class of a rule with an end date starts after that date. *)
Theorem classes_within_end_date fuel now (agendamento : Agendamento.t) endDate aulas a :
  Agendamento.endDate agendamento = Some endDate ->
  generateRecurrentClasses fuel now agendamento = Some aulas ->
  a ∈ aulas ->
  Aula.startTime a <= endDate.
Proof.
  intros Hend Hrun Ha.
  apply generateLoop_emitted in Hrun as (cursors & -> & Hall); [| reflexivity].
  rewrite app_nil_l in Ha. apply list_elem_of_fmap in Ha as (c & -> & Hc).
  rewrite Forall_forall in Hall. destruct (Hall c Hc) as (Htod & _ & Hpast & _).
  destruct (aulaAt_times agendamento c Htod) as (Hs & _). rewrite Hs.
  rewrite Hend in Hpast. cbn in Hpast. lia.
Qed.

Lemma classes_within_end_date_witness :
  Aula.startTime (aulaAt (Agendamento.mk 1 Sample.mondayWednesdayRule) (mkDate 2024 0 22 9 0))
  <= mkDate 2024 0 28 23 59.
Proof.
  apply (classes_within_end_date 50 Sample.now (Agendamento.mk 1 Sample.mondayWednesdayRule)
           (mkDate 2024 0 28 23 59)
           (map (aulaAt (Agendamento.mk 1 Sample.mondayWednesdayRule))
              [mkDate 2024 0 1 9 0; mkDate 2024 0 8 9 0; mkDate 2024 0 15 9 0;
               mkDate 2024 0 22 9 0])).
  - reflexivity.
  - vm_compute. reflexivity.
  - do 3 apply list_elem_of_further. apply list_elem_of_here.
Defined.

(** X3: The classes of a weekly rule with a list of weekdays all fall on
    weekdays of the list. *)
Theorem weekly_classes_on_listed_days fuel now (agendamento : Agendamento.t) names aulas a :
  type (Agendamento.regras agendamento) = weekly ->
  weekDays (Agendamento.regras agendamento) = Some names ->
  generateRecurrentClasses fuel now agendamento = Some aulas ->
  a ∈ aulas ->
  exists dayName,
    dayNames !! Z.to_nat (getDay (Aula.startTime a)) = Some dayName /\
    dayName ∈ names.
Proof.
  intros Htype Hnames Hrun Ha.
  apply generateLoop_emitted in Hrun as (cursors & -> & Hall); [| reflexivity].
  rewrite app_nil_l in Ha. apply list_elem_of_fmap in Ha as (c & -> & Hc).
  rewrite Forall_forall in Hall. destruct (Hall c Hc) as (Htod & _ & _ & Hskip).
  destruct (aulaAt_times agendamento c Htod) as (Hs & _). rewrite Hs.
  unfold skipsDay in Hskip. rewrite Htype, Hnames in Hskip.
  unfold includes, currentDayName in Hskip.
  destruct (dayNames !! Z.to_nat (getDay c)) as [dayName |]; [| discriminate].
  exists dayName. split; [reflexivity |].
  apply negb_false_iff, bool_decide_eq_true in Hskip. exact Hskip.
Qed.

Lemma weekly_classes_on_listed_days_witness :
  exists dayName,
    dayNames !! Z.to_nat (getDay (Aula.startTime
      (aulaAt (Agendamento.mk 1 Sample.mondayWednesdayRule) (mkDate 2024 0 8 9 0))))
    = Some dayName /\
    dayName ∈ ["monday"; "wednesday"]%string.
Proof.
  apply (weekly_classes_on_listed_days 50 Sample.now
           (Agendamento.mk 1 Sample.mondayWednesdayRule) ["monday"; "wednesday"]%string
           (map (aulaAt (Agendamento.mk 1 Sample.mondayWednesdayRule))
              [mkDate 2024 0 1 9 0; mkDate 2024 0 8 9 0; mkDate 2024 0 15 9 0;
               mkDate 2024 0 22 9 0])).
  - reflexivity.
  - reflexivity.
  - vm_compute. reflexivity.
  - apply list_elem_of_further, list_elem_of_here.
Defined.

(** With an interval of at least one the cursors at which classes are
    emitted are on strictly later and later days. *)
Lemma generateLoop_ordered fuel (agendamento : Agendamento.t) maxDate c n acc out :
  1 <= interval (Agendamento.regras agendamento) ->
  TimeWithinDay c = TimeWithinDay (Agendamento.startDate agendamento) ->
  generateLoop fuel agendamento maxDate c n acc = Some out ->
  exists cursors,
    out = acc ++ map (aulaAt agendamento) cursors /\
    Forall (fun c' =>
              Day c <= Day c' /\
              TimeWithinDay c' = TimeWithinDay (Agendamento.startDate agendamento))
           cursors /\
    StronglySorted (fun x y => Day x < Day y) cursors.
Proof.
  intros Hi. revert c n acc. induction fuel as [| fuel IH]; intros c n acc Htod Hrun;
    cbn [generateLoop] in Hrun; [discriminate |].
  destruct (maxDate <? c).
  { injection Hrun as <-. exists []. rewrite app_nil_r. repeat split; constructor. }
  destruct (reachedMaxOccurrences _ n).
  { injection Hrun as <-. exists []. rewrite app_nil_r. repeat split; constructor. }
  destruct (pastEndDate _ c).
  { injection Hrun as <-. exists []. rewrite app_nil_r. repeat split; constructor. }
  destruct (skipsDay _ c).
  - apply IH in Hrun as (cursors & -> & Hge & Hsorted);
      [| rewrite TimeWithinDay_setDate; exact Htod].
    exists cursors. split; [reflexivity |]. split; [| exact Hsorted].
    eapply Forall_impl; [exact Hge |]. cbn. intros x [Hx Hxt].
    rewrite setDate_getDate_add, Day_add_days in Hx. split; [lia | exact Hxt].
  - pose proof (Day_advance (Agendamento.regras agendamento) c Hi) as Hadv.
    apply IH in Hrun as (cursors & -> & Hge & Hsorted);
      [| rewrite TimeWithinDay_advance; exact Htod].
    exists (c :: cursors).
    rewrite <- app_assoc. split; [reflexivity |]. split.
    + constructor; [split; [lia | exact Htod] |].
      eapply Forall_impl; [exact Hge |]. cbn. intros x [Hx Hxt]. split; [lia | exact Hxt].
    + constructor; [exact Hsorted |]. eapply Forall_impl; [exact Hge |].
      cbn. intros x [Hx _]. lia.
Qed.

(** X4: With an interval of at least one, the classes of a rule come in
    increasing order of time, each at least a day after the one before: no
    two classes of a series share a day. *)
Theorem classes_at_least_a_day_apart fuel now (agendamento : Agendamento.t) aulas :
  1 <= interval (Agendamento.regras agendamento) ->
  generateRecurrentClasses fuel now agendamento = Some aulas ->
  StronglySorted (fun a b => Aula.startTime a + msPerDay <= Aula.startTime b) aulas.
Proof.
  intros Hi Hrun.
  apply (generateLoop_ordered _ _ _ _ _ _ _ Hi eq_refl) in Hrun
    as (cursors & -> & Hall & Hsorted).
  rewrite app_nil_l. clear -Hall Hsorted.
  induction Hsorted as [| c cursors Hs IH Hlt]; [constructor |].
  apply Forall_cons in Hall as [(_ & Hc) Hall]. cbn. constructor; [exact (IH Hall) |].
  apply Forall_fmap. rewrite Forall_forall in *. intros c' Hc'. unfold compose.
  destruct (Hall c' Hc') as (_ & Hc'tod).
  destruct (aulaAt_times agendamento c Hc) as (-> & _).
  destruct (aulaAt_times agendamento c' Hc'tod) as (-> & _).
  specialize (Hlt c' Hc').
  pose proof (MakeDate_Day c) as H1. pose proof (MakeDate_Day c') as H2.
  unfold MakeDate in *. rewrite Hc in H1. rewrite Hc'tod in H2. unfold msPerDay in *. lia.
Qed.

Lemma classes_at_least_a_day_apart_witness :
  StronglySorted (fun a b => Aula.startTime a + msPerDay <= Aula.startTime b)
    (map (aulaAt (Agendamento.mk 1 Sample.endOfMonthRule))
       [mkDate 2024 0 31 9 0; mkDate 2024 2 2 9 0; mkDate 2024 3 2 9 0;
        mkDate 2024 4 2 9 0; mkDate 2024 5 2 9 0]).
Proof.
  apply (classes_at_least_a_day_apart 50 Sample.now (Agendamento.mk 1 Sample.endOfMonthRule)).
  - vm_compute. discriminate.
  - vm_compute. reflexivity.
Defined.

(** A rule that moves by days yields its classes at equal distances from
    its start: the i-th class starts i steps after [startDate], a step being
    [interval] days for a daily rule and [7 * interval] days for a weekly
    rule whose start day passes the weekday filter. *)
Lemma generateLoop_steps fuel (agendamento : Agendamento.t) maxDate step base j n acc out :
  stepDays (Agendamento.regras agendamento) = Some step ->
  skipsDay (Agendamento.regras agendamento) base = false ->
  generateLoop fuel agendamento maxDate (base + Z.of_nat j * step * msPerDay) n acc
  = Some out ->
  exists k,
    out = acc ++ map (fun i => aulaAt agendamento
                                 (base + Z.of_nat (j + i) * step * msPerDay)) (seq 0 k).
Proof.
  intros Hstep Hbase. revert j n acc.
  induction fuel as [| fuel IH]; intros j n acc Hrun;
    cbn [generateLoop] in Hrun; [discriminate |].
  destruct (maxDate <? _).
  { injection Hrun as <-. exists 0%nat. cbn. rewrite app_nil_r. reflexivity. }
  destruct (reachedMaxOccurrences _ n).
  { injection Hrun as <-. exists 0%nat. cbn. rewrite app_nil_r. reflexivity. }
  destruct (pastEndDate _ _).
  { injection Hrun as <-. exists 0%nat. cbn. rewrite app_nil_r. reflexivity. }
  assert (Hskip : skipsDay (Agendamento.regras agendamento)
                    (base + Z.of_nat j * step * msPerDay) = false).
  { rewrite <- Hbase. unfold stepDays in Hstep. unfold skipsDay.
    destruct (type (Agendamento.regras agendamento)) eqn:Htype; try reflexivity.
    injection Hstep as <-. fold (skipsDay (Agendamento.regras agendamento) base).
    destruct (weekDays (Agendamento.regras agendamento)); [| reflexivity].
    unfold currentDayName, getDay. rewrite WeekDay_add_days.
    replace ((WeekDay base + Z.of_nat j * (7 * interval (Agendamento.regras agendamento)))
             mod 7) with (WeekDay base); [reflexivity |].
    pose proof (WeekDay_range base). zlia. }
  rewrite Hskip in Hrun.
  assert (Hadv : advance (Agendamento.regras agendamento)
                   (base + Z.of_nat j * step * msPerDay)
                 = base + Z.of_nat (S j) * step * msPerDay).
  { unfold stepDays in Hstep. unfold advance.
    destruct (type (Agendamento.regras agendamento)); try discriminate;
      injection Hstep as <-; rewrite setDate_getDate_add; lia. }
  rewrite Hadv in Hrun. apply IH in Hrun as (k & ->). exists (S k).
  rewrite <- app_assoc. cbn [seq map app]. rewrite Nat.add_0_r.
  do 2 f_equal. rewrite <- seq_shift, map_map.
  apply map_ext. intros i. do 3 f_equal. lia.
Qed.

(** X5: The classes of a daily or weekly rule whose first day is not skipped
    start at equal steps from the start date: [interval] days for a daily
    rule, [7 * interval] for a weekly one (one day for a rule of another
    type). *)
Theorem classes_at_equal_steps fuel now (agendamento : Agendamento.t) step aulas :
  stepDays (Agendamento.regras agendamento) = Some step ->
  skipsDay (Agendamento.regras agendamento) (Agendamento.startDate agendamento) = false ->
  generateRecurrentClasses fuel now agendamento = Some aulas ->
  Aula.startTime <$> aulas
  = map (fun i => Agendamento.startDate agendamento + Z.of_nat i * step * msPerDay)
      (seq 0 (length aulas)).
Proof.
  intros Hstep Hskip Hrun. unfold generateRecurrentClasses in Hrun.
  replace (Agendamento.startDate agendamento)
    with (Agendamento.startDate agendamento + Z.of_nat 0 * step * msPerDay) in Hrun at 1
    by lia.
  apply (generateLoop_steps _ _ _ _ _ _ _ _ _ Hstep Hskip) in Hrun as (k & ->).
  rewrite app_nil_l, length_map, length_seq.
  change (Aula.startTime <$> ?l) with (map Aula.startTime l). rewrite map_map.
  apply map_ext. intros i. cbn [Nat.add].
  assert (Htod : TimeWithinDay (Agendamento.startDate agendamento
                                + Z.of_nat i * step * msPerDay)
                 = TimeWithinDay (Agendamento.startDate agendamento)).
  { replace (Z.of_nat i * step * msPerDay) with ((Z.of_nat i * step) * msPerDay) by lia.
    apply TimeWithinDay_add_days. }
  destruct (aulaAt_times agendamento _ Htod) as (Hs & _). exact Hs.
Qed.

Lemma classes_at_equal_steps_witness :
  Aula.startTime <$>
    map (aulaAt (Agendamento.mk 1 Sample.mondayWednesdayRule))
      [mkDate 2024 0 1 9 0; mkDate 2024 0 8 9 0; mkDate 2024 0 15 9 0; mkDate 2024 0 22 9 0]
  = map (fun i => Agendamento.startDate (Agendamento.mk 1 Sample.mondayWednesdayRule)
                  + Z.of_nat i * 7 * msPerDay)
      (seq 0 (length (map (aulaAt (Agendamento.mk 1 Sample.mondayWednesdayRule))
                        [mkDate 2024 0 1 9 0; mkDate 2024 0 8 9 0; mkDate 2024 0 15 9 0;
                         mkDate 2024 0 22 9 0]))).
Proof.
  apply (classes_at_equal_steps 50 Sample.now (Agendamento.mk 1 Sample.mondayWednesdayRule) 7).
  - reflexivity.
  - vm_compute. reflexivity.
  - vm_compute. reflexivity.
Defined.

(** A monthly rule anchored on a day up to the 28th keeps that day of the
    month: the i-th class falls [i * interval] months after the anchor, on
    the anchor's day. *)
Lemma generateLoop_months fuel (agendamento : Agendamento.t) maxDate s c j n acc out :
  type (Agendamento.regras agendamento) = monthly ->
  DateFromTime s <= 28 ->
  YearFromTime c = targetYear s (Z.of_nat j * interval (Agendamento.regras agendamento)) ->
  MonthFromTime c = targetMonth s (Z.of_nat j * interval (Agendamento.regras agendamento)) ->
  DateFromTime c = DateFromTime s ->
  generateLoop fuel agendamento maxDate c n acc = Some out ->
  exists cursors,
    out = acc ++ map (aulaAt agendamento) cursors /\
    forall i c',
      cursors !! i = Some c' ->
      YearFromTime c'
      = targetYear s (Z.of_nat (j + i) * interval (Agendamento.regras agendamento)) /\
      MonthFromTime c'
      = targetMonth s (Z.of_nat (j + i) * interval (Agendamento.regras agendamento)) /\
      DateFromTime c' = DateFromTime s.
Proof.
  intros Htype Hs. revert c j n acc.
  induction fuel as [| fuel IH]; intros c j n acc Hy Hm Hd Hrun;
    cbn [generateLoop] in Hrun; [discriminate |].
  destruct (maxDate <? c).
  { injection Hrun as <-. exists []. rewrite app_nil_r. split; [reflexivity |].
    intros i c' H. discriminate H. }
  destruct (reachedMaxOccurrences _ n).
  { injection Hrun as <-. exists []. rewrite app_nil_r. split; [reflexivity |].
    intros i c' H. discriminate H. }
  destruct (pastEndDate _ c).
  { injection Hrun as <-. exists []. rewrite app_nil_r. split; [reflexivity |].
    intros i c' H. discriminate H. }
  unfold skipsDay, advance in Hrun. rewrite Htype in Hrun.
  set (k := interval (Agendamento.regras agendamento)) in *.
  destruct (setMonth_keeps_day c k ltac:(lia)) as (Hy' & Hm' & Hd').
  apply (IH _ (S j)) in Hrun as (cursors & -> & Hall).
  - exists (c :: cursors). rewrite <- app_assoc. split; [reflexivity |].
    intros [| i] c' Hi; cbn in Hi.
    + injection Hi as <-. rewrite Nat.add_0_r. auto.
    + replace (j + S i)%nat with (S j + i)%nat by lia. exact (Hall i c' Hi).
  - rewrite Hy'. unfold targetYear, targetMonth in *. rewrite Hy, Hm.
    unfold targetMonth. zlia.
  - rewrite Hm'. unfold targetMonth in *. rewrite Hm. zlia.
  - lia.
Qed.

(** X6: The classes of a monthly rule anchored on a day up to the 28th keep
    that day of the month, [interval] months apart. *)
Theorem monthly_classes_keep_day fuel now (agendamento : Agendamento.t) aulas i a :
  type (Agendamento.regras agendamento) = monthly ->
  getDate (Agendamento.startDate agendamento) <= 28 ->
  generateRecurrentClasses fuel now agendamento = Some aulas ->
  aulas !! i = Some a ->
  getDate (Aula.startTime a) = getDate (Agendamento.startDate agendamento) /\
  getMonth (Aula.startTime a)
  = targetMonth (Agendamento.startDate agendamento)
      (Z.of_nat i * interval (Agendamento.regras agendamento)) /\
  getFullYear (Aula.startTime a)
  = targetYear (Agendamento.startDate agendamento)
      (Z.of_nat i * interval (Agendamento.regras agendamento)).
Proof.
  intros Htype Hd Hrun Hi.
  set (s := Agendamento.startDate agendamento) in *.
  apply (generateLoop_months _ _ _ s s 0 _ _ _ Htype Hd) in Hrun
    as (cursors & Hout & Hall).
  - rewrite Hout, app_nil_l in Hi.
    change (map ?f ?l) with (f <$> l) in Hi. rewrite list_lookup_fmap in Hi.
    destruct (cursors !! i) as [c |] eqn:Hc; [| discriminate]. injection Hi as <-.
    destruct (Hall i c Hc) as (Hy & Hm & Hdd). cbn [Nat.add] in *.
    destruct (fields_of_Day _ _ (Day_aulaAt agendamento c)) as (Hy' & Hm' & Hd').
    unfold getDate, getMonth, getFullYear. rewrite Hy', Hm', Hd'. auto.
  - unfold targetYear. cbn. rewrite Z.add_0_r.
    pose proof (MonthFromTime_range s). replace (MonthFromTime s / 12) with 0 by zlia. lia.
  - unfold targetMonth. cbn. rewrite Z.add_0_r. pose proof (MonthFromTime_range s). zlia.
  - reflexivity.
Qed.

Lemma monthly_classes_keep_day_witness :
  getDate (Aula.startTime
    (aulaAt (Agendamento.mk 1 (Sample.rule (mkRegras monthly 2 None) (mkDate 2024 0 15 9 0)
                                 None None)) (mkDate 2024 2 15 9 0)))
  = getDate (mkDate 2024 0 15 9 0) /\
  getMonth (Aula.startTime
    (aulaAt (Agendamento.mk 1 (Sample.rule (mkRegras monthly 2 None) (mkDate 2024 0 15 9 0)
                                 None None)) (mkDate 2024 2 15 9 0)))
  = targetMonth (mkDate 2024 0 15 9 0) (Z.of_nat 1 * 2) /\
  getFullYear (Aula.startTime
    (aulaAt (Agendamento.mk 1 (Sample.rule (mkRegras monthly 2 None) (mkDate 2024 0 15 9 0)
                                 None None)) (mkDate 2024 2 15 9 0)))
  = targetYear (mkDate 2024 0 15 9 0) (Z.of_nat 1 * 2).
Proof.
  apply (monthly_classes_keep_day 50 Sample.now
           (Agendamento.mk 1 (Sample.rule (mkRegras monthly 2 None) (mkDate 2024 0 15 9 0)
                                None None))
           (map (aulaAt (Agendamento.mk 1 (Sample.rule (mkRegras monthly 2 None)
                                             (mkDate 2024 0 15 9 0) None None)))
              [mkDate 2024 0 15 9 0; mkDate 2024 2 15 9 0; mkDate 2024 4 15 9 0])
           1%nat).
  - reflexivity.
  - vm_compute. discriminate.
  - vm_compute. reflexivity.
  - reflexivity.
Defined.

(** The length of a month other than February does not depend on the year. *)
Lemma DaysInMonth_other_year y1 y2 m :
  0 <= m < 12 -> m <> 1 -> DaysInMonth y1 m = DaysInMonth y2 m.
Proof.
  intros Hm Hne. unfold DaysInMonth.
  each_month m Hm; try lia; destruct (InLeapYear y1); destruct (InLeapYear y2);
    eval_monthStart; lia.
Qed.

Lemma setFullYear_keeps_date c k :
  ~ (MonthFromTime c = 1 /\ DateFromTime c = 29) ->
  YearFromTime (setFullYear c (getFullYear c + k)) = YearFromTime c + k /\
  MonthFromTime (setFullYear c (getFullYear c + k)) = MonthFromTime c /\
  DateFromTime (setFullYear c (getFullYear c + k)) = DateFromTime c.
Proof.
  intros Hfeb. unfold setFullYear, getFullYear.
  pose proof (MonthFromTime_range c) as Hm. pose proof (DateFromTime_range c) as Hd.
  apply fields_MakeDay; [exact Hm | | apply TimeWithinDay_range].
  split; [lia |].
  destruct (Z.eq_dec (MonthFromTime c) 1) as [E | E].
  - pose proof (DaysInMonth_range (YearFromTime c + k) (MonthFromTime c) Hm).
    pose proof (DaysInMonth_range (YearFromTime c) (MonthFromTime c) Hm).
    assert (DaysInMonth (YearFromTime c) (MonthFromTime c) <= 29).
    { rewrite E. unfold DaysInMonth. destruct (InLeapYear _); eval_monthStart; lia. }
    lia.
  - rewrite (DaysInMonth_other_year _ (YearFromTime c)) by assumption. lia.
Qed.

Lemma generateLoop_years fuel (agendamento : Agendamento.t) maxDate s c j n acc out :
  type (Agendamento.regras agendamento) = yearly ->
  ~ (MonthFromTime s = 1 /\ DateFromTime s = 29) ->
  YearFromTime c = YearFromTime s + Z.of_nat j * interval (Agendamento.regras agendamento) ->
  MonthFromTime c = MonthFromTime s ->
  DateFromTime c = DateFromTime s ->
  generateLoop fuel agendamento maxDate c n acc = Some out ->
  exists cursors,
    out = acc ++ map (aulaAt agendamento) cursors /\
    forall i c',
      cursors !! i = Some c' ->
      YearFromTime c'
      = YearFromTime s + Z.of_nat (j + i) * interval (Agendamento.regras agendamento) /\
      MonthFromTime c' = MonthFromTime s /\
      DateFromTime c' = DateFromTime s.
Proof.
  intros Htype Hs. revert c j n acc.
  induction fuel as [| fuel IH]; intros c j n acc Hy Hm Hd Hrun;
    cbn [generateLoop] in Hrun; [discriminate |].
  destruct (maxDate <? c).
  { injection Hrun as <-. exists []. rewrite app_nil_r. split; [reflexivity |].
    intros i c' H. discriminate H. }
  destruct (reachedMaxOccurrences _ n).
  { injection Hrun as <-. exists []. rewrite app_nil_r. split; [reflexivity |].
    intros i c' H. discriminate H. }
  destruct (pastEndDate _ c).
  { injection Hrun as <-. exists []. rewrite app_nil_r. split; [reflexivity |].
    intros i c' H. discriminate H. }
  unfold skipsDay, advance in Hrun. rewrite Htype in Hrun.
  set (k := interval (Agendamento.regras agendamento)) in *.
  destruct (setFullYear_keeps_date c k) as (Hy' & Hm' & Hd'); [rewrite Hm, Hd; exact Hs |].
  apply (IH _ (S j)) in Hrun as (cursors & -> & Hall); [| lia | lia | lia].
  exists (c :: cursors). rewrite <- app_assoc. split; [reflexivity |].
  intros [| i] c' Hi; cbn in Hi.
  - injection Hi as <-. rewrite Nat.add_0_r. auto.
  - replace (j + S i)%nat with (S j + i)%nat by lia. exact (Hall i c' Hi).
Qed.

(** X7: A yearly rule keeps its month and day, [interval] years apart, unless
    it is anchored on the 29th of February. *)
Theorem yearly_classes_keep_date fuel now (agendamento : Agendamento.t) aulas i a :
  type (Agendamento.regras agendamento) = yearly ->
  ~ (getMonth (Agendamento.startDate agendamento) = 1 /\
     getDate (Agendamento.startDate agendamento) = 29) ->
  generateRecurrentClasses fuel now agendamento = Some aulas ->
  aulas !! i = Some a ->
  getFullYear (Aula.startTime a)
  = getFullYear (Agendamento.startDate agendamento)
    + Z.of_nat i * interval (Agendamento.regras agendamento) /\
  getMonth (Aula.startTime a) = getMonth (Agendamento.startDate agendamento) /\
  getDate (Aula.startTime a) = getDate (Agendamento.startDate agendamento).
Proof.
  intros Htype Hfeb Hrun Hi.
  set (s := Agendamento.startDate agendamento) in *.
  apply (generateLoop_years _ _ _ s s 0 _ _ _ Htype Hfeb) in Hrun
    as (cursors & Hout & Hall); [| cbn; lia | reflexivity | reflexivity].
  rewrite Hout, app_nil_l in Hi.
  change (map ?f ?l) with (f <$> l) in Hi. rewrite list_lookup_fmap in Hi.
  destruct (cursors !! i) as [c |] eqn:Hc; [| discriminate]. injection Hi as <-.
  destruct (Hall i c Hc) as (Hy & Hm & Hdd). cbn [Nat.add] in *.
  destruct (fields_of_Day _ _ (Day_aulaAt agendamento c)) as (Hy' & Hm' & Hd').
  unfold getDate, getMonth, getFullYear. rewrite Hy', Hm', Hd'. auto.
Qed.

Lemma yearly_classes_keep_date_witness :
  getFullYear (Aula.startTime
    (aulaAt (Agendamento.mk 1 (Sample.rule (mkRegras yearly 1 None) (mkDate 2023 5 10 9 0)
                                 None None)) (mkDate 2024 5 10 9 0)))
  = getFullYear (mkDate 2023 5 10 9 0) + Z.of_nat 1 * 1 /\
  getMonth (Aula.startTime
    (aulaAt (Agendamento.mk 1 (Sample.rule (mkRegras yearly 1 None) (mkDate 2023 5 10 9 0)
                                 None None)) (mkDate 2024 5 10 9 0)))
  = getMonth (mkDate 2023 5 10 9 0) /\
  getDate (Aula.startTime
    (aulaAt (Agendamento.mk 1 (Sample.rule (mkRegras yearly 1 None) (mkDate 2023 5 10 9 0)
                                 None None)) (mkDate 2024 5 10 9 0)))
  = getDate (mkDate 2023 5 10 9 0).
Proof.
  apply (yearly_classes_keep_date 50 Sample.now
           (Agendamento.mk 1 (Sample.rule (mkRegras yearly 1 None) (mkDate 2023 5 10 9 0)
                                None None))
           (map (aulaAt (Agendamento.mk 1 (Sample.rule (mkRegras yearly 1 None)
                                             (mkDate 2023 5 10 9 0) None None)))
              [mkDate 2023 5 10 9 0; mkDate 2024 5 10 9 0])
           1%nat).
  - reflexivity.
  - intros [H _]. vm_compute in H. discriminate.
  - vm_compute. reflexivity.
  - reflexivity.
Defined.

Lemma generateLoop_only_skips fuel (agendamento : Agendamento.t) maxDate c n acc :
  type (Agendamento.regras agendamento) = weekly ->
  weekDays (Agendamento.regras agendamento) = Some [] ->
  Z.max 0 (Day maxDate - Day c + 1) < Z.of_nat fuel ->
  generateLoop fuel agendamento maxDate c n acc = Some acc.
Proof.
  intros Htype Hnames. revert c. induction fuel as [| fuel IH]; intros c Hfuel; [lia |].
  cbn [generateLoop].
  destruct (Z.ltb_spec maxDate c); [reflexivity |].
  destruct (reachedMaxOccurrences _ n); [reflexivity |].
  destruct (pastEndDate _ c); [reflexivity |].
  assert (Hday : Day c <= Day maxDate) by (unfold Day, msPerDay; zlia).
  unfold skipsDay. rewrite Htype, Hnames.
  assert (Hinc : includes [] (currentDayName c) = false).
  { unfold includes. destruct (currentDayName c); [| reflexivity].
    apply bool_decide_eq_false. apply not_elem_of_nil. }
  rewrite Hinc. cbn [negb]. apply IH.
  rewrite setDate_getDate_add, Day_add_days. lia.
Qed.

(** X8: A weekly rule with an empty list of weekdays yields no class, and its
    expansion ends whatever the interval: the cursor walks day by day to the
    horizon. *)
Theorem weekly_rule_without_days_is_empty now (agendamento : Agendamento.t) :
  type (Agendamento.regras agendamento) = weekly ->
  weekDays (Agendamento.regras agendamento) = Some [] ->
  exists fuel, generateRecurrentClasses fuel now agendamento = Some [].
Proof.
  intros Htype Hnames.
  exists (S (Z.to_nat (Z.max 0 (Day (maxDate now)
                                - Day (Agendamento.startDate agendamento) + 1)))).
  apply generateLoop_only_skips; [exact Htype | exact Hnames | lia].
Qed.

Lemma weekly_rule_without_days_is_empty_witness :
  exists fuel,
    generateRecurrentClasses fuel Sample.now
      (Agendamento.mk 1 (Sample.rule (mkRegras weekly 0 (Some [])) (mkDate 2024 0 2 9 0)
                           None None)) = Some [].
Proof.
  apply (weekly_rule_without_days_is_empty Sample.now
           (Agendamento.mk 1 (Sample.rule (mkRegras weekly 0 (Some [])) (mkDate 2024 0 2 9 0)
                                None None))); reflexivity.
Defined.

Lemma weekly_rule_one_weekday_witness :
  exists w,
    Forall (fun a => getDay (Aula.startTime a) = w)
      (map (aulaAt (Agendamento.mk 1 Sample.mondayWednesdayRule))
         [mkDate 2024 0 1 9 0; mkDate 2024 0 8 9 0; mkDate 2024 0 15 9 0;
          mkDate 2024 0 22 9 0]).
Proof.
  apply (weekly_rule_one_weekday 50 Sample.now (Agendamento.mk 1 Sample.mondayWednesdayRule)).
  - reflexivity.
  - vm_compute. reflexivity.
Defined.

Lemma zero_interval_never_ends_witness :
  generateLoop 1000
    (Agendamento.mk 1 (Sample.rule (mkRegras daily 0 None) (mkDate 2024 0 2 9 0) None None))
    (maxDate Sample.now) (mkDate 2024 0 2 9 0) 0 [] = None.
Proof.
  apply (zero_interval_never_ends 1000
           (Agendamento.mk 1 (Sample.rule (mkRegras daily 0 None) (mkDate 2024 0 2 9 0)
                                None None))).
  - reflexivity.
  - reflexivity.
  - reflexivity.
  - reflexivity.
  - vm_compute. discriminate.
Defined.


End GeneratedClasses.

(** ** More on the recurrence loop of [POST /api/sessions] *)

Section RecurringSessions.

Import Routes.

(** The sessions after a pass: the ones before it, with at most the slot of
    the cursor's day added. *)
Lemma step_sessions body c s :
  fst (step body c s) = s \/ fst (step body c s) = s ++ [slotAt body c s].
Proof.
  unfold step. destruct (String.eqb _ "weekly").
  { destruct (dayIsSelected _ c); cbn; auto. }
  destruct (String.eqb _ "daily"); [cbn; auto |].
  destruct (String.eqb _ "monthly"); cbn; auto.
Qed.

Lemma sessionsLoop_Forall (Q : SessionSlot -> Prop) body :
  (forall c s, Q (slotAt body c s)) ->
  forall fuel c n acc out,
    Forall Q acc -> sessionsLoop fuel body c n acc = Some out -> Forall Q out.
Proof.
  intros HQ fuel c n acc out Hacc Hrun.
  destruct (sessionsLoop_invariant (fun _ s => Forall Q s) body) with fuel c n acc out
    as [_ H]; [| exact Hacc | exact Hrun | exact H].
  intros c0 s Hs _. destruct (step_sessions body c0 s) as [-> | ->]; [exact Hs |].
  apply Forall_app. split; [exact Hs |]. constructor; [apply HQ | constructor].
Qed.

Lemma sessionsLoop_parent fuel body c n acc out :
  (forall i x, acc !! i = Some x -> isParent x = bool_decide (i = 0%nat)) ->
  sessionsLoop fuel body c n acc = Some out ->
  forall i x, out !! i = Some x -> isParent x = bool_decide (i = 0%nat).
Proof.
  intros Hacc Hrun.
  destruct (sessionsLoop_invariant
              (fun _ s => forall i x, s !! i = Some x -> isParent x = bool_decide (i = 0%nat))
              body) with fuel c n acc out as [_ H]; [| exact Hacc | exact Hrun | exact H].
  intros c0 s Hs _. destruct (step_sessions body c0 s) as [-> | ->]; [exact Hs |].
  intros i x Hi. apply lookup_app_Some in Hi as [Hi | [Hlen Hi]]; [exact (Hs i x Hi) |].
  apply list_lookup_singleton_Some in Hi as [Hz <-]. cbn [slotAt isParent].
  apply bool_decide_ext. destruct s; cbn in *; split; intros; (done || lia).
Qed.


(** The rows the insertion loop writes for sessions none of which is flagged
    as parent, where the rows of a result are read. *)
Lemma insertLoop_children returned i sessions parent rows :
  Forall (fun s => isParent s = false) sessions ->
  SessionInsert.insertLoop Db.node_postgres returned i sessions parent rows
  = SessionInsert.Inserted
      (rows ++ imap (fun j s =>
                 SessionInsert.mkRow (returned (i + j)%nat) (slotStartTime s) (slotEndTime s)
                   false parent) sessions)
      parent.
Proof.
  revert i rows. induction sessions as [| s rest IH]; intros i rows Hall;
    cbn [SessionInsert.insertLoop imap Db.rows]; [rewrite app_nil_r; reflexivity |].
  apply Forall_cons in Hall as [Hs Hrest]. rewrite Hs, (IH _ _ Hrest), <- app_assoc.
  cbn [app]. rewrite Nat.add_0_r. do 3 f_equal.
  apply imap_ext. intros j x _. cbn. do 2 f_equal. lia.
Qed.

(** Where the rows of a result are read, every session of a recurrence is
    stored with the id of the first as its parent, except the first itself,
    which has none, and the response names the first id as [parentId]. *)
Lemma children_point_to_first_session body returned :
  exists sessions,
    recurringSessions 366 body = Some sessions /\
    SessionInsert.insertSessionsWith Db.node_postgres returned sessions
    = SessionInsert.Inserted
        (imap (fun i s =>
                 SessionInsert.mkRow (returned i) (slotStartTime s) (slotEndTime s)
                   (bool_decide (i = 0%nat))
                   (if bool_decide (i = 0%nat) then None else Some (returned 0%nat)))
              sessions)
        (match sessions with [] => None | _ :: _ => Some (returned 0%nat) end).
Proof.
  destruct (sessionsLoop_total 366 body (startTime body) 0 []) as (out & Hout & _);
    [lia | lia |].
  exists out. split; [exact Hout |].
  assert (Hparent : forall i s, out !! i = Some s -> isParent s = bool_decide (i = 0%nat)).
  { apply (sessionsLoop_parent _ _ _ _ _ _) with (2 := Hout).
    intros i x H. rewrite lookup_nil in H. discriminate H. }
  unfold SessionInsert.insertSessionsWith. destruct out as [| first rest]; [reflexivity |].
  cbn [SessionInsert.insertLoop imap Db.rows]. rewrite (Hparent 0%nat first eq_refl).
  change (bool_decide (0%nat = 0%nat)) with true. cbv iota.
  rewrite insertLoop_children.
  - reflexivity.
  - apply Forall_forall. intros s Hs. apply list_elem_of_lookup in Hs as [j Hj].
    rewrite (Hparent (S j) s Hj). reflexivity.
Qed.

(** *** How many sessions a daily or monthly request yields *)

Lemma step_pushes body c s :
  recurrenceType body = "daily"%string \/ recurrenceType body = "monthly"%string ->
  length (fst (step body c s)) = S (length s).
Proof.
  intros [H | H]; unfold step; rewrite H.
  - change (String.eqb "daily" "weekly") with false.
    change (String.eqb "daily" "daily") with true.
    cbv iota. cbn [fst]. rewrite length_app. cbn. lia.
  - change (String.eqb "monthly" "weekly") with false.
    change (String.eqb "monthly" "daily") with false.
    change (String.eqb "monthly" "monthly") with true.
    cbv iota. cbn [fst]. rewrite length_app. cbn. lia.
Qed.

Lemma sessionsLoop_count fuel body m c n acc out :
  recurrenceType body = "daily"%string \/ recurrenceType body = "monthly"%string ->
  endDateOf body = None ->
  maxSessions body = Some m ->
  0 <= n <= 365 ->
  sessionsLoop fuel body c n acc = Some out ->
  Z.of_nat (length out) = Z.of_nat (length acc) + Z.max 0 (Z.min m 366 - n).
Proof.
  intros Htype Hend Hmax. revert c n acc.
  induction fuel as [| fuel IH]; intros c n acc Hn Hrun; [discriminate |].
  cbn [sessionsLoop] in Hrun. rewrite Hmax, Hend in Hrun.
  cbn [belowMax pastEndDate] in Hrun.
  destruct (Z.ltb_spec n m); cbn [negb] in Hrun; [| injection Hrun as <-; lia].
  pose proof (step_pushes body c acc Htype) as Hlen.
  destruct (step body c acc) as [s' c']. cbn [fst] in Hlen.
  destruct (Z.ltb_spec 365 (n + 1)); [injection Hrun as <-; lia |].
  apply IH in Hrun; lia.
Qed.

(** X12: A daily or monthly request that does not end on a date yields as many
    sessions as its count allows (a hundred when it has no count), and never
    more than 366. *)
Theorem daily_monthly_session_count body m :
  recurrenceType body = "daily"%string \/ recurrenceType body = "monthly"%string ->
  endDateOf body = None ->
  maxSessions body = Some m ->
  exists sessions,
    recurringSessions 366 body = Some sessions /\
    Z.of_nat (length sessions) = Z.max 0 (Z.min m 366).
Proof.
  intros Htype Hend Hmax.
  destruct (sessionsLoop_total 366 body (startTime body) 0 []) as (out & Hout & _);
    [lia | lia |].
  exists out. split; [exact Hout |].
  apply (sessionsLoop_count _ _ m) in Hout; [| assumption ..| lia].
  cbn [length] in Hout. lia.
Qed.

Lemma daily_monthly_session_count_witness :
  exists sessions,
    recurringSessions 366
      (mkBody (mkDate 2024 0 1 9 0) (mkDate 2024 0 1 10 0) "daily" 1 None
         "count" None (Some 500)) = Some sessions /\
    Z.of_nat (length sessions) = Z.max 0 (Z.min 500 366).
Proof.
  apply (daily_monthly_session_count
           (mkBody (mkDate 2024 0 1 9 0) (mkDate 2024 0 1 10 0) "daily" 1 None
              "count" None (Some 500)) 500); [left |..]; reflexivity.
Defined.

(** *** The clock times of the sessions *)

Lemma MakeTime_clock_range t :
  0 <= MakeTime (getHours t) (getMinutes t) 0 0 < msPerDay.
Proof.
  unfold MakeTime, getHours, getMinutes, HourFromTime, MinFromTime, msPerDay,
    msPerHour, msPerMinute, msPerSecond. zlia.
Qed.

(** X13: Every session starts and ends on the day of the cursor, at the hours
    and minutes of the request's start and end: seconds are dropped, and the
    end is put on the day of the start even when the request ends on a later
    day. *)
Theorem sessions_keep_clock_times body :
  exists sessions,
    recurringSessions 366 body = Some sessions /\
    Forall (fun s =>
      TimeWithinDay (slotStartTime s)
      = MakeTime (getHours (startTime body)) (getMinutes (startTime body)) 0 0 /\
      TimeWithinDay (slotEndTime s)
      = MakeTime (getHours (endTime body)) (getMinutes (endTime body)) 0 0 /\
      Day (slotEndTime s) = Day (slotStartTime s)) sessions.
Proof.
  destruct (sessionsLoop_total 366 body (startTime body) 0 []) as (out & Hout & _);
    [lia | lia |].
  exists out. split; [exact Hout |].
  apply (sessionsLoop_Forall _ body) with (3 := Hout); [| constructor].
  intros c s. cbn [slotAt slotStartTime slotEndTime]. unfold setHours4.
  pose proof (MakeTime_clock_range (startTime body)).
  pose proof (MakeTime_clock_range (endTime body)).
  rewrite !TimeWithinDay_MakeDate, !Day_MakeDate by assumption. auto.
Qed.


(** *** Weekly requests *)

Lemma dayIsSelected_Day wd c1 c2 :
  Day c1 = Day c2 -> dayIsSelected wd c1 = dayIsSelected wd c2.
Proof.
  intros H. unfold dayIsSelected, currentDayName, getDay, WeekDay. rewrite H. reflexivity.
Qed.

(** The cursor of a weekly request after a pass: the next day, or, when the
    next day has the weekday of the request's start, that day
    [recurrenceInterval - 1] weeks later. *)
Lemma step_weekly_cursor body c s :
  recurrenceType body = "weekly"%string ->
  fst (step body c s)
  = (if dayIsSelected (recurrenceWeekDays body) c then s ++ [slotAt body c s] else s) /\
  Day (snd (step body c s))
  = Day c + 1
    + (if WeekDay (c + 1 * msPerDay) =? WeekDay (startTime body)
       then 7 * (recurrenceInterval body - 1) else 0).
Proof.
  intros Htype. unfold step. rewrite Htype.
  change (String.eqb "weekly" "weekly") with true. cbv iota zeta. cbn [fst snd].
  split; [reflexivity |].
  rewrite (setDate_getDate_add c 1). unfold getDay.
  destruct (_ =? _).
  - rewrite (setDate_getDate_add (c + 1 * msPerDay)), !Day_add_days. lia.
  - rewrite Day_add_days. lia.
Qed.

(** X14: A weekly request only yields sessions on the weekdays it lists, and
    only in the weeks that are a multiple of [recurrenceInterval] weeks
    after the week that begins with the request's start. *)
Theorem weekly_sessions_in_every_kth_week body :
  recurrenceType body = "weekly"%string ->
  exists sessions,
    recurringSessions 366 body = Some sessions /\
    Forall (fun s =>
      dayIsSelected (recurrenceWeekDays body) (slotStartTime s) = true /\
      exists q r,
        0 <= q /\ 0 <= r < 7 /\
        Day (slotStartTime s)
        = Day (startTime body) + 7 * (recurrenceInterval body * q) + r) sessions.
Proof.
  intros Htype.
  destruct (sessionsLoop_total 366 body (startTime body) 0 []) as (out & Hout & _);
    [lia | lia |].
  exists out. split; [exact Hout |].
  set (k := recurrenceInterval body).
  set (inWeek := fun d => exists q r, 0 <= q /\ 0 <= r < 7 /\
                                      d = Day (startTime body) + 7 * (k * q) + r).
  destruct (sessionsLoop_invariant
              (fun c s => inWeek (Day c) /\
                 Forall (fun x =>
                   dayIsSelected (recurrenceWeekDays body) (slotStartTime x) = true /\
                   inWeek (Day (slotStartTime x))) s)
              body) with 366%nat (startTime body) 0 (@nil SessionSlot) out
    as [_ [_ H]]; [| | exact Hout | exact H].
  - intros c s [(q & r & Hq & Hr & Hc) Hs] _.
    destruct (step_weekly_cursor body c s Htype) as [Hfst Hsnd].
    rewrite Hfst, Hsnd. split.
    + rewrite WeekDay_add_days. unfold WeekDay. rewrite Hc.
      fold k.
      match goal with
      | |- context [?a =? ?b] => destruct (Z.eqb_spec a b) as [E | E]
      end.
      * exists (q + 1), 0. split; [lia |]. split; [lia |].
        assert (r = 6) by (revert E; generalize (k * q); intros; zlia). lia.
      * exists q, (r + 1). split; [lia |].
        assert (r <> 6) by (revert E; generalize (k * q); intros; zlia). lia.
    + destruct (dayIsSelected _ c) eqn:Hsel; [| exact Hs].
      apply Forall_app. split; [exact Hs |]. constructor; [| constructor].
      rewrite (dayIsSelected_Day _ _ c (Day_slotAt body c s)), Day_slotAt.
      split; [exact Hsel |]. exists q, r. auto.
  - split; [| constructor]. exists 0, 0. lia.
Qed.

Lemma weekly_sessions_in_every_kth_week_witness :
  exists sessions,
    recurringSessions 366
      (mkBody (mkDate 2024 0 1 9 0) (mkDate 2024 0 1 10 0) "weekly" 2
         (Some ["segunda"; "quarta"]%string) "count" None (Some 30)) = Some sessions /\
    Forall (fun s =>
      dayIsSelected (Some ["segunda"; "quarta"]%string) (slotStartTime s) = true /\
      exists q r,
        0 <= q /\ 0 <= r < 7 /\
        Day (slotStartTime s) = Day (mkDate 2024 0 1 9 0) + 7 * (2 * q) + r) sessions.
Proof.
  apply (weekly_sessions_in_every_kth_week
           (mkBody (mkDate 2024 0 1 9 0) (mkDate 2024 0 1 10 0) "weekly" 2
              (Some ["segunda"; "quarta"]%string) "count" None (Some 30))).
  reflexivity.
Defined.

(** The day of the cursor after a pass, when the interval is at least one. *)
Lemma step_moves_on body c s :
  1 <= recurrenceInterval body ->
  (fst (step body c s) = s /\ snd (step body c s) = c) \/
  ((fst (step body c s) = s \/ fst (step body c s) = s ++ [slotAt body c s]) /\
   Day c < Day (snd (step body c s))).
Proof.
  intros Hk. destruct (String.eqb_spec (recurrenceType body) "weekly") as [Hw | Hw].
  { right. destruct (step_weekly_cursor body c s Hw) as [Hfst Hsnd]. split.
    - rewrite Hfst. destruct (dayIsSelected _ c); auto.
    - rewrite Hsnd. destruct (_ =? _); lia. }
  unfold step. destruct (String.eqb (recurrenceType body) "weekly") eqn:E;
    [apply String.eqb_eq in E; contradiction |].
  destruct (String.eqb _ "daily").
  { right. cbn [fst snd]. split; [auto |].
    rewrite setDate_getDate_add, Day_add_days. lia. }
  destruct (String.eqb _ "monthly"); [| left; auto].
  right. cbn [fst snd]. split; [auto |].
  pose proof (Day_advance (mkRegras monthly (recurrenceInterval body) None) c Hk) as H.
  unfold Controller.advance in H. cbn [type interval] in H. lia.
Qed.

(** X15: With an interval of at least one, the sessions of a recurrence are on
    days that strictly increase: no day gets two sessions. *)
Theorem sessions_on_increasing_days body :
  1 <= recurrenceInterval body ->
  exists sessions,
    recurringSessions 366 body = Some sessions /\
    StronglySorted (fun a b => Day (slotStartTime a) < Day (slotStartTime b)) sessions.
Proof.
  intros Hk.
  destruct (sessionsLoop_total 366 body (startTime body) 0 []) as (out & Hout & _);
    [lia | lia |].
  exists out. split; [exact Hout |].
  destruct (sessionsLoop_invariant
              (fun c s =>
                 Forall (fun x => Day (slotStartTime x) < Day c) s /\
                 StronglySorted
                   (fun a b => Day (slotStartTime a) < Day (slotStartTime b)) s)
              body) with 366%nat (startTime body) 0 (@nil SessionSlot) out
    as [_ [_ H]]; [| | exact Hout | exact H].
  - intros c s [Hbefore Hsorted] _.
    destruct (step_moves_on body c s Hk) as [[-> ->] | [Hfst Hday]]; [auto |].
    destruct Hfst as [-> | ->].
    + split; [| exact Hsorted]. eapply Forall_impl; [exact Hbefore |]. cbn. intros; lia.
    + split.
      * apply Forall_app. split.
        -- eapply Forall_impl; [exact Hbefore |]. cbn. intros; lia.
        -- constructor; [rewrite Day_slotAt; lia | constructor].
      * apply StronglySorted_app. split; [| split; [exact Hsorted | repeat constructor]].
        intros x1 x2 Hx1 Hx2. apply list_elem_of_singleton in Hx2 as ->.
        rewrite Day_slotAt. rewrite Forall_forall in Hbefore. exact (Hbefore x1 Hx1).
  - split; constructor.
Qed.

Lemma sessions_on_increasing_days_witness :
  exists sessions,
    recurringSessions 366
      (mkBody (mkDate 2024 0 31 9 0) (mkDate 2024 0 31 10 0) "monthly" 1 None
         "count" None (Some 12)) = Some sessions /\
    StronglySorted (fun a b => Day (slotStartTime a) < Day (slotStartTime b)) sessions.
Proof.
  apply (sessions_on_increasing_days
           (mkBody (mkDate 2024 0 31 9 0) (mkDate 2024 0 31 10 0) "monthly" 1 None
              "count" None (Some 12))).
  cbn. lia.
Defined.


(** *** Weekly requests with an interval of one: the days walked *)

Lemma daysFrom_S c k : daysFrom c (S k) = c :: daysFrom (c + msPerDay) k.
Proof.
  unfold daysFrom. cbn [seq map]. f_equal; [lia |].
  rewrite <- seq_shift, map_map. apply map_ext. intros i. lia.
Qed.

Lemma walkDays_starts body c k acc :
  slotStartTime <$> walkDays body c k acc
  = (slotStartTime <$> acc)
    ++ ((fun d => setHours4 d (getHours (startTime body)) (getMinutes (startTime body)) 0 0)
        <$> filter (fun d => dayIsSelected (recurrenceWeekDays body) d = true)
              (daysFrom c k)).
Proof.
  revert c acc. induction k as [| k IH]; intros c acc.
  - cbn. rewrite app_nil_r. reflexivity.
  - cbn [walkDays]. rewrite IH, daysFrom_S, filter_cons.
    destruct (dayIsSelected (recurrenceWeekDays body) c) eqn:Hsel.
    + rewrite decide_True by reflexivity. rewrite fmap_app, <- app_assoc. reflexivity.
    + rewrite decide_False by discriminate. reflexivity.
Qed.

(** The loop of a weekly request with an interval of one walks [k] days,
    one per pass, when nothing stops it before and something stops it then. *)
Lemma sessionsLoop_walks body m k :
  recurrenceType body = "weekly"%string ->
  recurrenceInterval body = 1 ->
  maxSessions body = Some m ->
  forall fuel c n acc out,
    0 <= n <= 365 ->
    ((0 < k)%nat -> n + Z.of_nat k <= m) ->
    n + Z.of_nat k <= 366 ->
    (forall i, (i < k)%nat ->
       pastEndDate (endDateOf body) (c + Z.of_nat i * msPerDay) = false) ->
    (m <= n + Z.of_nat k \/ n + Z.of_nat k = 366 \/
     pastEndDate (endDateOf body) (c + Z.of_nat k * msPerDay) = true) ->
    sessionsLoop fuel body c n acc = Some out ->
    out = walkDays body c k acc.
Proof.
  intros Htype Hone Hmax.
  induction k as [| k IH]; intros fuel c n acc out Hn Hbelow Hcap Hopen Hstop Hrun;
    (destruct fuel as [| fuel]; [discriminate |]);
    cbn [sessionsLoop walkDays] in *; rewrite Hmax in Hrun; cbn [belowMax] in Hrun.
  - destruct (Z.ltb_spec n m); cbn [negb] in Hrun; [| congruence].
    destruct Hstop as [Hstop | [Hstop | Hstop]]; [lia | lia |].
    replace (c + Z.of_nat 0 * msPerDay) with c in Hstop by lia.
    rewrite Hstop in Hrun. congruence.
  - destruct (Z.ltb_spec n m); cbn [negb] in Hrun; [| lia].
    pose proof (Hopen 0%nat ltac:(lia)) as H0.
    replace (c + Z.of_nat 0 * msPerDay) with c in H0 by lia. rewrite H0 in Hrun.
    rewrite step_weekly_every_week in Hrun by assumption.
    destruct (Z.ltb_spec 365 (n + 1)).
    + assert (k = 0%nat) by lia. subst k. cbn [walkDays]. congruence.
    + apply (IH fuel) with (n := n + 1); [lia | lia | lia | | | exact Hrun].
      * intros i Hi. specialize (Hopen (S i) ltac:(lia)).
        replace (c + msPerDay + Z.of_nat i * msPerDay)
          with (c + Z.of_nat (S i) * msPerDay) by lia. exact Hopen.
      * replace (c + msPerDay + Z.of_nat k * msPerDay)
          with (c + Z.of_nat (S k) * msPerDay) by lia.
        destruct Hstop as [Hstop | [Hstop | Hstop]];
          [left; lia | right; left; lia | right; right; exact Hstop].
Qed.

(** X16: For a weekly request with an interval of one and no end date, the
    count is a count of days, not of sessions: the sessions are those of the
    listed weekdays among the first [recurrenceEndCount] days (a hundred
    without a count, 366 at most), in order. *)
Theorem weekly_count_is_a_count_of_days body m :
  recurrenceType body = "weekly"%string ->
  recurrenceInterval body = 1 ->
  endDateOf body = None ->
  maxSessions body = Some m ->
  exists sessions,
    recurringSessions 366 body = Some sessions /\
    slotStartTime <$> sessions
    = (fun d => setHours4 d (getHours (startTime body)) (getMinutes (startTime body)) 0 0)
      <$> filter (fun d => dayIsSelected (recurrenceWeekDays body) d = true)
            (daysFrom (startTime body) (Z.to_nat (Z.min m 366))).
Proof.
  intros Htype Hone Hend Hmax.
  destruct (sessionsLoop_total 366 body (startTime body) 0 []) as (out & Hout & _);
    [lia | lia |].
  exists out. split; [exact Hout |].
  apply (sessionsLoop_walks body m (Z.to_nat (Z.min m 366)) Htype Hone Hmax) in Hout.
  - rewrite Hout, walkDays_starts. reflexivity.
  - lia.
  - lia.
  - lia.
  - intros i _. rewrite Hend. reflexivity.
  - lia.
Qed.

Lemma weekly_count_is_a_count_of_days_witness :
  exists sessions,
    recurringSessions 366
      (mkBody (mkDate 2024 0 1 9 0) (mkDate 2024 0 1 10 0) "weekly" 1
         (Some ["segunda"; "quarta"]%string) "count" None (Some 10)) = Some sessions /\
    slotStartTime <$> sessions
    = (fun d => setHours4 d (getHours (mkDate 2024 0 1 9 0))
                  (getMinutes (mkDate 2024 0 1 9 0)) 0 0)
      <$> filter (fun d => dayIsSelected (Some ["segunda"; "quarta"]%string) d = true)
            (daysFrom (mkDate 2024 0 1 9 0) (Z.to_nat (Z.min 10 366))).
Proof.
  apply (weekly_count_is_a_count_of_days
           (mkBody (mkDate 2024 0 1 9 0) (mkDate 2024 0 1 10 0) "weekly" 1
              (Some ["segunda"; "quarta"]%string) "count" None (Some 10)) 10);
    reflexivity.
Defined.

(** X17: For a weekly request with an interval of one that ends on a date, the
    sessions are those of the listed weekdays from the day of the start to
    the last day on which the start's time of day is not past the end
    date, and never beyond the hundredth day. *)
Theorem weekly_sessions_until_end_date body e :
  recurrenceType body = "weekly"%string ->
  recurrenceInterval body = 1 ->
  recurrenceEndType body = "date"%string ->
  recurrenceEndDate body = Some e ->
  exists sessions,
    recurringSessions 366 body = Some sessions /\
    slotStartTime <$> sessions
    = (fun d => setHours4 d (getHours (startTime body)) (getMinutes (startTime body)) 0 0)
      <$> filter (fun d => dayIsSelected (recurrenceWeekDays body) d = true)
            (daysFrom (startTime body)
               (Z.to_nat (Z.min 100 ((e - startTime body) / msPerDay + 1)))).
Proof.
  intros Htype Hone Hdate He.
  assert (Hmax : maxSessions body = Some 100).
  { unfold maxSessions. rewrite Hdate. reflexivity. }
  assert (Hend : endDateOf body = Some e).
  { unfold endDateOf. rewrite Hdate. exact He. }
  destruct (sessionsLoop_total 366 body (startTime body) 0 []) as (out & Hout & _);
    [lia | lia |].
  exists out. split; [exact Hout |].
  set (days := (e - startTime body) / msPerDay + 1).
  assert (Hdays : (days - 1) * msPerDay <= e - startTime body < days * msPerDay).
  { subst days. unfold msPerDay. zlia. }
  apply (sessionsLoop_walks body 100 (Z.to_nat (Z.min 100 days)) Htype Hone Hmax) in Hout.
  - rewrite Hout, walkDays_starts. reflexivity.
  - lia.
  - lia.
  - lia.
  - intros i Hi. rewrite Hend. cbn [pastEndDate]. apply Z.ltb_ge.
    assert (Z.of_nat i <= days - 1) by lia. unfold msPerDay in *. nia.
  - destruct (Z.le_gt_cases 100 days) as [Hbig | Hsmall]; [left; lia |].
    right. right. rewrite Hend. cbn [pastEndDate]. apply Z.ltb_lt.
    rewrite Z.min_r by lia.
    destruct (Z.le_gt_cases 0 days); [rewrite Z2Nat.id by lia; lia |].
    replace (Z.to_nat days) with 0%nat by lia. unfold msPerDay in *. lia.
Qed.

Lemma weekly_sessions_until_end_date_witness :
  exists sessions,
    recurringSessions 366
      (mkBody (mkDate 2024 0 1 9 0) (mkDate 2024 0 1 10 0) "weekly" 1
         (Some ["segunda"; "quarta"]%string) "date" (Some (mkDate 2024 0 28 23 59))
         None) = Some sessions /\
    slotStartTime <$> sessions
    = (fun d => setHours4 d (getHours (mkDate 2024 0 1 9 0))
                  (getMinutes (mkDate 2024 0 1 9 0)) 0 0)
      <$> filter (fun d => dayIsSelected (Some ["segunda"; "quarta"]%string) d = true)
            (daysFrom (mkDate 2024 0 1 9 0)
               (Z.to_nat (Z.min 100
                  ((mkDate 2024 0 28 23 59 - mkDate 2024 0 1 9 0) / msPerDay + 1)))).
Proof.
  apply (weekly_sessions_until_end_date
           (mkBody (mkDate 2024 0 1 9 0) (mkDate 2024 0 1 10 0) "weekly" 1
              (Some ["segunda"; "quarta"]%string) "date" (Some (mkDate 2024 0 28 23 59))
              None) (mkDate 2024 0 28 23 59));
    reflexivity.
Defined.


End RecurringSessions.

(** ** More on [generateClassesFromRecurrence] *)

Section RouteClasses.

Import Routes.

Lemma classesLoop_count fuel (agendamento : Agendamento.t) c n acc out :
  0 <= n <= 101 ->
  classesLoop fuel agendamento c n acc = Some out ->
  Z.of_nat (length out)
  <= Z.of_nat (length acc)
     + Z.max 0 (classLimit (Agendamento.maxOccurrences agendamento) - n) /\
  (Agendamento.endDate agendamento = None ->
   Z.of_nat (length out)
   = Z.of_nat (length acc)
     + Z.max 0 (classLimit (Agendamento.maxOccurrences agendamento) - n)).
Proof.
  revert c n acc. induction fuel as [| fuel IH]; intros c n acc Hn Hrun;
    cbn [classesLoop] in Hrun; [discriminate |].
  unfold Controller.reachedMaxOccurrences, classLimit in *.
  destruct (Agendamento.maxOccurrences agendamento) as [m |].
  - destruct (Z.eqb_spec m 0) as [Hz | Hz]; cbn [negb andb] in Hrun.
    + destruct (pastEndDate _ c) eqn:Hpast.
      { injection Hrun as <-. split; [lia |]. intros E. rewrite E in Hpast. discriminate. }
      destruct (Z.ltb_spec 100 n); [injection Hrun as <-; lia |].
      apply IH in Hrun as [Hle Heq]; [| lia]. rewrite length_app in *. cbn in *.
      split; [lia |]. intros E. specialize (Heq E). lia.
    + destruct (Z.leb_spec m n); [injection Hrun as <-; lia |].
      destruct (pastEndDate _ c) eqn:Hpast.
      { injection Hrun as <-. split; [lia |]. intros E. rewrite E in Hpast. discriminate. }
      destruct (Z.ltb_spec 100 n); [injection Hrun as <-; lia |].
      apply IH in Hrun as [Hle Heq]; [| lia]. rewrite length_app in *. cbn in *.
      split; [lia |]. intros E. specialize (Heq E). lia.
  - destruct (pastEndDate _ c) eqn:Hpast.
    { injection Hrun as <-. split; [lia |]. intros E. rewrite E in Hpast. discriminate. }
    destruct (Z.ltb_spec 100 n); [injection Hrun as <-; lia |].
    apply IH in Hrun as [Hle Heq]; [| lia]. rewrite length_app in *. cbn in *.
    split; [lia |]. intros E. specialize (Heq E). lia.
Qed.

(** X18: [generateClassesFromRecurrence] always ends, with 101 classes at most
    and no more than [maxOccurrences]; a rule without end date gets exactly
    that many, whatever its type and interval. *)
Theorem route_classes_count (agendamento : Agendamento.t) :
  exists classes,
    generateClassesFromRecurrence 102 agendamento = Some classes /\
    Z.of_nat (length classes) <= classLimit (Agendamento.maxOccurrences agendamento) /\
    (Agendamento.endDate agendamento = None ->
     Z.of_nat (length classes) = classLimit (Agendamento.maxOccurrences agendamento)).
Proof.
  destruct (classesLoop_terminates 102 agendamento (Agendamento.startDate agendamento) 0 [])
    as (classes & Hclasses); [cbn; lia |].
  exists classes. split; [exact Hclasses |].
  apply classesLoop_count in Hclasses as [Hle Heq]; [| lia].
  assert (0 <= classLimit (Agendamento.maxOccurrences agendamento)).
  { unfold classLimit. destruct (Agendamento.maxOccurrences agendamento) as [m |]; [| lia].
    destruct (m =? 0); lia. }
  cbn [length] in *. split; [lia |]. intros E. specialize (Heq E). lia.
Qed.

Lemma classesLoop_steps fuel (agendamento : Agendamento.t) step base j n acc out :
  (forall c, advance (Agendamento.regras agendamento) c = c + step * msPerDay) ->
  classesLoop fuel agendamento (base + Z.of_nat j * step * msPerDay) n acc = Some out ->
  exists k,
    out = acc ++ map (fun i => classAt agendamento (base + Z.of_nat (j + i) * step * msPerDay))
                   (seq 0 k).
Proof.
  intros Hadv. revert j n acc.
  induction fuel as [| fuel IH]; intros j n acc Hrun;
    cbn [classesLoop] in Hrun; [discriminate |].
  destruct (Controller.reachedMaxOccurrences _ n).
  { injection Hrun as <-. exists 0%nat. cbn. rewrite app_nil_r. reflexivity. }
  destruct (pastEndDate _ _).
  { injection Hrun as <-. exists 0%nat. cbn. rewrite app_nil_r. reflexivity. }
  destruct (100 <? n).
  { injection Hrun as <-. exists 0%nat. cbn. rewrite app_nil_r. reflexivity. }
  rewrite Hadv in Hrun.
  replace (base + Z.of_nat j * step * msPerDay + step * msPerDay)
    with (base + Z.of_nat (S j) * step * msPerDay) in Hrun by lia.
  apply IH in Hrun as (k & ->). exists (S k). rewrite <- app_assoc. f_equal.
  cbn [seq map app]. rewrite Nat.add_0_r. f_equal.
  rewrite <- seq_shift, map_map. apply map_ext. intros i.
  replace (S j + i)%nat with (j + S i)%nat by lia. reflexivity.
Qed.

(** X19: In [generateClassesFromRecurrence] the list of weekdays of a weekly rule
    has no effect: the classes are [7 * interval] days apart from the start
    date on, all on its weekday. *)
Theorem route_weekly_classes_ignore_week_days fuel (agendamento : Agendamento.t)
    classes i a :
  type (Agendamento.regras agendamento) = weekly ->
  generateClassesFromRecurrence fuel agendamento = Some classes ->
  classes !! i = Some a ->
  Aula.startTime a
  = Agendamento.startDate agendamento
    + Z.of_nat i * (7 * interval (Agendamento.regras agendamento)) * msPerDay /\
  getDay (Aula.startTime a) = getDay (Agendamento.startDate agendamento).
Proof.
  intros Htype Hrun Hi. unfold generateClassesFromRecurrence in Hrun.
  set (s := Agendamento.startDate agendamento) in *.
  set (k := interval (Agendamento.regras agendamento)) in *.
  replace s with (s + Z.of_nat 0 * (7 * k) * msPerDay) in Hrun at 1 by lia.
  apply classesLoop_steps in Hrun as (len & Hout).
  - rewrite Hout, app_nil_l in Hi.
    change (map ?f ?l) with (f <$> l) in Hi. rewrite list_lookup_fmap in Hi.
    destruct (seq 0 len !! i) as [x |] eqn:Hx; [| discriminate].
    apply lookup_seq in Hx as [-> _]. injection Hi as <-.
    cbn [classAt Aula.startTime Nat.add]. split; [reflexivity |].
    unfold getDay. rewrite WeekDay_add_days. pose proof (WeekDay_range s). zlia.
  - intros c. unfold advance. rewrite Htype. fold k.
    rewrite setDate_getDate_add. lia.
Qed.

Lemma route_weekly_classes_ignore_week_days_witness :
  Aula.startTime (classAt (Agendamento.mk 1 Sample.mondayWednesdayRule) (mkDate 2024 0 8 9 0))
  = Agendamento.startDate (Agendamento.mk 1 Sample.mondayWednesdayRule)
    + Z.of_nat 1 * (7 * interval (Agendamento.regras
                                    (Agendamento.mk 1 Sample.mondayWednesdayRule)))
      * msPerDay /\
  getDay (Aula.startTime
            (classAt (Agendamento.mk 1 Sample.mondayWednesdayRule) (mkDate 2024 0 8 9 0)))
  = getDay (Agendamento.startDate (Agendamento.mk 1 Sample.mondayWednesdayRule)).
Proof.
  apply (route_weekly_classes_ignore_week_days 102
           (Agendamento.mk 1 Sample.mondayWednesdayRule)
           (map (classAt (Agendamento.mk 1 Sample.mondayWednesdayRule))
              [mkDate 2024 0 1 9 0; mkDate 2024 0 8 9 0; mkDate 2024 0 15 9 0;
               mkDate 2024 0 22 9 0])
           1%nat).
  - reflexivity.
  - vm_compute. reflexivity.
  - reflexivity.
Defined.

(** X20: A rule whose type is none of the four the [switch] names never moves
    the cursor: every class is a copy of the first. *)
Theorem route_other_type_repeats_first_class fuel (agendamento : Agendamento.t) classes :
  type (Agendamento.regras agendamento) = custom ->
  generateClassesFromRecurrence fuel agendamento = Some classes ->
  Forall (fun a => a = classAt agendamento (Agendamento.startDate agendamento)) classes.
Proof.
  intros Htype Hrun. unfold generateClassesFromRecurrence in Hrun.
  set (s := Agendamento.startDate agendamento) in *.
  replace s with (s + Z.of_nat 0 * 0 * msPerDay) in Hrun at 1 by lia.
  apply classesLoop_steps in Hrun as (len & ->).
  - rewrite app_nil_l. apply Forall_forall. intros a Ha.
    change (map ?f ?l) with (f <$> l) in Ha. apply list_elem_of_fmap in Ha as (i & -> & _).
    f_equal. lia.
  - intros c. unfold advance. rewrite Htype. lia.
Qed.

Lemma route_other_type_repeats_first_class_witness :
  Forall (fun a => a = classAt (Agendamento.mk 1 (Sample.rule (mkRegras custom 1 None)
                                                    (mkDate 2024 0 2 9 0) None (Some 3)))
                         (mkDate 2024 0 2 9 0))
    (map (classAt (Agendamento.mk 1 (Sample.rule (mkRegras custom 1 None)
                                       (mkDate 2024 0 2 9 0) None (Some 3))))
       [mkDate 2024 0 2 9 0; mkDate 2024 0 2 9 0; mkDate 2024 0 2 9 0]).
Proof.
  apply (route_other_type_repeats_first_class 102
           (Agendamento.mk 1 (Sample.rule (mkRegras custom 1 None)
                                (mkDate 2024 0 2 9 0) None (Some 3)))).
  - reflexivity.
  - vm_compute. reflexivity.
Defined.

End RouteClasses.

(** ** More on [POST /api/sessions/check-conflicts] *)

Section ConflictCheckReach.

Import CheckConflicts.









End ConflictCheckReach.

(** ** More on the handlers of newScheduling.controller.ts *)

Section HandlerProperties.

Import Storage Handlers.

Context {Conflict : Type}.
Variable check : Store -> Z -> Z -> Z -> Z -> option Z -> option Conflict.

(** X22: [checkConflicts] and [updateClass] agree: asked about moving a stored
    class to a new window, with the class itself excluded, the first reports
    a conflict exactly when the second rejects the move, and with the same
    conflict; a move it clears is carried out. *)
Theorem conflict_check_agrees_with_update st aulaId a s e u :
  aulaId <> 0 ->
  getAulaById st aulaId = Some a ->
  Aula.professorId a <> 0 ->
  Aula.studentId a <> 0 ->
  AulaUpdate.professorId u = None ->
  AulaUpdate.studentId u = None ->
  AulaUpdate.startTime u = Some s ->
  AulaUpdate.endTime u = Some e ->
  match ConflictHandler.checkConflicts check st
          (ConflictHandler.mkBody (Some (Aula.professorId a)) (Some (Aula.studentId a))
             (Some s) (Some e) (Some aulaId)) with
  | ConflictHandler.Json hasConflict (Some conflict) =>
      hasConflict = true /\
      updateClass check st (Some aulaId) (Some u) = (st, UpdateConflict conflict)
  | ConflictHandler.Json hasConflict None =>
      hasConflict = false /\
      exists st' a',
        updateClass check st (Some aulaId) (Some u) = (st', Updated (Some a')) /\
        getAulaById st' aulaId = Some a' /\
        Aula.startTime a' = s /\ Aula.endTime a' = e
  | ConflictHandler.BadRequest => False
  end.
Proof.
  intros Hid Hget Hprof Hstud Hup Hus Hs He.
  unfold ConflictHandler.checkConflicts, ConflictHandler.truthy.
  cbn [ConflictHandler.professorId ConflictHandler.studentId ConflictHandler.startTime
       ConflictHandler.endTime ConflictHandler.excludeAulaId].
  destruct (Z.eqb_spec (Aula.professorId a) 0) as [? | _]; [contradiction |].
  destruct (Z.eqb_spec (Aula.studentId a) 0) as [? | _]; [contradiction |].
  destruct (Z.eqb_spec aulaId 0) as [? | _]; [contradiction |].
  assert (Htouch : touchesTime u = true).
  { unfold touchesTime. rewrite Hs. rewrite bool_decide_eq_true_2 by eauto. reflexivity. }
  unfold updateClass. rewrite Hget, Htouch, Hup, Hus, Hs, He.
  cbn [orElse default from_option id].
  destruct (check st _ _ s e (Some aulaId)) as [c |].
  - split; [apply bool_decide_eq_true_2; eauto | reflexivity].
  - split; [apply bool_decide_eq_false_2; intros [x Hx]; discriminate Hx |].
    pose proof (getAulaById_updateAula st aulaId (markModified a u) a Hget) as Hupd.
    unfold updateAula in *. unfold getAulaById in Hget.
    destruct (aulas st !! aulaId) as [row |]; [| discriminate].
    cbn in Hget. injection Hget as <-.
    eexists _, _. split; [reflexivity |]. split; [exact Hupd |].
    cbn. rewrite Hs, He. auto.
Qed.

(** X23: An update that carries neither a start nor an end time goes through
    without a conflict check, whatever the check would say, also when it
    moves the class to another professor; the class is not marked as
    modified by it. *)
Theorem update_without_times_is_unchecked st aulaId a u :
  getAulaById st aulaId = Some a ->
  AulaUpdate.startTime u = None ->
  AulaUpdate.endTime u = None ->
  exists st',
    updateClass check st (Some aulaId) (Some u)
    = (st', Updated (Some (Aula.mk aulaId (merge u a)))) /\
    getAulaById st' aulaId = Some (Aula.mk aulaId (merge u a)) /\
    Aula.professorId (merge u a) = default (Aula.professorId a) (AulaUpdate.professorId u) /\
    Aula.isModified (merge u a) = default (Aula.isModified a) (AulaUpdate.isModified u).
Proof.
  intros Hget Hs He. unfold updateClass. rewrite Hget.
  assert (Htouch : touchesTime u = false).
  { unfold touchesTime. rewrite Hs, He.
    rewrite bool_decide_eq_false_2 by (intros [x Hx]; discriminate Hx). reflexivity. }
  rewrite Htouch.
  pose proof (getAulaById_updateAula st aulaId u a Hget) as Hupd.
  unfold updateAula in *. unfold getAulaById in Hget.
  destruct (aulas st !! aulaId) as [row |]; [| discriminate].
  cbn in Hget. injection Hget as <-.
  eexists. split; [reflexivity |]. split; [exact Hupd |]. split; reflexivity.
Qed.

(** The conflicts of a batch, as the loop collects them. *)
Lemma collectConflicts_omap st aulas :
  collectConflicts check st aulas []
  = omap (fun aula => pair (Aula.startTime aula) <$> conflictOf check st aula) aulas.
Proof.
  induction aulas as [| aula rest IH]; [reflexivity |].
  cbn [collectConflicts omap list_omap]. unfold conflictOf at 1.
  destruct (check st _ _ _ _ None) as [c |]; cbn [fmap option_fmap option_map].
  - rewrite collectConflicts_app, IH. reflexivity.
  - exact IH.
Qed.

(** X24: The answer to a rejected rule lists every generated class that has a
    conflict, with its start, in the order of the classes. *)
Theorem rejection_lists_every_conflict fuel now st validatedData st' conflicts :
  createRecurrentScheduling check fuel now st (Some validatedData)
  = Some (st', CreateConflict conflicts) ->
  exists aulas,
    Controller.generateRecurrentClasses fuel now
      (snd (createAgendamentoRecorrente st validatedData)) = Some aulas /\
    conflicts
    = omap (fun aula => pair (Aula.startTime aula) <$> conflictOf check st' aula) aulas.
Proof.
  intros Hrun. unfold createRecurrentScheduling in Hrun.
  destruct (getUserById st _) as [professor |]; [| discriminate].
  destruct (negb _); [discriminate |].
  destruct (getLeadById st _) as [student |]; [| discriminate].
  destruct (createAgendamentoRecorrente st validatedData) as [st1 agendamento].
  cbn [snd].
  destruct (Controller.generateRecurrentClasses _ _ _) as [batch |]; [| discriminate].
  exists batch. split; [reflexivity |].
  rewrite collectConflicts_omap in Hrun.
  destruct (omap _ batch) as [| c cs] eqn:Hc.
  - destruct (createMultipleAulas _ _). discriminate.
  - injection Hrun as <- <-. symmetry. exact Hc.
Qed.

(** X25: What a created rule leaves in the store: the rule under its id, and the
    classes of the response, each stored under its own id and carrying the
    rule's id, professor, student, place, price, service and notes, with
    status [agendado] and not marked as modified. *)
Theorem created_classes_carry_the_rule fuel now st body st' agendamento createdAulas :
  createRecurrentScheduling check fuel now st body
  = Some (st', Created agendamento createdAulas) ->
  body = Some (Agendamento.dados agendamento) /\
  agendamentosRecorrentes st' !! Agendamento.id agendamento
  = Some (Agendamento.dados agendamento) /\
  Forall (fun a : Aula.t =>
    aulas st' !! Aula.id a = Some (Aula.dados a) /\
    Aula.agendamentoRecorrenteId a = Some (Agendamento.id agendamento) /\
    Aula.professorId a = Agendamento.professorId agendamento /\
    Aula.studentId a = Agendamento.studentId agendamento /\
    Aula.location a = Agendamento.location agendamento /\
    Aula.value a = Agendamento.value agendamento /\
    Aula.service a = Agendamento.service agendamento /\
    Aula.notes a = Agendamento.notes agendamento /\
    Aula.status a = agendado /\
    Aula.isModified a = false) createdAulas.
Proof.
  intros Hrun. unfold createRecurrentScheduling in Hrun.
  destruct body as [validatedData |]; [| discriminate].
  destruct (getUserById st _) as [professor |]; [| discriminate].
  destruct (negb _); [discriminate |].
  destruct (getLeadById st _) as [student |]; [| discriminate].
  unfold createAgendamentoRecorrente in Hrun. cbv zeta in Hrun.
  set (st1 := {| users := users st; leads := leads st;
                 agendamentosRecorrentes := _; aulas := aulas st;
                 nextAgendamentoId := _; nextAulaId := nextAulaId st |}) in Hrun.
  destruct (Controller.generateRecurrentClasses _ _ _) as [batch |] eqn:Hgen;
    [| discriminate].
  destruct (collectConflicts _ _ _ _); [| discriminate].
  unfold createMultipleAulas in Hrun.
  pose proof (insertAulas_spec (aulas st1) (nextAulaId st1) batch) as (Hd & _ & Hall).
  destruct (insertAulas (aulas st1) (nextAulaId st1) batch) as [[tbl next] created].
  injection Hrun as <- <- <-. cbn [fst snd] in *.
  split; [reflexivity |]. split; [apply lookup_insert_eq |].
  apply generateLoop_cursors in Hgen as (cursors & Hbatch & _); [| reflexivity].
  rewrite app_nil_l in Hbatch.
  apply Forall_forall. intros a Ha.
  rewrite Forall_forall in Hall. destruct (Hall a Ha) as [_ Hstored].
  split; [exact Hstored |].
  assert (Hin : Aula.dados a ∈ batch).
  { rewrite <- Hd. apply list_elem_of_fmap. exists a. auto. }
  rewrite Hbatch in Hin. change (map ?f ?l) with (f <$> l) in Hin.
  apply list_elem_of_fmap in Hin as (c & -> & _). cbn. repeat split; reflexivity.
Qed.

End HandlerProperties.

Lemma conflict_check_agrees_with_update_witness :
  match ConflictHandler.checkConflicts Storage.specCheckSchedulingConflicts Sample.store
          (ConflictHandler.mkBody
             (Some (Aula.professorId
                      (Aula.mk 1 (Sample.aulaOn 10 (mkDate 2024 0 2 9 0)
                                    (mkDate 2024 0 2 10 0) agendado))))
             (Some (Aula.studentId
                      (Aula.mk 1 (Sample.aulaOn 10 (mkDate 2024 0 2 9 0)
                                    (mkDate 2024 0 2 10 0) agendado))))
             (Some (mkDate 2024 0 2 14 30)) (Some (mkDate 2024 0 2 15 30)) (Some 1)) with
  | ConflictHandler.Json hasConflict (Some conflict) =>
      hasConflict = true /\
      Handlers.updateClass Storage.specCheckSchedulingConflicts Sample.store (Some 1)
        (Some (Sample.moveTo (mkDate 2024 0 2 14 30) (mkDate 2024 0 2 15 30)))
      = (Sample.store, Handlers.UpdateConflict conflict)
  | ConflictHandler.Json hasConflict None =>
      hasConflict = false /\
      exists st' a',
        Handlers.updateClass Storage.specCheckSchedulingConflicts Sample.store (Some 1)
          (Some (Sample.moveTo (mkDate 2024 0 2 14 30) (mkDate 2024 0 2 15 30)))
        = (st', Handlers.Updated (Some a')) /\
        Storage.getAulaById st' 1 = Some a' /\
        Aula.startTime a' = mkDate 2024 0 2 14 30 /\
        Aula.endTime a' = mkDate 2024 0 2 15 30
  | ConflictHandler.BadRequest => False
  end.
Proof.
  apply (conflict_check_agrees_with_update Storage.specCheckSchedulingConflicts
           Sample.store 1
           (Aula.mk 1 (Sample.aulaOn 10 (mkDate 2024 0 2 9 0) (mkDate 2024 0 2 10 0)
                         agendado))
           (mkDate 2024 0 2 14 30) (mkDate 2024 0 2 15 30)
           (Sample.moveTo (mkDate 2024 0 2 14 30) (mkDate 2024 0 2 15 30))).
  - discriminate.
  - vm_compute. reflexivity.
  - discriminate.
  - discriminate.
  - reflexivity.
  - reflexivity.
  - reflexivity.
  - reflexivity.
Defined.

Lemma update_without_times_is_unchecked_witness :
  exists st',
    Handlers.updateClass (fun _ _ _ _ _ _ => Some tt) Sample.store (Some 1)
      (Some (AulaUpdate.mk (Some 11) None None None None None None None None None None None))
    = (st',
       Handlers.Updated
         (Some (Aula.mk 1
            (Storage.merge
               (AulaUpdate.mk (Some 11) None None None None None None None None None None
                  None)
               (Sample.aulaOn 10 (mkDate 2024 0 2 9 0) (mkDate 2024 0 2 10 0) agendado))))) /\
    Storage.getAulaById st' 1
    = Some (Aula.mk 1
        (Storage.merge
           (AulaUpdate.mk (Some 11) None None None None None None None None None None None)
           (Sample.aulaOn 10 (mkDate 2024 0 2 9 0) (mkDate 2024 0 2 10 0) agendado))) /\
    Aula.professorId
      (Storage.merge
         (AulaUpdate.mk (Some 11) None None None None None None None None None None None)
         (Sample.aulaOn 10 (mkDate 2024 0 2 9 0) (mkDate 2024 0 2 10 0) agendado))
    = default 10 (Some 11) /\
    Aula.isModified
      (Storage.merge
         (AulaUpdate.mk (Some 11) None None None None None None None None None None None)
         (Sample.aulaOn 10 (mkDate 2024 0 2 9 0) (mkDate 2024 0 2 10 0) agendado))
    = default false None.
Proof.
  apply (update_without_times_is_unchecked (fun _ _ _ _ _ _ => Some tt) Sample.store 1
           (Aula.mk 1 (Sample.aulaOn 10 (mkDate 2024 0 2 9 0) (mkDate 2024 0 2 10 0)
                         agendado))
           (AulaUpdate.mk (Some 11) None None None None None None None None None None None)).
  - vm_compute. reflexivity.
  - reflexivity.
  - reflexivity.
Defined.

Lemma rejection_lists_every_conflict_witness :
  exists aulas,
    Controller.generateRecurrentClasses 50 Sample.now
      (snd (Storage.createAgendamentoRecorrente Sample.store Sample.clashingRule))
    = Some aulas /\
    [(mkDate 2024 0 2 14 30,
      Aula.mk 2 (Sample.aulaOn 10 (mkDate 2024 0 2 14 0) (mkDate 2024 0 2 15 0) agendado))]
    = omap (fun aula =>
              pair (Aula.startTime aula)
                <$> Handlers.conflictOf Storage.specCheckSchedulingConflicts
                      (fst (Storage.createAgendamentoRecorrente Sample.store
                              Sample.clashingRule)) aula) aulas.
Proof.
  apply (rejection_lists_every_conflict Storage.specCheckSchedulingConflicts 50 Sample.now
           Sample.store Sample.clashingRule).
  vm_compute. reflexivity.
Defined.

Lemma created_classes_carry_the_rule_witness :
  exists st' agendamento createdAulas,
    Handlers.createRecurrentScheduling Storage.specCheckSchedulingConflicts 50 Sample.now
      Sample.store (Some Sample.freeRule)
    = Some (st', Handlers.Created agendamento createdAulas) /\
    Some Sample.freeRule = Some (Agendamento.dados agendamento) /\
    Storage.agendamentosRecorrentes st' !! Agendamento.id agendamento
    = Some (Agendamento.dados agendamento) /\
    Forall (fun a : Aula.t =>
      Storage.aulas st' !! Aula.id a = Some (Aula.dados a) /\
      Aula.agendamentoRecorrenteId a = Some (Agendamento.id agendamento) /\
      Aula.professorId a = Agendamento.professorId agendamento /\
      Aula.studentId a = Agendamento.studentId agendamento /\
      Aula.location a = Agendamento.location agendamento /\
      Aula.value a = Agendamento.value agendamento /\
      Aula.service a = Agendamento.service agendamento /\
      Aula.notes a = Agendamento.notes agendamento /\
      Aula.status a = agendado /\
      Aula.isModified a = false) createdAulas.
Proof.
  do 3 eexists. split; [vm_compute; reflexivity |].
  eapply (created_classes_carry_the_rule Storage.specCheckSchedulingConflicts 50 Sample.now
            Sample.store).
  vm_compute. reflexivity.
Defined.

(** ** The four-week generation of the second [POST /api/sessions] *)

Section FourWeekSessions.

Import FourWeeks.

Lemma moveToDay_days t week dayIndex :
  moveToDay t week dayIndex = t + (week * 7 + dayIndex - getDay t) * msPerDay.
Proof.
  unfold moveToDay.
  replace (getDate t + week * 7 + (dayIndex - getDay t))
    with (getDate t + (week * 7 + dayIndex - getDay t)) by lia.
  apply setDate_getDate_add.
Qed.

Lemma getDay_moveToDay t week dayIndex :
  0 <= dayIndex < 7 -> getDay (moveToDay t week dayIndex) = dayIndex.
Proof.
  intros H. rewrite moveToDay_days. unfold getDay. rewrite WeekDay_add_days.
  pose proof (WeekDay_range t). zlia.
Qed.

Lemma indexOf_range names name : -1 <= indexOf names name < Z.of_nat (length names).
Proof.
  induction names as [| n rest IH]; cbn [indexOf length]; [lia |].
  destruct (String.eqb n name); [lia |].
  destruct (Z.ltb_spec (indexOf rest name) 0); lia.
Qed.

Lemma indexOf_lookup names name :
  0 <= indexOf names name -> names !! Z.to_nat (indexOf names name) = Some name.
Proof.
  induction names as [| n rest IH]; cbn [indexOf]; [lia |].
  destruct (String.eqb_spec n name) as [-> | _]; [reflexivity |].
  destruct (Z.ltb_spec (indexOf rest name) 0); [lia |]. intros _.
  rewrite Z2Nat.inj_add by lia. rewrite Nat.add_comm. cbn. apply IH. lia.
Qed.

(** What one week's loop adds: a session per name, in order. *)
Lemma daysLoop_app returned startTime endTime week weekDays sessions :
  exists added,
    daysLoop returned startTime endTime week weekDays sessions = sessions ++ added /\
    length added = length weekDays /\
    id <$> added = returned <$> seq (length sessions) (length weekDays) /\
    Forall (fun s =>
      (exists dayName,
         dayName ∈ weekDays /\
         FourWeeks.startTime s = moveToDay startTime week (indexOf dayNames dayName) /\
         FourWeeks.endTime s = moveToDay endTime week (indexOf dayNames dayName)) /\
      (week = 0 \/ sessions <> [] ->
       parentSessionId s = if week =? 0 then None else firstId sessions))
      added.
Proof.
  revert sessions. induction weekDays as [| dayName rest IH]; intros sessions;
    cbn [daysLoop].
  - exists []. rewrite app_nil_r. repeat split. constructor.
  - destruct (IH (sessions ++
        [{| id := returned (length sessions);
            FourWeeks.startTime := moveToDay startTime week (indexOf dayNames dayName);
            FourWeeks.endTime := moveToDay endTime week (indexOf dayNames dayName);
            parentSessionId := if week =? 0 then None else firstId sessions |}]))
      as (added & -> & Hlen & Hids & Hall).
    eexists (_ :: added). rewrite <- app_assoc. split; [reflexivity |].
    split; [cbn; lia |]. split.
    { cbn [fmap list_fmap length seq id]. f_equal.
      rewrite Hids, length_app. cbn [length]. rewrite Nat.add_1_r. reflexivity. }
    constructor.
    + split; [| reflexivity]. exists dayName. split; [apply list_elem_of_here |]. auto.
    + eapply Forall_impl; [exact Hall |]. cbn.
      intros s [(name & Hin & Hs & He) Hp]. split.
      * exists name. split; [apply list_elem_of_further, Hin |]. auto.
      * intros Hcase. rewrite Hp.
        -- destruct (Z.eqb_spec week 0) as [_ | Hweek]; [reflexivity |].
           destruct Hcase as [-> | Hne]; [contradiction |].
           destruct sessions; [contradiction | reflexivity].
        -- destruct Hcase as [-> | Hne]; [left; reflexivity |].
           right. destruct sessions; discriminate.
Qed.

Lemma weeksLoop_sessions returned startTime endTime weeks weekDays sessions :
  exists added,
    weeksLoop returned startTime endTime weeks weekDays sessions = sessions ++ added /\
    length added = (length weeks * length weekDays)%nat /\
    Forall (fun s =>
      exists week dayName,
        week ∈ weeks /\ dayName ∈ weekDays /\
        FourWeeks.startTime s = moveToDay startTime week (indexOf dayNames dayName) /\
        FourWeeks.endTime s = moveToDay endTime week (indexOf dayNames dayName))
      added.
Proof.
  revert sessions. induction weeks as [| week rest IH]; intros sessions; cbn [weeksLoop].
  - exists []. rewrite app_nil_r. repeat split. constructor.
  - destruct (daysLoop_app returned startTime endTime week weekDays sessions)
      as (first & -> & Hlen1 & _ & Hall1).
    destruct (IH (sessions ++ first)) as (added & -> & Hlen & Hall).
    exists (first ++ added). rewrite app_assoc. split; [reflexivity |].
    split; [rewrite length_app; cbn; lia |].
    apply Forall_app. split.
    + eapply Forall_impl; [exact Hall1 |]. cbn.
      intros s [(name & Hin & Hs & He) _]. exists week, name.
      split; [apply list_elem_of_here |]. auto.
    + eapply Forall_impl; [exact Hall |]. cbn.
      intros s (w & name & Hw & Hin & Hs & He). exists w, name.
      split; [apply list_elem_of_further, Hw |]. auto.
Qed.

(** X26: The recurring branch yields four sessions per listed weekday. Each is
    on the weekday named, in the week of the request's start (from its
    Sunday on) or one of the three after it, at the start's time of day:
    in the first week, a weekday earlier in the week than the start gives a
    session before the start. The end is moved by its own weekday, so the
    length of the session is kept when start and end are on the same
    weekday. *)
Theorem four_weeks_on_named_days returned startTime endTime weekDays :
  length (fourWeeks returned startTime endTime weekDays) = (4 * length weekDays)%nat /\
  Forall (fun s =>
    exists week dayName dayIndex,
      0 <= week < 4 /\ dayName ∈ weekDays /\
      dayIndex = indexOf dayNames dayName /\
      FourWeeks.startTime s
      = startTime + (week * 7 + dayIndex - getDay startTime) * msPerDay /\
      FourWeeks.endTime s
      = endTime + (week * 7 + dayIndex - getDay endTime) * msPerDay /\
      (0 <= dayIndex ->
       dayNames !! Z.to_nat (getDay (FourWeeks.startTime s)) = Some dayName) /\
      (getDay endTime = getDay startTime ->
       FourWeeks.endTime s - FourWeeks.startTime s = endTime - startTime))
    (fourWeeks returned startTime endTime weekDays).
Proof.
  unfold fourWeeks.
  destruct (weeksLoop_sessions returned startTime endTime [0; 1; 2; 3] weekDays [])
    as (added & -> & Hlen & Hall).
  rewrite app_nil_l. split; [rewrite Hlen; reflexivity |].
  eapply Forall_impl; [exact Hall |]. cbn.
  intros s (week & name & Hw & Hin & Hs & He).
  exists week, name, (indexOf dayNames name).
  split.
  { repeat (apply elem_of_cons in Hw as [-> | Hw]; [lia |]).
    apply elem_of_nil in Hw. contradiction. }
  split; [exact Hin |]. split; [reflexivity |].
  rewrite Hs, He, !moveToDay_days. split; [reflexivity |]. split; [reflexivity |].
  split.
  - intros Hidx.
    assert (Hr : 0 <= indexOf dayNames name < 7).
    { pose proof (indexOf_range dayNames name) as Hr. cbn [length dayNames] in Hr. lia. }
    rewrite <- moveToDay_days. rewrite (getDay_moveToDay _ _ _ Hr).
    apply indexOf_lookup, Hidx.
  - intros Hsame. rewrite Hsame. lia.
Qed.

Lemma firstId_app sessions more :
  sessions <> [] -> firstId (sessions ++ more) = firstId sessions.
Proof. destruct sessions; [contradiction | reflexivity]. Qed.

(** X27: The sessions get the ids of the inserts in order. Those of the first
    week have no parent; those of the three later weeks have the id of the
    very first session as parent, or none when that id is zero. *)
Theorem four_weeks_parents returned startTime endTime weekDays :
  id <$> fourWeeks returned startTime endTime weekDays
  = returned <$> seq 0 (4 * length weekDays) /\
  forall i s,
    fourWeeks returned startTime endTime weekDays !! i = Some s ->
    parentSessionId s
    = if bool_decide (i < length weekDays)%nat then None
      else if returned 0%nat =? 0 then None else Some (returned 0%nat).
Proof.
  unfold fourWeeks. cbn [weeksLoop].
  destruct (daysLoop_app returned startTime endTime 0 weekDays [])
    as (a0 & -> & Hlen0 & Hids0 & Hall0).
  destruct (daysLoop_app returned startTime endTime 1 weekDays ([] ++ a0))
    as (a1 & -> & Hlen1 & Hids1 & Hall1).
  destruct (daysLoop_app returned startTime endTime 2 weekDays (([] ++ a0) ++ a1))
    as (a2 & -> & Hlen2 & Hids2 & Hall2).
  destruct (daysLoop_app returned startTime endTime 3 weekDays ((([] ++ a0) ++ a1) ++ a2))
    as (a3 & -> & Hlen3 & Hids3 & Hall3).
  rewrite app_nil_l in *. set (n := length weekDays) in *.
  rewrite !length_app, Hlen0, ?Hlen1, ?Hlen2 in *. cbn [length] in Hids0.
  split.
  { rewrite !fmap_app, Hids0, Hids1, Hids2, Hids3, <- !fmap_app. f_equal.
    replace (4 * n)%nat with (n + (n + (n + n)))%nat by lia.
    rewrite !seq_app, <- !app_assoc. cbn [Nat.add]. repeat f_equal; lia. }
  destruct a0 as [| first a0].
  { cbn in Hlen0. assert (Hnil : forall l : list Session, length l = n -> l = []).
    { intros l Hl. rewrite <- Hlen0 in Hl. destruct l; [reflexivity | discriminate]. }
    rewrite (Hnil a1 Hlen1), (Hnil a2 Hlen2), (Hnil a3 Hlen3).
    intros i s H. discriminate H. }
  assert (Hfirst : firstId (first :: a0)
                   = if returned 0%nat =? 0 then None else Some (returned 0%nat)).
  { rewrite <- Hlen0 in Hids0. cbn in Hids0. injection Hids0 as Hid _.
    cbn [firstId]. rewrite Hid. reflexivity. }
  assert (Hne : first :: a0 <> []) by discriminate.
  assert (Hlater : forall week more added,
    week <> 0 ->
    Forall (fun s =>
      (exists dayName,
         dayName ∈ weekDays /\
         FourWeeks.startTime s = moveToDay startTime week (indexOf dayNames dayName) /\
         FourWeeks.endTime s = moveToDay endTime week (indexOf dayNames dayName)) /\
      (week = 0 \/ (first :: a0) ++ more <> [] ->
       parentSessionId s = if week =? 0 then None else firstId ((first :: a0) ++ more)))
      added ->
    Forall (fun s => parentSessionId s
                     = if returned 0%nat =? 0 then None else Some (returned 0%nat)) added).
  { intros week more added Hweek Hall. eapply Forall_impl; [exact Hall |]. cbn beta.
    intros s [_ Hp]. rewrite Hp by (right; discriminate).
    destruct (Z.eqb_spec week 0); [contradiction |]. exact Hfirst. }
  rewrite <- (app_nil_r (first :: a0)) in Hall1.
  apply (Hlater 1 [] a1 ltac:(lia)) in Hall1.
  apply (Hlater 2 a1 a2 ltac:(lia)) in Hall2.
  rewrite <- app_assoc in Hall3. apply (Hlater 3 (a1 ++ a2) a3 ltac:(lia)) in Hall3.
  assert (Hzero : Forall (fun s => parentSessionId s = None) (first :: a0)).
  { eapply Forall_impl; [exact Hall0 |]. cbn beta. intros s [_ Hp].
    apply Hp. left. reflexivity. }
  intros i s Hi. rewrite <- !app_assoc in Hi.
  apply lookup_app_Some in Hi as [Hi | [Hge Hi]].
  - rewrite bool_decide_eq_true_2 by (apply lookup_lt_Some in Hi; lia).
    rewrite Forall_forall in Hzero. apply Hzero. eapply list_elem_of_lookup_2, Hi.
  - rewrite bool_decide_eq_false_2 by lia.
    assert (Hin : s ∈ a1 ++ a2 ++ a3) by (eapply list_elem_of_lookup_2, Hi).
    rewrite !elem_of_app in Hin. rewrite Forall_forall in Hall1, Hall2, Hall3.
    destruct Hin as [Hin | [Hin | Hin]]; auto.
Qed.


End FourWeekSessions.

(** ** The day loop of [POST /api/appointments/recurring] *)

Section RecurringAppointmentDays.

Import RecurringAppointments.

(** The loop walks the days from the start date while the cursor is not
    past the end date, and adds the appointments of each. *)
Lemma daysLoop_days fuel recurringId studentId req c acc out :
  daysLoop fuel recurringId studentId req c acc = Some out ->
  exists k,
    out = acc ++ (daysFrom c k ≫= appointmentsOn recurringId studentId req) /\
    Forall (fun d => c <= d <= endDate req) (daysFrom c k).
Proof.
  revert c acc. induction fuel as [| fuel IH]; intros c acc Hrun;
    cbn [daysLoop] in Hrun; [discriminate |].
  destruct (Z.leb_spec c (endDate req)) as [Hle | Hgt].
  - rewrite (setDate_getDate_add c 1) in Hrun.
    replace (c + 1 * msPerDay) with (c + msPerDay) in Hrun by lia.
    apply IH in Hrun as (k & -> & Hall). exists (S k).
    rewrite daysFrom_S, bind_cons, app_assoc. split; [reflexivity |].
    constructor; [lia |]. eapply Forall_impl; [exact Hall |]. cbn.
    unfold msPerDay. intros; lia.
  - injection Hrun as <-. exists 0%nat. cbn. rewrite app_nil_r. split; [reflexivity |].
    constructor.
Qed.

Lemma daysLoop_ends k fuel recurringId studentId req c acc :
  (k < fuel)%nat ->
  ((0 < k)%nat -> c + (Z.of_nat k - 1) * msPerDay <= endDate req) ->
  endDate req < c + Z.of_nat k * msPerDay ->
  daysLoop fuel recurringId studentId req c acc
  = Some (acc ++ (daysFrom c k ≫= appointmentsOn recurringId studentId req)).
Proof.
  revert fuel c acc. induction k as [| k IH]; intros fuel c acc Hfuel Hin Hout;
    (destruct fuel as [| fuel]; [lia |]); cbn [daysLoop].
  - destruct (Z.leb_spec c (endDate req)); [lia |]. cbn. rewrite app_nil_r. reflexivity.
  - destruct (Z.leb_spec c (endDate req)) as [_ | Hgt];
      [| specialize (Hin ltac:(lia)); unfold msPerDay in *; lia].
    rewrite (setDate_getDate_add c 1).
    replace (c + 1 * msPerDay) with (c + msPerDay) by lia.
    rewrite IH; [| lia | intros; specialize (Hin ltac:(lia)); lia | lia].
    rewrite daysFrom_S, bind_cons, app_assoc. reflexivity.
Qed.

(** X28: The loop always ends, and yields the appointments of every day from
    the start date to the last day on which the start's time of day is not
    past the end date, day by day. *)
Theorem appointments_day_by_day recurringId studentId req :
  generateAppointments
    (S (Z.to_nat ((endDate req - startDate req) / msPerDay + 1)))
    recurringId studentId req
  = Some (daysFrom (startDate req) (Z.to_nat ((endDate req - startDate req) / msPerDay + 1))
            ≫= appointmentsOn recurringId studentId req).
Proof.
  unfold generateAppointments.
  set (days := (endDate req - startDate req) / msPerDay + 1).
  assert (Hdays : (days - 1) * msPerDay <= endDate req - startDate req < days * msPerDay).
  { subst days. unfold msPerDay. zlia. }
  rewrite (daysLoop_ends (Z.to_nat days)); [reflexivity | lia | |].
  - intros Hpos. rewrite Z2Nat.id by lia. lia.
  - destruct (Z.le_gt_cases 0 days); [rewrite Z2Nat.id by lia; lia |].
    replace (Z.to_nat days) with 0%nat by lia. unfold msPerDay in *. lia.
Qed.

Lemma find_Some weeklySchedule d schedule :
  find weeklySchedule d = Some schedule ->
  schedule ∈ weeklySchedule /\ dayOfWeek schedule = d.
Proof.
  induction weeklySchedule as [| x rest IH]; cbn [find]; [discriminate |].
  destruct (Z.eqb_spec (dayOfWeek x) d) as [E | _].
  - intros [= <-]. split; [apply list_elem_of_here | exact E].
  - intros H. destruct (IH H) as [Hin Hd]. split; [apply list_elem_of_further, Hin | exact Hd].
Qed.

(** X29: Every appointment belongs to a time slot of the first schedule entry
    for its weekday, with the professor of that slot; it starts on a day
    from the start date to the end date, at the slot's start, and ends on
    the same day at the slot's end. *)
Theorem appointments_follow_the_schedule fuel recurringId studentId req appointments a :
  Forall (fun schedule =>
    Forall (fun profSchedule =>
      Forall (fun timeSlot =>
        0 <= startHour timeSlot < 24 /\ 0 <= startMin timeSlot < 60 /\
        0 <= endHour timeSlot < 24 /\ 0 <= endMin timeSlot < 60)
        (timeSlots profSchedule))
      (professorsSchedule schedule))
    (weeklySchedule req) ->
  generateAppointments fuel recurringId studentId req = Some appointments ->
  a ∈ appointments ->
  exists daySchedule profSchedule timeSlot,
    find (weeklySchedule req) (getDay (Aula.startTime a)) = Some daySchedule /\
    profSchedule ∈ professorsSchedule daySchedule /\
    timeSlot ∈ timeSlots profSchedule /\
    Aula.professorId a = professorId profSchedule /\
    Day (startDate req) <= Day (Aula.startTime a) <= Day (endDate req) /\
    TimeWithinDay (Aula.startTime a)
    = MakeTime (startHour timeSlot) (startMin timeSlot) 0 0 /\
    Day (Aula.endTime a) = Day (Aula.startTime a) /\
    TimeWithinDay (Aula.endTime a) = MakeTime (endHour timeSlot) (endMin timeSlot) 0 0.
Proof.
  intros Hvalid Hrun Ha. unfold generateAppointments in Hrun.
  apply daysLoop_days in Hrun as (k & -> & Hdays). rewrite app_nil_l in Ha.
  apply list_elem_of_bind in Ha as (d & Ha & Hd).
  rewrite Forall_forall in Hdays. specialize (Hdays d Hd).
  unfold appointmentsOn in Ha.
  destruct (find (weeklySchedule req) (getDay d)) as [daySchedule |] eqn:Hfind;
    [| apply elem_of_nil in Ha; contradiction].
  apply list_elem_of_bind in Ha as (prof & Ha & Hprof).
  apply list_elem_of_bind in Ha as (slot & Ha & Hslot).
  apply list_elem_of_singleton in Ha as ->.
  destruct (find_Some _ _ _ Hfind) as [Hin _].
  rewrite Forall_forall in Hvalid. specialize (Hvalid daySchedule Hin).
  rewrite Forall_forall in Hvalid. specialize (Hvalid prof Hprof).
  rewrite Forall_forall in Hvalid. destruct (Hvalid slot Hslot) as (Hsh & Hsm & Heh & Hem).
  cbn [appointmentAt Aula.startTime Aula.endTime Aula.professorId]. unfold setHours4.
  assert (Hs : 0 <= MakeTime (startHour slot) (startMin slot) 0 0 < msPerDay).
  { unfold MakeTime, msPerDay, msPerHour, msPerMinute, msPerSecond. lia. }
  assert (He : 0 <= MakeTime (endHour slot) (endMin slot) 0 0 < msPerDay).
  { unfold MakeTime, msPerDay, msPerHour, msPerMinute, msPerSecond. lia. }
  rewrite !Day_MakeDate, !TimeWithinDay_MakeDate by assumption.
  exists daySchedule, prof, slot.
  split.
  { unfold getDay, WeekDay in *. rewrite Day_MakeDate by assumption. exact Hfind. }
  repeat split; try assumption; unfold Day, msPerDay; zlia.
Qed.

Lemma appointments_follow_the_schedule_witness :
  let req :=
    mkRequest "personal" None None None (mkDate 2024 0 1 0 0) (mkDate 2024 0 7 0 0)
      [mkDaySchedule 2 [mkProfessorSchedule 10 [mkTimeSlot 9 0 10 30]]] in
  let a := appointmentAt 1 20 req (mkDate 2024 0 2 0 0)
             (mkProfessorSchedule 10 [mkTimeSlot 9 0 10 30]) (mkTimeSlot 9 0 10 30) in
  exists daySchedule profSchedule timeSlot,
    find (weeklySchedule req) (getDay (Aula.startTime a)) = Some daySchedule /\
    profSchedule ∈ professorsSchedule daySchedule /\
    timeSlot ∈ timeSlots profSchedule /\
    Aula.professorId a = professorId profSchedule /\
    Day (startDate req) <= Day (Aula.startTime a) <= Day (endDate req) /\
    TimeWithinDay (Aula.startTime a)
    = MakeTime (startHour timeSlot) (startMin timeSlot) 0 0 /\
    Day (Aula.endTime a) = Day (Aula.startTime a) /\
    TimeWithinDay (Aula.endTime a) = MakeTime (endHour timeSlot) (endMin timeSlot) 0 0.
Proof.
  cbv zeta.
  apply (appointments_follow_the_schedule 10 1 20
           (mkRequest "personal" None None None (mkDate 2024 0 1 0 0) (mkDate 2024 0 7 0 0)
              [mkDaySchedule 2 [mkProfessorSchedule 10 [mkTimeSlot 9 0 10 30]]])
           [appointmentAt 1 20
              (mkRequest "personal" None None None (mkDate 2024 0 1 0 0)
                 (mkDate 2024 0 7 0 0)
                 [mkDaySchedule 2 [mkProfessorSchedule 10 [mkTimeSlot 9 0 10 30]]])
              (mkDate 2024 0 2 0 0)
              (mkProfessorSchedule 10 [mkTimeSlot 9 0 10 30]) (mkTimeSlot 9 0 10 30)]).
  - repeat constructor; cbn; lia.
  - vm_compute. reflexivity.
  - apply list_elem_of_here.
Defined.

End RecurringAppointmentDays.

(** ** [POST /api/professors/availability] *)

Section ProfessorAvailability.

Import Availability.

(** X30: The query counts a class when its clock window holds the requested
    start minute or the requested end minute. A class that begins after the
    requested start and ends before the requested end is not counted: a
    professor whose classes all lie strictly inside the requested window is
    reported as available. *)
Theorem availability_misses_classes_inside_window aulas professorId dayOfWeek
    startTime endTime startDate endDate :
  professorId <> 0 ->
  Forall (fun aula =>
    clockMinutes startTime < minuteOfDay (Aula.startTime aula) /\
    minuteOfDay (Aula.endTime aula) < clockMinutes endTime) aulas ->
  checkAvailability aulas
    (mkBody (Some professorId) (Some dayOfWeek) (Some startTime) (Some endTime)
       (Some startDate) (Some endDate))
  = Json true 0.
Proof.
  intros Hid Hall. unfold checkAvailability.
  cbn [Availability.professorId Availability.dayOfWeek Availability.startTime
       Availability.endTime Availability.startDate Availability.endDate].
  destruct (Z.eqb_spec professorId 0) as [? | _]; [contradiction |].
  cbv zeta.
  replace (filter _ aulas) with (@nil Aula.Insert); [reflexivity |].
  symmetry. induction Hall as [| aula rest [Hs He] _ IH]; [reflexivity |].
  rewrite filter_cons, IH. rewrite decide_False; [reflexivity |].
  unfold conflictWhere. intros H.
  apply andb_true_iff in H as [_ H]. apply orb_true_iff in H as [H | H];
    apply andb_true_iff in H as [H1 H2]; apply Z.leb_le in H1, H2; lia.
Qed.

Lemma availability_misses_classes_inside_window_witness :
  checkAvailability
    [Sample.aulaOn 10 (mkDate 2024 0 2 9 30) (mkDate 2024 0 2 10 0) agendado]
    (mkBody (Some 10) (Some 2) (Some (9, 0)) (Some (11, 0))
       (Some (mkDate 2024 0 1 0 0)) (Some (mkDate 2024 0 31 0 0)))
  = Json true 0.
Proof.
  apply (availability_misses_classes_inside_window
           [Sample.aulaOn 10 (mkDate 2024 0 2 9 30) (mkDate 2024 0 2 10 0) agendado]
           10 2 (9, 0) (11, 0) (mkDate 2024 0 1 0 0) (mkDate 2024 0 31 0 0)).
  - discriminate.
  - repeat constructor; vm_compute; reflexivity.
Defined.

End ProfessorAvailability.
